(** * Burst Capital portfolio jobs scraper: a shallow embedding of
      [.github/workflows/scraper.py] and the properties of its
      detection-and-extraction engine.

    Conventions of the embedding.
    - Python [str] values are [string]s.  [str.lower], [str.capitalize]
      and [len], whose results depend on the Unicode tables and on the
      encoding, are operations of the runtime and come with [Lib].
      Whitespace is the ASCII one: [PyStr.strip] is what [str.strip]
      computes on text whose whitespace is ASCII.
    - Values coming out of [r.json()] / [json.loads] are [pyval]s; the
      dynamic checks Python performs on them ([.get] on a non-dict, [.strip]
      on a non-str, subscripting, iteration) are written out and raise.
    - Code that can raise returns a [result]; code that talks to the network
      runs in the monad [M], which threads the trace of network calls made
      so far and can raise.
    - The network, the headless browser and the libraries (bs4, which can
      reject a document, urllib.parse.urljoin, json.loads, the alternation
      regexes, the case mappings of [str]) are parameters: a [World] and a
      [Lib]. *)

From Stdlib Require Import ZArith Ascii String List Lia.
From stdpp Require Import base strings gmap list.

Local Open Scope string_scope.
Local Open Scope list_scope.
Set Warnings "-register-all".

(* ------------------------------------------------------------------ *)
(** ** Python string primitives *)

Module PyStr.

Definition is_empty (s : string) : bool :=
  match s with EmptyString => true | String _ _ => false end.

(** [bool(s)] for a str. *)
Definition nonempty (s : string) : bool := negb (is_empty s).

Definition char_in_range (lo hi c : ascii) : bool :=
  (N_of_ascii lo <=? N_of_ascii c)%N && (N_of_ascii c <=? N_of_ascii hi)%N.

Definition is_upper (c : ascii) : bool := char_in_range "A" "Z" c.
Definition is_lower (c : ascii) : bool := char_in_range "a" "z" c.
Definition is_digit (c : ascii) : bool := char_in_range "0" "9" c.

(** ASCII characters for which [str.isspace] holds: TAB, LF, VT, FF, CR,
    FS, GS, RS, US and the space. *)
Definition is_space (c : ascii) : bool :=
  char_in_range "009" "013" c || char_in_range "028" "032" c.

(** [s.lstrip(chars)], with [chars] given as a predicate. *)
Fixpoint lstrip_chars (p : ascii -> bool) (s : string) : string :=
  match s with
  | EmptyString => EmptyString
  | String c s' => if p c then lstrip_chars p s' else s
  end.

(** [s.rstrip(chars)] *)
Fixpoint rstrip_chars (p : ascii -> bool) (s : string) : string :=
  match s with
  | EmptyString => EmptyString
  | String c s' =>
      let r := rstrip_chars p s' in
      if p c && is_empty r then EmptyString else String c r
  end.

(** [s.strip()], on text whose whitespace is ASCII *)
Definition strip (s : string) : string :=
  lstrip_chars is_space (rstrip_chars is_space s).

(** [s.rstrip("/")] *)
Definition rstrip_slash (s : string) : string :=
  rstrip_chars (Ascii.eqb "/") s.

(** [s.startswith(p)]; on success also gives what follows [p]. *)
Fixpoint strip_prefix (p s : string) : option string :=
  match p with
  | EmptyString => Some s
  | String a p' =>
      match s with
      | EmptyString => None
      | String b s' => if Ascii.eqb a b then strip_prefix p' s' else None
      end
  end.

Definition startswith (s p : string) : bool :=
  match strip_prefix p s with Some _ => true | None => false end.

(** [needle in hay] *)
Fixpoint contains (needle hay : string) : bool :=
  startswith hay needle ||
  match hay with
  | EmptyString => false
  | String _ hay' => contains needle hay'
  end.

(** [sep.join(l)] *)
Fixpoint join (sep : string) (l : list string) : string :=
  match l with
  | [] => EmptyString
  | [x] => x
  | x :: l' => x +:+ sep +:+ join sep l'
  end.

End PyStr.

(* ------------------------------------------------------------------ *)
(** ** The regular expressions of the form  literal + character class *)

Module Re.

(** The longest prefix of [s] made of characters satisfying [cls]
    (a greedy [[cls]*]). *)
Fixpoint take_while (cls : ascii -> bool) (s : string) : string :=
  match s with
  | EmptyString => EmptyString
  | String c s' => if cls c then String c (take_while cls s') else EmptyString
  end.

(** Exactly [n] characters satisfying [cls] at the start of [s]
    ([[cls]{n}]). *)
Fixpoint take_exact (cls : ascii -> bool) (n : nat) (s : string) : option string :=
  match n with
  | O => Some EmptyString
  | S n' =>
      match s with
      | EmptyString => None
      | String c s' =>
          if cls c then
            match take_exact cls n' s' with
            | Some g => Some (String c g)
            | None => None
            end
          else None
      end
  end.

(** Leftmost match of a matcher that is tried at every position of the
    subject, as [re.search] does. *)
Fixpoint leftmost (here : string -> option string) (s : string) : option string :=
  match here s with
  | Some g => Some g
  | None =>
      match s with
      | EmptyString => None
      | String _ s' => leftmost here s'
      end
  end.

(** [re.search(lit + "([cls]+)", s)]: group 1 of the leftmost match. *)
Definition search_lit_plus (lit : string) (cls : ascii -> bool) (s : string)
  : option string :=
  leftmost (fun t =>
    match PyStr.strip_prefix lit t with
    | Some rest =>
        let g := take_while cls rest in
        if PyStr.is_empty g then None else Some g
    | None => None
    end) s.

(** [re.search(lit + "([cls]{n})", s)]: group 1 of the leftmost match. *)
Definition search_lit_exact (lit : string) (cls : ascii -> bool) (n : nat)
    (s : string) : option string :=
  leftmost (fun t =>
    match PyStr.strip_prefix lit t with
    | Some rest => take_exact cls n rest
    | None => None
    end) s.

(** [[a-zA-Z0-9_-]] *)
Definition slug_char (c : ascii) : bool :=
  PyStr.is_lower c || PyStr.is_upper c || PyStr.is_digit c ||
  Ascii.eqb c "_" || Ascii.eqb c "-".

(** [[0-9a-f-]] *)
Definition hex_dash_char (c : ascii) : bool :=
  PyStr.is_digit c || PyStr.char_in_range "a" "f" c || Ascii.eqb c "-".

(** [[^/]] *)
Definition not_slash (c : ascii) : bool := negb (Ascii.eqb c "/").

(** [re.search(lit + "([a-zA-Z0-9_-]+)", s)], [lit] being the pattern's
    literal part with its escapes removed. *)
Definition search_slug (lit : string) (s : string) : option string :=
  search_lit_plus lit slug_char s.

End Re.

(* ------------------------------------------------------------------ *)
(** ** ATS detection *)

(** [a or b] on match objects. *)
Definition or_else {A} (a b : option A) : option A :=
  match a with Some _ => a | None => b end.

(** [detect_ats_from_html(html, page_url)]; the pair is (ats, slug), [None]
    standing for Python's [None]. *)
Definition detect_ats_from_html (html page_url : string)
  : option string * option string :=
  if PyStr.is_empty html then (None, None)
  else if PyStr.contains "ashby_jid=" html then
    match Re.search_slug "ashbyhq.com/" html with
    | Some g => (Some "ashby", Some g)
    | None => (Some "ashby_embedded", Some page_url)
    end
  else if PyStr.contains "jobs.ashbyhq.com" html then
    match Re.search_slug "jobs.ashbyhq.com/" html with
    | Some g => (Some "ashby", Some g)
    | None => (None, None)
    end
  else if PyStr.contains "greenhouse.io" html || PyStr.contains "grnh.se" html then
    match or_else (Re.search_slug "boards.greenhouse.io/" html)
            (or_else (Re.search_slug "job-boards.greenhouse.io/" html)
                     (Re.search_slug "greenhouse.io/embed/job_board?for=" html)) with
    | Some g => (Some "greenhouse", Some g)
    | None => (None, None)
    end
  else if PyStr.contains "lever.co" html then
    match Re.search_slug "jobs.lever.co/" html with
    | Some g => (Some "lever", Some g)
    | None => (None, None)
    end
  else if PyStr.contains "apply.workable.com" html || PyStr.contains "workable.com" html then
    match Re.search_slug "apply.workable.com/" html with
    | Some g => (Some "workable", Some g)
    | None => (None, None)
    end
  else if PyStr.contains "ats.rippling.com" html || PyStr.contains "rippling-ats.com" html then
    match Re.search_slug "ats.rippling.com/" html with
    | Some g => (Some "rippling", Some g)
    | None => (None, None)
    end
  else (None, None).

(** The [checks] table of [detect_ats_from_url]: (literal part of the
    pattern, ats). *)
Definition url_checks : list (string * string) :=
  [ ("boards.greenhouse.io/", "greenhouse");
    ("job-boards.greenhouse.io/", "greenhouse");
    ("jobs.lever.co/", "lever");
    ("jobs.ashbyhq.com/", "ashby");
    ("ashbyhq.com/", "ashby");
    ("apply.workable.com/", "workable");
    ("ats.rippling.com/", "rippling") ].

Fixpoint first_check (checks : list (string * string)) (url : string)
  : option string * option string :=
  match checks with
  | [] => (None, None)
  | (lit, ats) :: rest =>
      match Re.search_slug lit url with
      | Some g => (Some ats, Some g)
      | None => first_check rest url
      end
  end.

(** [detect_ats_from_url(url)] *)
Definition detect_ats_from_url (url : string) : option string * option string :=
  if PyStr.is_empty url then (None, None) else first_check url_checks url.

(* ------------------------------------------------------------------ *)
(** ** Exceptions *)

Inductive exn : Type :=
| AttributeError | KeyError | IndexError | TypeError | ValueError
| JSONDecodeError | RequestException | PlaywrightError
| ParserRejectedMarkup.

Inductive result (A : Type) : Type :=
| Ok (a : A)
| Raise (e : exn).
Arguments Ok {A} a.
Arguments Raise {A} e.

Definition rbind {A B} (m : result A) (k : A -> result B) : result B :=
  match m with
  | Ok a => k a
  | Raise e => Raise e
  end.

Notation "x <-? m ;; k" := (rbind m (fun x => k))
  (at level 100, m at next level, right associativity).

(** [[f(x) for x in l]], stopping at the first exception. *)
Fixpoint mapM {A B} (f : A -> result B) (l : list A) : result (list B) :=
  match l with
  | [] => Ok []
  | x :: l' => y <-? f x ;; ys <-? mapM f l' ;; Ok (y :: ys)
  end.

(* ------------------------------------------------------------------ *)
(** ** Python values decoded from JSON *)

(** Numbers are the integers (JSON floats are outside the model); [PDict]
    lists the items of a dict, whose keys are distinct. *)
Inductive pyval : Type :=
| PNone
| PBool (b : bool)
| PInt (n : Z)
| PStr (s : string)
| PList (l : list pyval)
| PDict (items : list (string * pyval)).

Module Py.

(** [bool(v)] *)
Definition truthy (v : pyval) : bool :=
  match v with
  | PNone => false
  | PBool b => b
  | PInt n => negb (n =? 0)%Z
  | PStr s => PyStr.nonempty s
  | PList l => match l with [] => false | _ => true end
  | PDict items => match items with [] => false | _ => true end
  end.

(** [a or b] *)
Definition por (a b : pyval) : pyval := if truthy a then a else b.

Fixpoint lookup_item (items : list (string * pyval)) (k : string) : option pyval :=
  match items with
  | [] => None
  | (k', v) :: rest => if String.eqb k' k then Some v else lookup_item rest k
  end.

(** [v.get(k, default)]: only a dict has [.get]. *)
Definition get (v : pyval) (k : string) (default : pyval) : result pyval :=
  match v with
  | PDict items =>
      Ok (match lookup_item items k with Some x => x | None => default end)
  | _ => Raise AttributeError
  end.

(** [v[k]] for a str key [k] *)
Definition subscript (v : pyval) (k : string) : result pyval :=
  match v with
  | PDict items =>
      match lookup_item items k with Some x => Ok x | None => Raise KeyError end
  | _ => Raise TypeError
  end.

(** [v[0]] *)
Definition index0 (v : pyval) : result pyval :=
  match v with
  | PList (x :: _) => Ok x
  | PList [] => Raise IndexError
  | PStr (String c _) => Ok (PStr (String c EmptyString))
  | PStr EmptyString => Raise IndexError
  | PDict _ => Raise KeyError
  | _ => Raise TypeError
  end.

Fixpoint chars (s : string) : list pyval :=
  match s with
  | EmptyString => []
  | String c s' => PStr (String c EmptyString) :: chars s'
  end.

(** The elements [for x in v] runs over. *)
Definition iter (v : pyval) : result (list pyval) :=
  match v with
  | PList l => Ok l
  | PStr s => Ok (chars s)
  | PDict items => Ok (map (fun kv => PStr (fst kv)) items)
  | _ => Raise TypeError
  end.

Definition is_list (v : pyval) : bool :=
  match v with PList _ => true | _ => false end.

Definition is_dict (v : pyval) : bool :=
  match v with PDict _ => true | _ => false end.

(** [v.strip()]: only a str has [.strip]. *)
Definition str_strip (v : pyval) : result string :=
  match v with
  | PStr s => Ok (PyStr.strip s)
  | _ => Raise AttributeError
  end.

(** [v == s] for a str literal [s] *)
Definition eq_str (v : pyval) (s : string) : bool :=
  match v with PStr s' => String.eqb s' s | _ => false end.

End Py.

(* ------------------------------------------------------------------ *)
(** ** Job records *)

(** The dict built by [make_job].  [url] is whatever value the source
    item carried (a str in every well-formed response). *)
Record Job : Type := {
  title : string;
  department : string;
  location : string;
  url : pyval;
  company : string;
  company_website : string;
}.

(** [make_job(title, department, location, url, company)] *)
Definition make_job (title department location url : pyval) (company : string)
  : result Job :=
  t <-? Py.str_strip title ;;
  d <-? Py.str_strip (Py.por department (PStr "General")) ;;
  l <-? Py.str_strip (Py.por location (PStr "Not specified")) ;;
  Ok {| title := t; department := d; location := l; url := url;
        company := company; company_website := "" |}.

(** [j["company_website"] = website] *)
Definition set_company_website (website : string) (j : Job) : Job :=
  {| title := j.(title); department := j.(department);
     location := j.(location); url := j.(url); company := j.(company);
     company_website := website |}.

Definition is_Some_b {A} (o : option A) : bool :=
  match o with Some _ => true | None => false end.

(** [bool(jobs)] *)
Definition nonempty_list {A} (l : list A) : bool :=
  match l with [] => false | _ => true end.

(* ------------------------------------------------------------------ *)
(** ** The outside world and the third-party libraries *)

(** What the code reads off a [requests.Response]; [r_json] is [r.json()],
    which raises when the body is not JSON. *)
Record Response : Type := {
  r_status_code : Z;
  r_text : string;
  r_url : string;
  r_json : result pyval;
}.

(** Network calls, in the order they were made. *)
Inductive event : Type :=
| EvGet (u : string)
| EvPost (u : string)
| EvBrowser (u : string).

Definition trace := list event.

(** The answers of the outside world.  A call is identified by the number
    of calls made before it and by its URL; [None] is a raised exception
    (timeout, refused connection, navigation failure). *)
Record World : Type := {
  HAS_PLAYWRIGHT : bool;
  page_content : nat -> string -> option string;
  requests_get : nat -> string -> option Response;
  requests_post : nat -> string -> option Response;
}.

(** An anchor of [soup.find_all("a", href=True)]: its [href], its text
    nodes, and the text nodes of [a.find_parent()] when there is one. *)
Record Anchor : Type := {
  a_href : string;
  a_strings : list string;
  parent_strings : option (list string);
}.

(** A tag of [soup.find_all(class_=re.compile(...))]: the result of
    [container.find("a", href=True)] and the tag's text nodes. *)
Record Container : Type := {
  c_anchor : option Anchor;
  c_strings : list string;
}.

(** The views of a parsed document that the scraper uses. *)
Record Soup : Type := {
  anchors : list Anchor;
  ld_json_scripts : list (option string);
  class_containers : list Container;
}.

Record Lib : Type := {
  (** [BeautifulSoup(html, "html.parser")]; raises ParserRejectedMarkup
      on markup that html.parser rejects *)
  BeautifulSoup : string -> result Soup;
  (** [urljoin(base, url)]; raises ValueError on a malformed reference *)
  urljoin : string -> string -> result string;
  (** [json.loads(s)] *)
  json_loads : string -> result pyval;
  (** [re.search(pattern, s, re.I if ignorecase else 0)], giving group 1 *)
  re_search : string -> bool -> string -> option string;
  (** [re.sub(pattern, repl, s)] *)
  re_sub : string -> string -> string -> string;
  (** how an f-string renders a value that is not a str *)
  format_value : pyval -> string;
  (** [s.lower()] *)
  str_lower : string -> string;
  (** [s.capitalize()] *)
  str_capitalize : string -> string;
  (** [len(s)] *)
  str_len : string -> nat;
}.

(** [tag.get_text(strip=True)] from the tag's text nodes: each is stripped,
    the empty ones are dropped, the rest concatenated. *)
Definition stripped_strings (strings : list string) : list string :=
  List.filter PyStr.nonempty (List.map PyStr.strip strings).

Definition get_text_strip (strings : list string) : string :=
  PyStr.join "" (stripped_strings strings).

(** [tag.get_text(" ", strip=True)] *)
Definition get_text_sep_strip (strings : list string) : string :=
  PyStr.join " " (stripped_strings strings).

(* ------------------------------------------------------------------ *)
(** ** The monad of network code *)

Definition M (A : Type) : Type := trace -> trace * result A.

Definition ret {A} (a : A) : M A := fun tr => (tr, Ok a).

Definition bind {A B} (m : M A) (k : A -> M B) : M B :=
  fun tr =>
    match m tr with
    | (tr', Ok a) => k a tr'
    | (tr', Raise e) => (tr', Raise e)
    end.

Notation "x <- m ;; k" := (bind m (fun x => k))
  (at level 100, m at next level, right associativity).

(** A computation that makes no network call. *)
Definition lift {A} (r : result A) : M A := fun tr => (tr, r).

(** [try: m  except Exception as e: h(e)] *)
Definition try_except {A} (m : M A) (h : exn -> M A) : M A :=
  fun tr =>
    match m tr with
    | (tr', Ok a) => (tr', Ok a)
    | (tr', Raise e) => h e tr'
    end.

Section Scraper.

Variable W : World.
Variable L : Lib.

Definition of_option {A} (e : exn) (o : option A) : result A :=
  match o with Some a => Ok a | None => Raise e end.

(** [requests.get(url, headers=HEADERS, timeout=REQUEST_TIMEOUT, ...)] *)
Definition http_get (u : string) : M Response :=
  fun tr => (tr ++ [EvGet u],
             of_option RequestException (requests_get W (List.length tr) u)).

(** [requests.post(url, json=..., ...)] *)
Definition http_post (u : string) : M Response :=
  fun tr => (tr ++ [EvPost u],
             of_option RequestException (requests_post W (List.length tr) u)).

(** The [with sync_playwright()] block: navigate and read [page.content()]. *)
Definition browse (u : string) : M string :=
  fun tr => (tr ++ [EvBrowser u],
             of_option PlaywrightError (page_content W (List.length tr) u)).

(** [fetch_html(url, use_playwright)]; [None] is Python's [None]. *)
Definition fetch_html (u : string) (use_playwright : bool) : M (option string) :=
  rendered <-
    (if use_playwright && HAS_PLAYWRIGHT W then
       try_except (html <- browse u ;; ret (Some html)) (fun _ => ret None)
     else ret None) ;;
  match rendered with
  | Some html => ret (Some html)
  | None =>
      try_except
        (r <- http_get u ;;
         if (r.(r_status_code) =? 200)%Z then ret (Some r.(r_text)) else ret None)
        (fun _ => ret None)
  end.

(** [bool(html)] for the result of [fetch_html] *)
Definition html_ok (html : option string) : bool :=
  match html with Some h => PyStr.nonempty h | None => false end.


(** [bool(x)] for a str-or-None *)
Definition opt_truthy (x : option string) : bool :=
  match x with Some s => PyStr.nonempty s | None => false end.

(** the str inside a str-or-None that has been tested truthy *)
Definition opt_str (x : option string) : string :=
  match x with Some s => s | None => "" end.

(** [m.group(1) if m else ""] *)
Definition group1_or (default : string) (m : option string) : string :=
  match m with Some g => g | None => default end.

(** [parent.get_text(" ", strip=True) if parent else ""] *)
Definition parent_text (a : Anchor) : string :=
  match a.(parent_strings) with
  | Some ps => get_text_sep_strip ps
  | None => ""
  end.

(* ------------------------------------------------------------------ *)
(** ** Ashby, embedded *)

Definition LOC_RE_JID : string :=
  "\b(Remote|New York|San Francisco|Los Angeles|Austin|London|Chicago|Seattle|Boston|Denver|NYC|SF|Portland|Atlanta|Miami|Washington|Philadelphia|Toronto|Vancouver|Berlin|Paris|Amsterdam)\b".

Definition LOC_RE_BOARD : string :=
  "\b(Remote|New York|San Francisco|Los Angeles|Austin|London|Chicago|Seattle|Boston|Denver|NYC|SF|Portugal|Tokyo)\b".

(** Pattern 1 of [scrape_ashby_embedded]: the loop over the anchors whose
    href carries [ashby_jid=]. *)
Fixpoint embedded_jid_links (jobs_url company : string) (l : list Anchor)
    (jobs : list Job) (seen : gset string) : result (list Job * gset string) :=
  match l with
  | [] => Ok (jobs, seen)
  | a :: rest =>
      let h := a.(a_href) in
      if negb (PyStr.contains "ashby_jid=" h) then
        embedded_jid_links jobs_url company rest jobs seen
      else
        let t := PyStr.strip
                   (re_sub L "\s*View\s*$" "" (get_text_strip a.(a_strings))) in
        if negb (PyStr.nonempty t) || bool_decide (t ∈ seen)
           || (str_len L t <? 3)%nat then
          embedded_jid_links jobs_url company rest jobs seen
        else
          let seen' := {[ t ]} ∪ seen in
          job_url <-?
            match Re.search_lit_exact "ashby_jid=" Re.hex_dash_char 36 h with
            | Some uuid => Ok ("https://app.ashbyhq.com/jobs/" +:+ uuid)
            | None => urljoin L jobs_url h
            end ;;
          let loc_m := re_search L LOC_RE_JID true (parent_text a) in
          job <-? make_job (PStr t) (PStr "General") (PStr (group1_or "" loc_m))
                    (PStr job_url) company ;;
          embedded_jid_links jobs_url company rest (jobs ++ [job]) seen'
  end.

(** Pattern 2 of [scrape_ashby_embedded]: the loop over the links of an
    Ashby-hosted board. *)
Fixpoint embedded_board_links (jobs_url company : string) (slug : option string)
    (l : list Anchor) (jobs : list Job) (seen : gset string)
  : result (list Job * gset string) :=
  match l with
  | [] => Ok (jobs, seen)
  | a :: rest =>
      full <-? urljoin L jobs_url a.(a_href) ;;
      if opt_truthy slug
         && negb (PyStr.contains ("/" +:+ opt_str slug +:+ "/") full)
         && negb (PyStr.contains ("ashbyhq.com/" +:+ opt_str slug +:+ "/") full) then
        embedded_board_links jobs_url company slug rest jobs seen
      else if negb (is_Some_b (Re.search_lit_exact "/" Re.hex_dash_char 36 full)) then
        embedded_board_links jobs_url company slug rest jobs seen
      else
        let t := get_text_strip a.(a_strings) in
        if negb (PyStr.nonempty t) || bool_decide (t ∈ seen)
           || (str_len L t <? 3)%nat then
          embedded_board_links jobs_url company slug rest jobs seen
        else
          let seen' := {[ t ]} ∪ seen in
          let loc_m := re_search L LOC_RE_BOARD true (parent_text a) in
          job <-? make_job (PStr t) (PStr "General") (PStr (group1_or "" loc_m))
                    (PStr full) company ;;
          embedded_board_links jobs_url company slug rest (jobs ++ [job]) seen'
  end.

(** [scrape_ashby_embedded(jobs_url, company)] *)
Definition scrape_ashby_embedded (jobs_url company : string) : M (list Job) :=
  html <- fetch_html jobs_url true ;;
  if negb (html_ok html) then ret []
  else
    soup <- lift (BeautifulSoup L (opt_str html)) ;;
    p1 <- lift (embedded_jid_links jobs_url company soup.(anchors) [] ∅) ;;
    let '(jobs, seen) := p1 in
    if negb (nonempty_list jobs) then
      let slug := Re.search_lit_plus "ashbyhq.com/" Re.not_slash jobs_url in
      p2 <- lift (embedded_board_links jobs_url company slug soup.(anchors)
                    jobs seen) ;;
      ret (fst p2)
    else ret jobs.

(* ------------------------------------------------------------------ *)
(** ** The generic adapter *)

Definition LOC_RE_GENERIC : string :=
  "\b(Remote|New York|San Francisco|Los Angeles|Austin|London|Chicago|Seattle|Boston|Denver|[A-Z][a-z]+,\s*[A-Z]{2})\b".

Definition TITLE_RE : string :=
  "(engineer|manager|designer|analyst|director|specialist|coordinator|lead|head of|vp |senior|junior|intern|developer|scientist|recruiter|executive|associate)".

(** One [item] of a ld+json script: [None] when it is not a JobPosting. *)
Definition schema_item (jobs_url company : string) (item : pyval)
  : result (option Job) :=
  ty <-? Py.get item "@type" PNone ;;
  if Py.eq_str ty "JobPosting" then
    jl <-? Py.get item "jobLocation" PNone ;;
    let loc_obj := Py.por jl (PDict []) in
    ad <-? Py.get loc_obj "address" PNone ;;
    let addr := Py.por ad (PDict []) in
    loc <-? (if Py.is_dict addr then Py.get addr "addressLocality" (PStr "")
             else Ok (PStr "")) ;;
    t <-? Py.get item "title" (PStr "") ;;
    d <-? Py.get item "occupationalCategory" (PStr "General") ;;
    u <-? Py.get item "url" (PStr jobs_url) ;;
    job <-? make_job t d loc u company ;;
    Ok (Some job)
  else Ok None.

(** The inner [for item in ...] loop; an exception leaves the loop and is
    swallowed by the script's [except Exception: pass], the records
    appended so far staying in [jobs]. *)
Fixpoint schema_items (jobs_url company : string) (items : list pyval)
    (jobs : list Job) : list Job :=
  match items with
  | [] => jobs
  | item :: rest =>
      match schema_item jobs_url company item with
      | Ok (Some job) => schema_items jobs_url company rest (jobs ++ [job])
      | Ok None => schema_items jobs_url company rest jobs
      | Raise _ => jobs
      end
  end.

(** The loop over the [application/ld+json] scripts. *)
Fixpoint schema_scripts (jobs_url company : string)
    (scripts : list (option string)) (jobs : list Job) : list Job :=
  match scripts with
  | [] => jobs
  | script :: rest =>
      let jobs' :=
        match json_loads L (opt_str script) with
        | Ok d =>
            schema_items jobs_url company
              (match d with PList l => l | _ => [d] end) jobs
        | Raise _ => jobs
        end in
      schema_scripts jobs_url company rest jobs'
  end.

(** The loop over the class-keyword containers. *)
Fixpoint class_heuristic (jobs_url company : string) (l : list Container)
    (jobs : list Job) (seen : gset string) : result (list Job * gset string) :=
  match l with
  | [] => Ok (jobs, seen)
  | c :: rest =>
      match c.(c_anchor) with
      | None => class_heuristic jobs_url company rest jobs seen
      | Some a =>
          let t := get_text_strip a.(a_strings) in
          if negb (PyStr.nonempty t) || (str_len L t <? 3)%nat
             || bool_decide (t ∈ seen) then
            class_heuristic jobs_url company rest jobs seen
          else
            let seen' := {[ t ]} ∪ seen in
            let loc_m :=
              re_search L LOC_RE_GENERIC false (get_text_sep_strip c.(c_strings)) in
            u <-? urljoin L jobs_url a.(a_href) ;;
            job <-? make_job (PStr t) (PStr "General")
                      (PStr (group1_or "" loc_m)) (PStr u) company ;;
            class_heuristic jobs_url company rest (jobs ++ [job]) seen'
      end
  end.

(** The last-resort scan of all links. *)
Fixpoint link_scan (jobs_url company : string) (l : list Anchor)
    (jobs : list Job) (seen : gset string) : result (list Job * gset string) :=
  match l with
  | [] => Ok (jobs, seen)
  | a :: rest =>
      let t := get_text_strip a.(a_strings) in
      if (5 <? str_len L t)%nat && (str_len L t <? 100)%nat
         && is_Some_b (re_search L TITLE_RE true t) then
        full_url <-? urljoin L jobs_url a.(a_href) ;;
        if negb (bool_decide (full_url ∈ seen)) then
          job <-? make_job (PStr t) (PStr "General") (PStr "")
                    (PStr full_url) company ;;
          link_scan jobs_url company rest (jobs ++ [job]) ({[ full_url ]} ∪ seen)
        else link_scan jobs_url company rest jobs seen
      else link_scan jobs_url company rest jobs seen
  end.

(** [scrape_generic(jobs_url, company)] (the file defines it twice, with
    the same body; the second definition is the one in force). *)
Definition scrape_generic (jobs_url company : string) : M (list Job) :=
  if negb (PyStr.nonempty jobs_url) then ret []
  else
    html <- fetch_html jobs_url true ;;
    if negb (html_ok html) then ret []
    else if PyStr.contains "ashby_jid=" (opt_str html) then
      scrape_ashby_embedded jobs_url company
    else
      soup <- lift (BeautifulSoup L (opt_str html)) ;;
      let jobs := schema_scripts jobs_url company soup.(ld_json_scripts) [] in
      if nonempty_list jobs then ret jobs
      else
        p1 <- lift (class_heuristic jobs_url company
                      (take 150 soup.(class_containers)) jobs ∅) ;;
        let '(jobs1, seen) := p1 in
        if nonempty_list jobs1 then ret jobs1
        else
          p2 <- lift (link_scan jobs_url company soup.(anchors) jobs1 seen) ;;
          ret (take 200 (fst p2)).


(* ------------------------------------------------------------------ *)
(** ** The API adapters *)

(** how an f-string renders [v] *)
Definition fmt (v : pyval) : string :=
  match v with PStr s => s | _ => format_value L v end.

(** One posting of the Greenhouse response. *)
Definition greenhouse_job (company fallback_url : string) (j : pyval)
  : result Job :=
  depts <-? Py.get j "departments" (PList [PDict []]) ;;
  dept <-? (if Py.truthy depts then
              d0 <-? Py.index0 depts ;; Py.subscript d0 "name"
            else Ok (PStr "General")) ;;
  lo <-? Py.get j "location" (PDict []) ;;
  loc <-? Py.get lo "name" (PStr "") ;;
  t <-? Py.get j "title" (PStr "") ;;
  u <-? Py.get j "absolute_url" (PStr fallback_url) ;;
  make_job t dept loc u company.

(** [scrape_greenhouse(slug, company, fallback_url)] *)
Definition scrape_greenhouse (slug company fallback_url : string) : M (list Job) :=
  try_except
    (r <- http_get ("https://boards-api.greenhouse.io/v1/boards/" +:+ slug
                    +:+ "/jobs?content=true") ;;
     body <- lift r.(r_json) ;;
     raw <- lift (Py.get body "jobs" (PList [])) ;;
     items <- lift (Py.iter raw) ;;
     lift (mapM (greenhouse_job company fallback_url) items))
    (fun _ => scrape_generic fallback_url company).

(** One posting of the Lever response. *)
Definition lever_job (company fallback_url : string) (j : pyval) : result Job :=
  cats <-? Py.get j "categories" (PDict []) ;;
  dflt <-? Py.get cats "department" (PStr "General") ;;
  dept <-? Py.get cats "team" dflt ;;
  l0 <-? Py.get cats "location" (PStr "") ;;
  locs <-? Py.get cats "allLocations" (PList [l0]) ;;
  loc <-? (if Py.truthy locs then Py.index0 locs else Ok (PStr "")) ;;
  t <-? Py.get j "text" (PStr "") ;;
  u <-? Py.get j "hostedUrl" (PStr fallback_url) ;;
  make_job t dept loc u company.

(** [scrape_lever(slug, company, fallback_url)] *)
Definition scrape_lever (slug company fallback_url : string) : M (list Job) :=
  try_except
    (r <- http_get ("https://api.lever.co/v0/postings/" +:+ slug +:+ "?mode=json") ;;
     data <- lift r.(r_json) ;;
     if negb (Py.is_list data) then lift (Raise ValueError)
     else
       items <- lift (Py.iter data) ;;
       lift (mapM (lever_job company fallback_url) items))
    (fun _ => scrape_generic fallback_url company).

(** One posting of the Ashby response. *)
Definition ashby_job (company fallback_url : string) (j : pyval) : result Job :=
  ln <-? Py.get j "locationName" PNone ;;
  lc <-? Py.get j "location" PNone ;;
  rm <-? Py.get j "isRemote" PNone ;;
  let loc := Py.por ln (Py.por lc (if Py.truthy rm then PStr "Remote" else PStr "")) in
  dn <-? Py.get j "departmentName" PNone ;;
  dp <-? Py.get j "department" PNone ;;
  tm <-? Py.get j "team" PNone ;;
  let dept := Py.por dn (Py.por dp (Py.por tm (PStr "General"))) in
  pu <-? Py.get j "jobPostingUrl" PNone ;;
  ju <-? Py.get j "jobUrl" PNone ;;
  let u := Py.por pu (Py.por ju (PStr fallback_url)) in
  t <-? Py.get j "title" (PStr "") ;;
  make_job t dept loc u company.

(** The URL of the Ashby job-board endpoint for one slug variant. *)
Definition ashby_endpoint (try_slug : string) : string :=
  "https://api.ashbyhq.com/posting-api/job-board/" +:+ try_slug.

(** The body of the [try] in [scrape_ashby], up to the list [jobs]. *)
Definition ashby_attempt (try_slug company fallback_url : string) : M (list Job) :=
  r <- http_get (ashby_endpoint try_slug) ;;
  data <- lift r.(r_json) ;;
  jp <- lift (Py.get data "jobPostings" PNone) ;;
  js <- lift (Py.get data "jobs" PNone) ;;
  let raw := Py.por jp (Py.por js (PList [])) in
  items <- lift (Py.iter raw) ;;
  lift (mapM (ashby_job company fallback_url) items).

(** The [for try_slug in ...] loop of [scrape_ashby], followed by what
    comes after it. *)
Fixpoint ashby_loop (variants : list string) (company fallback_url : string)
  : M (list Job) :=
  match variants with
  | [] => scrape_ashby_embedded fallback_url company
  | try_slug :: rest =>
      returned <-
        try_except
          (jobs <- ashby_attempt try_slug company fallback_url ;;
           if nonempty_list jobs then ret (Some jobs) else ret None)
          (fun _ => ret None) ;;
      match returned with
      | Some jobs => ret jobs
      | None => ashby_loop rest company fallback_url
      end
  end.

(** [scrape_ashby(slug, company, fallback_url)] *)
Definition scrape_ashby (slug company fallback_url : string) : M (list Job) :=
  ashby_loop [slug; str_lower L slug; str_capitalize L slug]
    company fallback_url.

(** One posting of the Workable response. *)
Definition workable_job (slug company : string) (j : pyval) : result Job :=
  lo <-? Py.get j "location" PNone ;;
  loc0 <-? (if Py.truthy lo then
              lo' <-? Py.get j "location" (PDict []) ;; Py.get lo' "city" (PStr "")
            else Ok (PStr "")) ;;
  rm <-? Py.get j "remote" PNone ;;
  let loc := if Py.truthy rm then PStr "Remote" else loc0 in
  t <-? Py.get j "title" (PStr "") ;;
  d <-? Py.get j "department" (PStr "General") ;;
  sc <-? Py.get j "shortcode" (PStr "") ;;
  make_job t d loc
    (PStr ("https://apply.workable.com/" +:+ slug +:+ "/j/" +:+ fmt sc +:+ "/"))
    company.

(** [scrape_workable(slug, company, fallback_url)] *)
Definition scrape_workable (slug company fallback_url : string) : M (list Job) :=
  try_except
    (r <- http_post ("https://apply.workable.com/api/v3/accounts/" +:+ slug
                     +:+ "/jobs") ;;
     body <- lift r.(r_json) ;;
     raw <- lift (Py.get body "results" (PList [])) ;;
     items <- lift (Py.iter raw) ;;
     lift (mapM (workable_job slug company) items))
    (fun _ => scrape_generic fallback_url company).

(** One posting of the Rippling response. *)
Definition rippling_job (slug company fallback_url : string) (j : pyval)
  : result Job :=
  nm <-? Py.get j "name" (PStr "") ;;
  t <-? Py.get j "title" nm ;;
  tm <-? Py.get j "team" (PStr "General") ;;
  dp <-? Py.get j "department" tm ;;
  let dept0 := Py.por dp (PStr "General") in
  dept <-? (if Py.is_dict dept0 then Py.get dept0 "name" (PStr "General")
            else Ok dept0) ;;
  ln <-? Py.get j "locationName" (PStr "") ;;
  loc0 <-? Py.get j "location" ln ;;
  loc1 <-? (if Py.is_dict loc0 then
              n <-? Py.get loc0 "name" (PStr "") ;; Py.get loc0 "city" n
            else Ok loc0) ;;
  rm <-? Py.get j "remote" PNone ;;
  let loc := if Py.truthy rm then PStr "Remote" else loc1 in
  sl <-? Py.get j "slug" (PStr "") ;;
  job_id <-? Py.get j "id" sl ;;
  let job_url :=
    if Py.truthy job_id then
      "https://ats.rippling.com/" +:+ slug +:+ "/jobs/" +:+ fmt job_id
    else fallback_url in
  make_job t dept loc (PStr job_url) company.

(** [scrape_rippling(slug, company, fallback_url)] *)
Definition scrape_rippling (slug company fallback_url : string) : M (list Job) :=
  returned <-
    try_except
      (r <- http_get ("https://ats.rippling.com/api/v1/" +:+ slug
                      +:+ "/jobs?limit=200") ;;
       data <- lift r.(r_json) ;;
       raw <- (if Py.is_list data then ret data
               else
                 rs <- lift (Py.get data "results" (PList [])) ;;
                 lift (Py.get data "jobs" rs)) ;;
       items <- lift (Py.iter raw) ;;
       jobs <- lift (mapM (rippling_job slug company fallback_url) items) ;;
       if nonempty_list jobs then ret (Some jobs) else ret None)
      (fun _ => ret None) ;;
  match returned with
  | Some jobs => ret jobs
  | None =>
      scrape_generic
        (if PyStr.nonempty fallback_url then fallback_url
         else "https://ats.rippling.com/" +:+ slug +:+ "/jobs")
        company
  end.

(** One posting of the YC response. *)
Definition yc_job (slug company : string) (j : pyval) : result Job :=
  loc <-? Py.get j "location" (PStr "San Francisco, CA") ;;
  ty <-? Py.get j "type" (PStr "General") ;;
  dept <-? Py.get j "subtype" ty ;;
  sl <-? Py.get j "slug" (PStr "") ;;
  t <-? Py.get j "title" (PStr "") ;;
  make_job t dept loc
    (PStr ("https://www.ycombinator.com/companies/" +:+ slug +:+ "/jobs/" +:+ fmt sl))
    company.

Definition LOC_RE_YC : string :=
  "\b(Remote|San Francisco|New York|Austin|Seattle|Boston)\b".

(** The loop over the links of the YC jobs page. *)
Fixpoint yc_links (slug company : string) (l : list Anchor)
    (jobs : list Job) (seen : gset string) : result (list Job * gset string) :=
  match l with
  | [] => Ok (jobs, seen)
  | a :: rest =>
      let h := a.(a_href) in
      if negb (PyStr.contains ("/companies/" +:+ slug +:+ "/jobs/") h) then
        yc_links slug company rest jobs seen
      else
        let t := get_text_strip a.(a_strings) in
        if negb (PyStr.nonempty t) || bool_decide (t ∈ seen) then
          yc_links slug company rest jobs seen
        else
          let seen' := {[ t ]} ∪ seen in
          let loc_m := re_search L LOC_RE_YC true (parent_text a) in
          job <-? make_job (PStr t) (PStr "General")
                    (PStr (group1_or "San Francisco, CA" loc_m))
                    (PStr ("https://www.ycombinator.com" +:+ h)) company ;;
          yc_links slug company rest (jobs ++ [job]) seen'
  end.

(** [scrape_yc(slug, company, fallback_url)] *)
Definition scrape_yc (slug company fallback_url : string) : M (list Job) :=
  returned <-
    try_except
      (r <- http_get ("https://www.ycombinator.com/companies/" +:+ slug
                      +:+ "/jobs.json") ;;
       data <- lift r.(r_json) ;;
       items <- lift (Py.iter data) ;;
       jobs <- lift (mapM (yc_job slug company) items) ;;
       if nonempty_list jobs then ret (Some jobs) else ret None)
      (fun _ => ret None) ;;
  match returned with
  | Some jobs => ret jobs
  | None =>
      try_except
        (html <- fetch_html fallback_url false ;;
         if negb (html_ok html) then ret []
         else
           soup <- lift (BeautifulSoup L (opt_str html)) ;;
           p <- lift (yc_links slug company soup.(anchors) [] ∅) ;;
           ret (fst p))
        (fun _ => ret [])
  end.

(** [route_to_scraper(ats, slug, name, jobs_url)] *)
Definition route_to_scraper (ats : string) (slug : option string)
    (name jobs_url : string) : M (list Job) :=
  if String.eqb ats "greenhouse" && opt_truthy slug then
    scrape_greenhouse (opt_str slug) name jobs_url
  else if String.eqb ats "lever" && opt_truthy slug then
    scrape_lever (opt_str slug) name jobs_url
  else if String.eqb ats "ashby" && opt_truthy slug then
    scrape_ashby (opt_str slug) name jobs_url
  else if (String.eqb ats "ashby_embedded" || String.eqb ats "ashby")
          && negb (opt_truthy slug) then
    scrape_ashby_embedded jobs_url name
  else if String.eqb ats "workable" && opt_truthy slug then
    scrape_workable (opt_str slug) name jobs_url
  else if String.eqb ats "yc" && opt_truthy slug then
    scrape_yc (opt_str slug) name jobs_url
  else if String.eqb ats "rippling" && opt_truthy slug then
    scrape_rippling (opt_str slug) name jobs_url
  else scrape_generic jobs_url name.


(* ------------------------------------------------------------------ *)
(** ** Finding the jobs page *)

Definition JOBS_PATHS : list string :=
  [ "/careers"; "/jobs"; "/careers/jobs"; "/careers/openings";
    "/careers/open-roles"; "/careers/positions"; "/careers/listings";
    "/about/careers"; "/company/careers"; "/join"; "/join-us";
    "/open-roles"; "/work-with-us"; "/hiring"; "/openings"; "/career" ].

Definition CAREERS_KEYWORDS : list string :=
  [ "career"; "job"; "hiring"; "join us"; "open role";
    "we're hiring"; "opening"; "position"; "work with us" ].

(** What [find_jobs_page] and [check_page] return: (url, ats, slug, html). *)
Definition found : Type :=
  (option string * option string * option string * option string)%type.

Definition not_found : found := (None, None, None, None).

Definition found_ats (f : found) : option string :=
  let '(_, ats, _, _) := f in ats.

(** The loop of [check_page] over the links of the page. *)
Fixpoint check_links (u : string) (l : list Anchor) : M found :=
  match l with
  | [] => ret not_found
  | a :: rest =>
      let h := a.(a_href) in
      let text := str_lower L (get_text_strip a.(a_strings)) in
      let href_lower := str_lower L h in
      if existsb (fun kw => PyStr.contains kw href_lower || PyStr.contains kw text)
           CAREERS_KEYWORDS then
        full_url <- lift (urljoin L u h) ;;
        if String.eqb (PyStr.rstrip_slash full_url) (PyStr.rstrip_slash u)
           || PyStr.startswith h "#" then
          check_links u rest
        else
          let '(ats, slug) := detect_ats_from_url full_url in
          if opt_truthy ats then ret (Some full_url, ats, slug, None)
          else
            sub_html <- fetch_html full_url false ;;
            if html_ok sub_html then
              let '(ats', slug') := detect_ats_from_html (opt_str sub_html) full_url in
              if opt_truthy ats' then ret (Some full_url, ats', slug', sub_html)
              else check_links u rest
            else check_links u rest
      else check_links u rest
  end.

(** [check_page(url, html)] *)
Definition check_page (u html : string) : M found :=
  let '(ats, slug) := detect_ats_from_html html u in
  if opt_truthy ats then ret (Some u, ats, slug, Some html)
  else
    soup <- lift (BeautifulSoup L html) ;;
    check_links u soup.(anchors).

(** Step 2 of [find_jobs_page]: the loop over [JOBS_PATHS]. *)
Fixpoint try_paths (base : string) (paths : list string) : M found :=
  match paths with
  | [] => ret not_found
  | path :: rest =>
      let u := base +:+ path in
      returned <-
        try_except
          (r <- http_get u ;;
           if (r.(r_status_code) =? 200)%Z
              && (500 <? str_len L r.(r_text))%nat then
             let final_url := r.(r_url) in
             let '(ats, slug) := detect_ats_from_url final_url in
             if opt_truthy ats then ret (Some (Some final_url, ats, slug, None))
             else
               f <- check_page final_url r.(r_text) ;;
               if opt_truthy (found_ats f) then ret (Some f)
               else ret (Some (Some final_url, None, None, Some r.(r_text)))
           else ret None)
          (fun _ => ret None) ;;
      match returned with
      | Some f => ret f
      | None => try_paths base rest
      end
  end.

(** [find_jobs_page(base)] *)
Definition find_jobs_page (base0 : string) : M found :=
  let base := PyStr.rstrip_slash base0 in
  html <- fetch_html base false ;;
  f <- (if html_ok html then check_page base (opt_str html) else ret not_found) ;;
  if opt_truthy (found_ats f) then ret f
  else try_paths base JOBS_PATHS.

(* ------------------------------------------------------------------ *)
(** ** The override table and the per-company scraper *)

(** The entries of the [KNOWN_ATS] literal, in the order they are written:
    key, (ats, slug, jobs_url). *)
Definition KNOWN_ATS_items : list (string * (string * option string * string)) :=
  [ ("faire", ("greenhouse", Some "Faire", "https://boards.greenhouse.io/faire"));
    ("grammarly", ("greenhouse", Some "grammarly", "https://boards.greenhouse.io/grammarly"));
    ("instawork", ("greenhouse", Some "instawork", "https://boards.greenhouse.io/instawork"));
    ("handshake", ("ashby_embedded", None, "https://joinhandshake.com/careers/"));
    ("lattice", ("greenhouse", Some "lattice", "https://boards.greenhouse.io/lattice"));
    ("ada", ("greenhouse", Some "ada18", "https://job-boards.greenhouse.io/ada18"));
    ("adquick", ("greenhouse", Some "adquick", "https://boards.greenhouse.io/adquick"));
    ("cambly", ("greenhouse", Some "cambly", "https://boards.greenhouse.io/cambly"));
    ("curri", ("greenhouse", Some "curri", "https://boards.greenhouse.io/curri"));
    ("glossgenius", ("greenhouse", Some "glossgenius", "https://boards.greenhouse.io/glossgenius"));
    ("hipcamp", ("greenhouse", Some "hipcamp", "https://boards.greenhouse.io/hipcamp"));
    ("owner", ("lever", Some "owner", "https://jobs.lever.co/owner"));
    ("bounce", ("ashby_embedded", None, "https://jobs.ashbyhq.com/Bounce"));
    ("lily", ("greenhouse", Some "lilyai", "https://boards.greenhouse.io/lilyai"));
    ("medely", ("greenhouse", Some "medely", "https://boards.greenhouse.io/medely"));
    ("padlet", ("greenhouse", Some "padlet", "https://boards.greenhouse.io/padlet"));
    ("peek", ("greenhouse", Some "peek", "https://boards.greenhouse.io/peek"));
    ("workstream", ("greenhouse", Some "workstream", "https://boards.greenhouse.io/workstream"));
    ("wonderschool", ("ashby", Some "wonderschool", "https://jobs.ashbyhq.com/wonderschool"));
    ("ava", ("ashby", Some "ava", "https://jobs.ashbyhq.com/ava"));
    ("resortpass", ("lever", Some "resortpass", "https://jobs.lever.co/resortpass"));
    ("overflow", ("lever", Some "overflow", "https://jobs.lever.co/overflow"));
    ("huckleberry", ("lever", Some "huckleberry", "https://jobs.lever.co/huckleberry"));
    ("goodtime", ("lever", Some "goodtime", "https://jobs.lever.co/goodtime"));
    ("sourcegraph", ("lever", Some "sourcegraph", "https://jobs.lever.co/sourcegraph"));
    ("liftoff", ("lever", Some "liftoff", "https://jobs.lever.co/liftoff"));
    ("trendsi", ("lever", Some "trendsi", "https://jobs.lever.co/trendsi"));
    ("lilo", ("lever", Some "lilo", "https://jobs.lever.co/lilo"));
    ("willow", ("yc", Some "willow", "https://www.ycombinator.com/companies/willow/jobs"));
    ("woz", ("yc", Some "woz", "https://www.ycombinator.com/companies/woz/jobs"));
    ("namespace", ("yc", Some "namespace", "https://www.ycombinator.com/companies/namespace/jobs"));
    ("sibli", ("yc", Some "sibli", "https://www.ycombinator.com/companies/sibli/jobs"));
    ("allstripes (acquired by picnic health)", ("greenhouse", Some "picnichealth", "https://boards.greenhouse.io/picnichealth"));
    ("northstar (acquired by nayya health)", ("greenhouse", Some "nayya", "https://boards.greenhouse.io/nayya"));
    ("via (acquired by justworks)", ("greenhouse", Some "justworks", "https://boards.greenhouse.io/justworks"));
    ("yik yak (acquired by sidechat)", ("greenhouse", Some "sidechat", "https://boards.greenhouse.io/sidechat"));
    ("setter.com (acquired by thumbtack)", ("greenhouse", Some "thumbtackjobs", "https://boards.greenhouse.io/thumbtackjobs"));
    ("assemble (acquired by deel)", ("ashby", Some "deel", "https://jobs.ashbyhq.com/deel"));
    ("carebrain", ("greenhouse", Some "carebrain", "https://boards.greenhouse.io/carebrain"));
    ("sprx technologies", ("greenhouse", Some "sprx", "https://boards.greenhouse.io/sprx"));
    ("resq", ("ashby", Some "ResQ", "https://jobs.ashbyhq.com/ResQ"));
    ("medely", ("ashby", Some "medely", "https://jobs.ashbyhq.com/medely"));
    ("standard fleet", ("ashby", Some "StandardFleet", "https://jobs.ashbyhq.com/StandardFleet")) ].

(** The dict [KNOWN_ATS]: a dict literal keeps, for a key written twice,
    the value written last. *)
Definition KNOWN_ATS : gmap string (string * option string * string) :=
  foldl (fun m kv => <[ kv.1 := kv.2 ]> m) ∅ KNOWN_ATS_items.

(** A company of [companies.json]: [website] is [None] when the key is
    missing. *)
Record CompanyTarget : Type := {
  name : string;
  website : option string;
}.

(** What [scrape_company] returns: (jobs, error). *)
Definition ScrapeOutcome : Type := (list Job * option string)%type.

(** Step 2 of [scrape_company], [website] being already stripped of its
    trailing slashes. *)
Definition auto_detection (nm site : string) : M ScrapeOutcome :=
  if negb (PyStr.nonempty site) then ret ([], Some "no website")
  else
    f <- find_jobs_page site ;;
    let '(jobs_url, ats, slug, html) := f in
    if opt_truthy jobs_url && opt_truthy ats then
      jobs <- route_to_scraper (opt_str ats) slug nm (opt_str jobs_url) ;;
      ret (map (set_company_website site) jobs, None)
    else if opt_truthy jobs_url then
      jobs <- scrape_generic (opt_str jobs_url) nm ;;
      ret (map (set_company_website site) jobs, None)
    else ret ([], Some "no jobs page found").

(** [scrape_company(company)] *)
Definition scrape_company (c : CompanyTarget) : M ScrapeOutcome :=
  let nm := c.(name) in
  let site := PyStr.rstrip_slash (opt_str c.(website)) in
  match KNOWN_ATS !! str_lower L nm with
  | Some (ats, slug, jobs_url) =>
      jobs <- route_to_scraper ats slug nm jobs_url ;;
      if nonempty_list jobs then ret (map (set_company_website site) jobs, None)
      else auto_detection nm site
  | None => auto_detection nm site
  end.

(* ------------------------------------------------------------------ *)
(** ** The run loop of [main] *)

(** The reason recorded for a failed company: the error string returned
    by [scrape_company], or the exception caught around it. *)
Inductive reason : Type :=
| Reported (msg : string)
| Caught (e : exn).

(** The [for i, company in enumerate(companies, 1)] loop of [main],
    returning [(all_jobs, failed)]. *)
Fixpoint main_loop (companies : list CompanyTarget) (all_jobs : list Job)
    (failed : list (string * reason)) : M (list Job * list (string * reason)) :=
  match companies with
  | [] => ret (all_jobs, failed)
  | c :: rest =>
      st <-
        try_except
          (out <- scrape_company c ;;
           let '(jobs, error) := out in
           let all_jobs' := all_jobs ++ jobs in
           if opt_truthy error then
             ret (all_jobs', failed ++ [(c.(name), Reported (opt_str error))])
           else ret (all_jobs', failed))
          (fun e => ret (all_jobs, failed ++ [(c.(name), Caught e)])) ;;
      main_loop rest (fst st) (snd st)
  end.

End Scraper.

(* ------------------------------------------------------------------ *)
(** ** The signature table of [detect_ats_from_html], read off its branches *)

(** The branches after the embedded-widget one, in order: the substrings
    tested with [in], the literal parts of the slug patterns tried in
    order, and the ats returned on a match. *)
Definition hosted_signatures : list (list string * list string * string) :=
  [ (["jobs.ashbyhq.com"], ["jobs.ashbyhq.com/"], "ashby");
    (["greenhouse.io"; "grnh.se"],
     ["boards.greenhouse.io/"; "job-boards.greenhouse.io/";
      "greenhouse.io/embed/job_board?for="], "greenhouse");
    (["lever.co"], ["jobs.lever.co/"], "lever");
    (["apply.workable.com"; "workable.com"], ["apply.workable.com/"], "workable");
    (["ats.rippling.com"; "rippling-ats.com"], ["ats.rippling.com/"], "rippling") ].

Definition signature_present (html : string)
    (sig : list string * list string * string) : bool :=
  existsb (fun marker => PyStr.contains marker html) sig.1.1.

(** The first branch whose signature substring occurs in [html]. *)
Definition first_signature (html : string)
  : option (list string * list string * string) :=
  List.find (signature_present html) hosted_signatures.

(** No slug pattern of the branch matches. *)
Definition slug_patterns_fail (html : string)
    (sig : list string * list string * string) : bool :=
  forallb (fun lit => negb (is_Some_b (Re.search_slug lit html))) sig.1.2.

(* ------------------------------------------------------------------ *)
(** ** Sample worlds and pages used in the examples *)

Module Sample.

(** What [str.lower] and [str.capitalize] compute on ASCII text. *)
Definition lower_char (c : ascii) : ascii :=
  if PyStr.is_upper c then ascii_of_N (N_of_ascii c + 32) else c.

Definition upper_char (c : ascii) : ascii :=
  if PyStr.is_lower c then ascii_of_N (N_of_ascii c - 32) else c.

Fixpoint ascii_lower (s : string) : string :=
  match s with
  | EmptyString => EmptyString
  | String c s' => String (lower_char c) (ascii_lower s')
  end.

Definition ascii_capitalize (s : string) : string :=
  match s with
  | EmptyString => EmptyString
  | String c s' => String (upper_char c) (ascii_lower s')
  end.

(** The double-quote character, for JSON text. *)
Definition dq : string := String "034"%char "".

Definition quoted (s : string) : string := dq +:+ s +:+ dq.

(** A world whose every request fails: all hosts unreachable, no browser. *)
Definition world_down : World :=
  {| HAS_PLAYWRIGHT := false;
     page_content := fun _ _ => None;
     requests_get := fun _ _ => None;
     requests_post := fun _ _ => None |}.

(** A world without a browser that answers GET from a fixed table and
    refuses everything else. *)
Definition world_of (table : list (string * Response)) : World :=
  {| HAS_PLAYWRIGHT := false;
     page_content := fun _ _ => None;
     requests_get := fun _ u =>
       snd <$> List.find (fun e => String.eqb (fst e) u) table;
     requests_post := fun _ _ => None |}.

(** A 200 response carrying an HTML body. *)
Definition html_page (u body : string) : Response :=
  {| r_status_code := 200; r_text := body; r_url := u;
     r_json := Raise JSONDecodeError |}.

(** A 200 response carrying a JSON body. *)
Definition json_reply (u : string) (v : pyval) : Response :=
  {| r_status_code := 200; r_text := ""; r_url := u; r_json := Ok v |}.

Definition uuid1 : string := "11111111-2222-3333-4444-555555555555".
Definition uuid2 : string := "66666666-7777-8888-9999-000000000000".

(** [{"@type":"JobPosting","title":"Engineer"}] *)
Definition posting_json : string :=
  "{" +:+ quoted "@type" +:+ ":" +:+ quoted "JobPosting" +:+ ","
      +:+ quoted "title" +:+ ":" +:+ quoted "Engineer" +:+ "}".

Definition posting_value : pyval :=
  PDict [("@type", PStr "JobPosting"); ("title", PStr "Engineer")].

(** A homepage whose careers link has a malformed network location. *)
Definition page_bad_link : string := "<p><a href='//['>Careers</a></p>".

(** A listings page whose only posting link is malformed. *)
Definition page_bad_container : string :=
  "<div class='job'><a href='//['>Engineer</a></div>".

(** A page with schema.org markup and a class-keyword container. *)
Definition page_schema : string :=
  "<script type='application/ld+json'>" +:+ posting_json +:+ "</script>"
  +:+ "<div class='job'><a href='https://acme.test/jobs/1'>Engineer</a></div>".

(** The same page with, in addition, an embedded Ashby link. *)
Definition page_schema_and_widget : string :=
  page_schema
  +:+ "<p><a href='https://acme.test/careers?ashby_jid=" +:+ uuid1
  +:+ "'>Designer</a></p>".

(** A page embedding the same Ashby posting title twice. *)
Definition page_twice : string :=
  "<p><a href='https://acme.test/careers?ashby_jid=" +:+ uuid1
  +:+ "'>Designer</a></p>"
  +:+ "<p><a href='https://acme.test/careers?ashby_jid=" +:+ uuid2
  +:+ "'>Designer</a></p>".

(** A page with a marked section that html.parser rejects. *)
Definition page_rejected : string := "<p>Jobs</p><![x[ y ]]>".

Definition anchor (h text : string) : Anchor :=
  {| a_href := h; a_strings := [text]; parent_strings := Some [text] |}.

Definition engineer_link : Anchor := anchor "https://acme.test/jobs/1" "Engineer".

Definition designer_link (uuid : string) : Anchor :=
  anchor ("https://acme.test/careers?ashby_jid=" +:+ uuid) "Designer".

Definition no_soup : Soup :=
  {| anchors := []; ld_json_scripts := []; class_containers := [] |}.

(** What html.parser makes of the sample pages. *)
Definition soup_table : list (string * Soup) :=
  [ (page_bad_link,
     {| anchors := [anchor "//[" "Careers"];
        ld_json_scripts := []; class_containers := [] |});
    (page_bad_container,
     {| anchors := [anchor "//[" "Engineer"];
        ld_json_scripts := [];
        class_containers :=
          [{| c_anchor := Some (anchor "//[" "Engineer");
              c_strings := ["Engineer"] |}] |});
    (page_schema,
     {| anchors := [engineer_link];
        ld_json_scripts := [Some posting_json];
        class_containers :=
          [{| c_anchor := Some engineer_link; c_strings := ["Engineer"] |}] |});
    (page_schema_and_widget,
     {| anchors := [engineer_link; designer_link uuid1];
        ld_json_scripts := [Some posting_json];
        class_containers :=
          [{| c_anchor := Some engineer_link; c_strings := ["Engineer"] |}] |});
    (page_twice,
     {| anchors := [designer_link uuid1; designer_link uuid2];
        ld_json_scripts := []; class_containers := [] |}) ].

(** The libraries on the sample pages.  The parser rejects
    [page_rejected]; [urljoin] returns an absolute URL unchanged and raises
    ValueError (Invalid IPv6 URL) on the reference [//[]; no sample text
    names a city or ends in [View], so the location searches find nothing
    and the substitution changes nothing; the sample texts are ASCII, so
    that case mapping and length are the ASCII ones. *)
Definition lib : Lib :=
  {| BeautifulSoup := fun html =>
       if String.eqb html page_rejected then Raise ParserRejectedMarkup
       else
         match List.find (fun e => String.eqb (fst e) html) soup_table with
         | Some e => Ok (snd e)
         | None => Ok no_soup
         end;
     urljoin := fun _ u => if String.eqb u "//[" then Raise ValueError else Ok u;
     json_loads := fun s =>
       if String.eqb s posting_json then Ok posting_value
       else Raise JSONDecodeError;
     re_search := fun _ _ _ => None;
     re_sub := fun _ _ s => s;
     format_value := fun _ => "";
     str_lower := ascii_lower;
     str_capitalize := ascii_capitalize;
     str_len := String.length |}.

Definition acme : CompanyTarget :=
  {| name := "Acme"; website := Some "https://acme.test/" |}.

Definition acme_no_website : CompanyTarget :=
  {| name := "Acme"; website := None |}.

Definition faire : CompanyTarget :=
  {| name := "Faire"; website := Some "https://faire.com" |}.

Definition faire_no_website : CompanyTarget :=
  {| name := "Faire"; website := None |}.

Definition faire_api : string :=
  "https://boards-api.greenhouse.io/v1/boards/Faire/jobs?content=true".

Definition greenhouse_posting (t dept loc u : string) : pyval :=
  PDict [ ("title", PStr t);
          ("departments", PList [PDict [("name", PStr dept)]]);
          ("location", PDict [("name", PStr loc)]);
          ("absolute_url", PStr u) ].

(** The Greenhouse board of Faire, with two postings. *)
Definition world_faire : World :=
  world_of
    [ (faire_api,
       json_reply faire_api
         (PDict [("jobs", PList
            [ greenhouse_posting "Software Engineer" "Engineering"
                "San Francisco" "https://boards.greenhouse.io/faire/jobs/1";
              greenhouse_posting "Account Executive" "Sales"
                "New York" "https://boards.greenhouse.io/faire/jobs/2" ])])) ].

(** The same board with no posting, and nothing else reachable. *)
Definition world_faire_empty : World :=
  world_of [ (faire_api, json_reply faire_api (PDict [("jobs", PList [])])) ].

(** A company site whose homepage is [page_bad_link]. *)
Definition world_bad_link : World :=
  world_of [ ("https://acme.test", html_page "https://acme.test" page_bad_link) ].

Definition lever_api : string := "https://api.lever.co/v0/postings/owner?mode=json".

Definition lever_error : pyval :=
  PDict [("ok", PBool false); ("error", PStr "Document not found")].

(** Lever answers with an error object; the hosted page is [page]. *)
Definition world_lever_error (page : string) : World :=
  world_of
    [ (lever_api, json_reply lever_api lever_error);
      ("https://jobs.lever.co/owner",
       html_page "https://jobs.lever.co/owner" page) ].

(** A careers page serving [page]. *)
Definition world_careers (page : string) : World :=
  world_of
    [ ("https://acme.test/careers",
       html_page "https://acme.test/careers" page) ].

Definition job (t d l : string) (u : pyval) (c w : string) : Job :=
  {| title := t; department := d; location := l; url := u;
     company := c; company_website := w |}.

End Sample.

(* ------------------------------------------------------------------ *)
(** ** Notions used in the statements *)

(** A string with nothing to strip at either end. *)
Definition clean (s : string) : Prop :=
  s <> "" /\ PyStr.lstrip_chars PyStr.is_space s = s
  /\ PyStr.rstrip_chars PyStr.is_space s = s.

(** The loop invariant of the title-deduplicating loops: the titles
    collected so far are pairwise distinct and all belong to [seen]. *)
Definition titles_tracked (jobs : list Job) (seen : gset string) : Prop :=
  NoDup (map title jobs) /\ forall t, t ∈ map title jobs -> t ∈ seen.

(** The requests [find_jobs_page] makes on a site that answers none. *)
Definition probes (base : string) : trace :=
  EvGet base :: map (fun path => EvGet (base +:+ path)) JOBS_PATHS.

(** A computation only adds network calls to the trace it starts from. *)
Definition extends {A} (m : M A) : Prop :=
  forall tr, exists ext, fst (m tr) = tr ++ ext.

(** A computation that returns from every starting trace: nothing it
    raises leaves it. *)
Definition never_raises {A} (m : M A) : Prop :=
  forall tr, exists tr' a, m tr = (tr', Ok a).

(** An exception that one of the two library calls made outside every
    [try] can raise: [urljoin] on some pair of arguments, or the parser
    on some document. *)
Definition library_raises (L : Lib) (e : exn) : Prop :=
  (exists base u, urljoin L base u = Raise e)
  \/ (exists html, BeautifulSoup L html = Raise e).

(** Whatever the computation raises satisfies [P]. *)
Definition raises_only {A} (P : exn -> Prop) (m : M A) : Prop :=
  forall tr tr' e, m tr = (tr', Raise e) -> P e.

(** A world in which no request is answered and the browser delivers no
    page. *)
Definition offline (W : World) : Prop :=
  (forall n u, requests_get W n u = None)
  /\ (forall n u, requests_post W n u = None)
  /\ (forall n u, page_content W n u = None).

(** What [make_job] guarantees of the record it builds for [c]: the
    company is [c], no website is set yet, and the three text fields have
    nothing left to strip. *)
Definition made_for (c : string) (j : Job) : Prop :=
  company j = c /\ company_website j = ""
  /\ PyStr.strip (title j) = title j
  /\ PyStr.strip (department j) = department j
  /\ PyStr.strip (location j) = location j.

(** What [scrape_company] guarantees of the records it returns for the
    company [c] with website [site]. *)
Definition stamped_for (c site : string) (j : Job) : Prop :=
  company j = c /\ company_website j = site
  /\ PyStr.strip (title j) = title j
  /\ PyStr.strip (department j) = department j
  /\ PyStr.strip (location j) = location j.

(** The postcondition of a [try] body that hands back [Some jobs] to
    have them returned. *)
Definition some_made_for (c : string) (o : option (list Job)) : Prop :=
  forall js, o = Some js -> Forall (made_for c) js.

(** Whatever the computation returns satisfies [Q]. *)
Definition returns {A} (Q : A -> Prop) (m : M A) : Prop :=
  forall tr tr' a, m tr = (tr', Ok a) -> Q a.

(** The kinds the two classifiers can answer. *)
Definition detectable : list string :=
  [ "greenhouse"; "lever"; "ashby"; "ashby_embedded"; "workable"; "rippling" ].

(** Every character of [s] satisfies [p]. *)
Fixpoint all_chars (p : ascii -> bool) (s : string) : bool :=
  match s with
  | EmptyString => true
  | String c s' => p c && all_chars p s'
  end.

(** The aggregate figures [main] writes to the report. *)
Record Report : Type := {
  total_jobs : nat;
  total_companies : nat;
  companies_with_jobs : nat;
  failed_companies : list (string * reason);
  jobs : list Job;
}.

(** The part of [main] from the run loop to the [output] dict (the
    timestamp left out). *)
Definition main_report (W : World) (L : Lib) (companies : list CompanyTarget)
  : M Report :=
  bind (main_loop W L companies [] [])
    (fun st =>
       let '(all_jobs, failed) := st in
       ret {| total_jobs := List.length all_jobs;
              total_companies := List.length companies;
              companies_with_jobs :=
                size (list_to_set (map company all_jobs) : gset string);
              failed_companies := failed;
              jobs := all_jobs |}).

(** What the jobs-page locator may answer: without a URL, nothing else;
    with a kind, one the classifiers know, a slug and a URL. *)
Definition well_formed_found (f : found) : Prop :=
  let '(u, ats, slug, html) := f in
  (u = None -> ats = None /\ slug = None /\ html = None)
  /\ (ats = None -> slug = None)
  /\ (forall a, ats = Some a ->
        In a detectable /\ (exists s, slug = Some s) /\ (exists x, u = Some x)).

(** The answer of a plain GET as [fetch_html] reads it. *)
Definition body_of (resp : option Response) : option string :=
  match resp with
  | Some r => if (r_status_code r =? 200)%Z then Some (r_text r) else None
  | None => None
  end.

(** A computation that adds at most [n] network calls to the trace it
    starts from, whether it returns or raises. *)
Definition at_most {A} (n : nat) (m : M A) : Prop :=
  forall tr, exists ext, fst (m tr) = tr ++ ext /\ List.length ext <= n.

(** A posting of a Greenhouse response that is a dict without the key
    [departments]. *)
Definition lacks_departments (j : pyval) : bool :=
  match j with
  | PDict items => negb (is_Some_b (Py.lookup_item items "departments"))
  | _ => false
  end.

(** The URL of the Greenhouse board API for [slug]. *)
Definition greenhouse_api (slug : string) : string :=
  "https://boards-api.greenhouse.io/v1/boards/" +:+ slug +:+ "/jobs?content=true".

(** The loop invariant of the link scan: the urls collected so far are
    pairwise distinct strings and all belong to [seen]. *)
Definition urls_tracked (jobs : list Job) (seen : gset string) : Prop :=
  NoDup (map url jobs)
  /\ forall v, v ∈ map url jobs -> exists u, v = PStr u /\ u ∈ seen.

(** A listings page that shows the same posting in two containers, and
    the libraries on it. *)
Definition soup_listing : Soup :=
  {| anchors := [Sample.engineer_link; Sample.engineer_link];
     ld_json_scripts := [];
     class_containers :=
       [ {| c_anchor := Some Sample.engineer_link; c_strings := ["Engineer"] |};
         {| c_anchor := Some Sample.engineer_link; c_strings := ["Engineer"] |} ] |}.

Definition lib_listing : Lib :=
  {| BeautifulSoup := fun _ => Ok soup_listing;
     urljoin := fun _ u => Ok u;
     json_loads := json_loads Sample.lib;
     re_search := re_search Sample.lib;
     re_sub := re_sub Sample.lib;
     format_value := format_value Sample.lib;
     str_lower := str_lower Sample.lib;
     str_capitalize := str_capitalize Sample.lib;
     str_len := str_len Sample.lib |}.

(** [lit] and [t] differ at a position both have, so that [lit] does not
    match at the start of [t], whatever follows [t]. *)
Fixpoint differs (lit t : string) : bool :=
  match lit, t with
  | String a lit', String b t' =>
      if Ascii.eqb a b then differs lit' t' else true
  | _, _ => false
  end.

(** [lit] matches at no position of [pre], whatever follows [pre]. *)
Fixpoint absent_from (lit pre : string) : bool :=
  match pre with
  | EmptyString => true
  | String _ pre' => differs lit pre && absent_from lit pre'
  end.








(** A computation that returns [a] from every starting trace. *)
Definition gives {A} (a : A) (m : M A) : Prop :=
  forall tr, exists tr', m tr = (tr', Ok a).

(* ------------------------------------------------------------------ *)
(** * Properties *)

(** ** Facts about the string primitives *)

Lemma append_empty_r (s : string) : s +:+ "" = s.
Proof.
  induction s as [|c s IH]; [reflexivity | exact (f_equal (String c) IH)].
Qed.

Lemma append_cons (c : ascii) (a b : string) :
  String c a +:+ b = String c (a +:+ b).
Proof. reflexivity. Qed.

Lemma lstrip_chars_length p (s : string) :
  (String.length (PyStr.lstrip_chars p s) <= String.length s)%nat.
Proof.
  induction s as [|c s IH]; cbn; [lia|].
  destruct (p c); cbn; lia.
Qed.

Lemma lstrip_chars_idem p (s : string) :
  PyStr.lstrip_chars p (PyStr.lstrip_chars p s) = PyStr.lstrip_chars p s.
Proof.
  induction s as [|c s IH]; cbn; [reflexivity|].
  destruct (p c) eqn:E; [exact IH|]. cbn. now rewrite E.
Qed.

Lemma rstrip_chars_idem p (s : string) :
  PyStr.rstrip_chars p (PyStr.rstrip_chars p s) = PyStr.rstrip_chars p s.
Proof.
  induction s as [|c s IH]; cbn; [reflexivity|].
  destruct (p c && PyStr.is_empty (PyStr.rstrip_chars p s)) eqn:E;
    [reflexivity|].
  cbn. now rewrite IH, E.
Qed.

Lemma lstrip_rstrip_comm p (s : string) :
  PyStr.rstrip_chars p (PyStr.lstrip_chars p s)
  = PyStr.lstrip_chars p (PyStr.rstrip_chars p s).
Proof.
  induction s as [|c s IH]; [reflexivity|].
  cbn [PyStr.lstrip_chars PyStr.rstrip_chars].
  destruct (p c) eqn:E.
  - rewrite IH. destruct (PyStr.rstrip_chars p s) eqn:R; cbn.
    + reflexivity.
    + rewrite E. reflexivity.
  - cbn. rewrite E. reflexivity.
Qed.

Lemma strip_lstripped (s : string) :
  PyStr.lstrip_chars PyStr.is_space (PyStr.strip s) = PyStr.strip s.
Proof. apply lstrip_chars_idem. Qed.

Lemma strip_rstripped (s : string) :
  PyStr.rstrip_chars PyStr.is_space (PyStr.strip s) = PyStr.strip s.
Proof.
  unfold PyStr.strip. now rewrite lstrip_rstrip_comm, rstrip_chars_idem.
Qed.

(** [s.strip().strip() == s.strip()] *)
Lemma strip_idem (s : string) : PyStr.strip (PyStr.strip s) = PyStr.strip s.
Proof.
  unfold PyStr.strip at 1. now rewrite strip_rstripped, strip_lstripped.
Qed.

Lemma lstrip_chars_app p (a b : string) :
  a <> "" -> PyStr.lstrip_chars p a = a ->
  PyStr.lstrip_chars p (a +:+ b) = a +:+ b.
Proof.
  destruct a as [|c a]; [congruence|]. intros _ H.
  rewrite append_cons. cbn in *.
  destruct (p c); [|reflexivity].
  pose proof (lstrip_chars_length p a) as Hl. rewrite H in Hl.
  cbn in Hl. lia.
Qed.

Lemma rstrip_chars_app p (a b : string) :
  PyStr.rstrip_chars p b <> "" ->
  PyStr.rstrip_chars p (a +:+ b) = a +:+ PyStr.rstrip_chars p b.
Proof.
  intros Hb. induction a as [|c a IH]; [reflexivity|].
  rewrite !append_cons. cbn. rewrite IH.
  destruct (a +:+ PyStr.rstrip_chars p b) eqn:E.
  - exfalso. destruct a; [exact (Hb E) | rewrite append_cons in E; congruence].
  - cbn. now rewrite andb_false_r.
Qed.

Lemma join_empty_cons (x : string) (l : list string) :
  PyStr.join "" (x :: l) = x +:+ PyStr.join "" l.
Proof.
  destruct l as [|y l]; [symmetry; apply append_empty_r | reflexivity].
Qed.

Lemma join_clean (l : list string) :
  Forall clean l ->
  PyStr.lstrip_chars PyStr.is_space (PyStr.join "" l) = PyStr.join "" l
  /\ PyStr.rstrip_chars PyStr.is_space (PyStr.join "" l) = PyStr.join "" l
  /\ (l <> [] -> PyStr.join "" l <> "").
Proof.
  induction 1 as [|x l [Hne [Hl Hr]] _ [IHl [IHr IHne]]].
  - cbn. repeat split; congruence.
  - rewrite join_empty_cons. split; [|split].
    + now apply lstrip_chars_app.
    + destruct l as [|y l].
      * cbn. now rewrite append_empty_r.
      * rewrite rstrip_chars_app; rewrite IHr; [reflexivity|].
        apply IHne. discriminate.
    + intros _. destruct x; [congruence | rewrite append_cons; congruence].
Qed.

Lemma stripped_strings_clean (strings : list string) :
  Forall clean (stripped_strings strings).
Proof.
  unfold stripped_strings. apply List.Forall_forall. intros s Hs.
  apply List.filter_In in Hs as [Hin Hne].
  apply List.in_map_iff in Hin as [x [<- _]].
  split; [|split].
  - intros E. rewrite E in Hne. discriminate.
  - apply strip_lstripped.
  - apply strip_rstripped.
Qed.

(** The text [get_text(strip=True)] returns has nothing left to strip. *)
Lemma get_text_strip_stripped (strings : list string) :
  PyStr.strip (get_text_strip strings) = get_text_strip strings.
Proof.
  unfold get_text_strip, PyStr.strip.
  destruct (join_clean _ (stripped_strings_clean strings)) as [Hl [Hr _]].
  now rewrite Hr, Hl.
Qed.

(** ** ATS classification from HTML *)

(** C2, as stated, fails: a page that mentions [lever.co] without a
    [jobs.lever.co/<slug>] link carries the Lever signature, the slug
    pattern fails, and the result is the unknown pair [(None, None)], not
    [("lever", None)]. *)
Lemma detect_ats_from_html_signature_without_slug_is_unknown :
  let html := "<p>We moved our postings off lever.co last year.</p>" in
  first_signature html = Some (["lever.co"], ["jobs.lever.co/"], "lever")
  /\ Re.search_slug "jobs.lever.co/" html = None
  /\ detect_ats_from_html html "https://acme.test/careers" = (None, None)
  /\ detect_ats_from_html html "https://acme.test/careers" <> (Some "lever", None).
Proof. vm_compute. repeat split; congruence. Qed.

(** C2, amended.  With the embedded-widget marker [ashby_jid=] in the
    page and no [ashbyhq.com/<slug>] in it, the result is
    [("ashby_embedded", page_url)].  Without the marker, when the first
    hosted signature found has no matching slug pattern the result is the
    unknown pair [(None, None)]; in no case is the result an ats paired
    with an absent slug. *)
Theorem detect_ats_from_html_slug_failure (html page_url : string) :
  (PyStr.contains "ashby_jid=" html = true ->
   Re.search_slug "ashbyhq.com/" html = None ->
   detect_ats_from_html html page_url = (Some "ashby_embedded", Some page_url))
  /\ (forall sig,
        PyStr.contains "ashby_jid=" html = false ->
        first_signature html = Some sig ->
        slug_patterns_fail html sig = true ->
        detect_ats_from_html html page_url = (None, None))
  /\ (forall kind, detect_ats_from_html html page_url <> (Some kind, None)).
Proof.
  split; [|split].
  - intros Hjid Hslug. unfold detect_ats_from_html.
    destruct html as [|c html']; [discriminate Hjid|].
    cbn [PyStr.is_empty]. rewrite Hjid, Hslug. reflexivity.
  - intros sig Hjid Hfirst Hfail. unfold detect_ats_from_html.
    destruct (PyStr.is_empty html); [reflexivity|]. rewrite Hjid.
    unfold first_signature, hosted_signatures, signature_present in Hfirst.
    cbn [List.find existsb fst snd] in Hfirst.
    repeat match type of Hfirst with
    | context [PyStr.contains ?m html] =>
        let E := fresh "E" in
        destruct (PyStr.contains m html) eqn:E; cbn [orb] in Hfirst
    end;
    try discriminate Hfirst;
    injection Hfirst as <-;
    unfold slug_patterns_fail in Hfail; cbn [forallb fst snd] in Hfail;
    repeat match type of Hfail with
    | context [Re.search_slug ?l html] =>
        destruct (Re.search_slug l html); cbn in Hfail
    end;
    try discriminate Hfail; cbn [orb or_else]; reflexivity.
  - intros kind. unfold detect_ats_from_html.
    repeat match goal with
    | |- context [if ?b then _ else _] => destruct b
    | |- context [match ?o with Some _ => _ | None => _ end] => destruct o
    end; congruence.
Qed.

(** The amended C2 at a page with the embedded-widget marker and at a
    page carrying the Lever signature only. *)
Lemma detect_ats_from_html_slug_failure_witness :
  detect_ats_from_html "<a href='/careers?ashby_jid=1'>Apply</a>" "https://acme.test"
  = (Some "ashby_embedded", Some "https://acme.test")
  /\ detect_ats_from_html "see lever.co" "https://acme.test" = (None, None).
Proof.
  split.
  - apply (proj1 (detect_ats_from_html_slug_failure
                    "<a href='/careers?ashby_jid=1'>Apply</a>" "https://acme.test"));
      reflexivity.
  - apply (proj1 (proj2 (detect_ats_from_html_slug_failure
                           "see lever.co" "https://acme.test"))
             (["lever.co"], ["jobs.lever.co/"], "lever"));
      reflexivity.
Defined.

(** ** Normalisation by [make_job] *)

Lemma make_job_of_strings (t d l : string) (u : pyval) (c : string) :
  exists j, make_job (PStr t) (PStr d) (PStr l) u c = Ok j
            /\ title j = PyStr.strip t.
Proof.
  unfold make_job, Py.por. cbn [Py.str_strip rbind].
  destruct (Py.truthy (PStr d)), (Py.truthy (PStr l));
    cbn [Py.str_strip rbind]; eexists; split; reflexivity.
Qed.











Section Normalisation.

Variable c : string.
Variable fallback_url : string.




Variable L : Lib.
Variable slug : string.




End Normalisation.



(** ** Titles of the embedded-Ashby adapter *)

Lemma titles_tracked_nil (seen : gset string) : titles_tracked [] seen.
Proof. split; [constructor | intros t Ht; inversion Ht]. Qed.

Lemma titles_tracked_snoc (jobs : list Job) (seen : gset string) (j : Job) :
  titles_tracked jobs seen -> title j ∉ seen ->
  titles_tracked (jobs ++ [j]) ({[ title j ]} ∪ seen).
Proof.
  intros [Hnd Hin] Hnew. split.
  - rewrite map_app. apply NoDup_app. split; [exact Hnd|]. split.
    + intros t Ht Ht'. cbn in Ht'. apply list_elem_of_singleton in Ht'.
      subst t. apply Hnew, Hin, Ht.
    + cbn. apply NoDup_singleton.
  - intros t Ht. rewrite map_app in Ht. apply elem_of_app in Ht as [Ht|Ht].
    + apply elem_of_union_r, Hin, Ht.
    + cbn in Ht. apply list_elem_of_singleton in Ht. subst t.
      apply elem_of_union_l, elem_of_singleton. reflexivity.
Qed.

Section Titles.

Variable L : Lib.

Lemma embedded_jid_links_tracked (jobs_url company : string) (l : list Anchor) :
  forall jobs seen jobs' seen',
    titles_tracked jobs seen ->
    embedded_jid_links L jobs_url company l jobs seen = Ok (jobs', seen') ->
    titles_tracked jobs' seen'.
Proof.
  induction l as [|a l IH]; intros jobs seen jobs' seen' Hinv Hrun.
  - cbn in Hrun. injection Hrun as <- <-. exact Hinv.
  - cbn [embedded_jid_links] in Hrun.
    destruct (negb (PyStr.contains "ashby_jid=" (a_href a))); [eauto|].
    set (t := PyStr.strip _) in Hrun.
    destruct (negb (PyStr.nonempty t)); [cbn [orb] in Hrun; eauto|].
    destruct (bool_decide (t ∈ seen)) eqn:Hseen; [cbn [orb] in Hrun; eauto|].
    destruct (str_len L t <? 3)%nat; [cbn [orb] in Hrun; eauto|].
    cbn [orb] in Hrun. apply bool_decide_eq_false in Hseen.
    destruct (match Re.search_lit_exact _ _ _ _ with Some _ => _ | None => _ end)
      as [job_url|e]; [|discriminate Hrun].
    cbn [rbind] in Hrun.
    destruct (make_job_of_strings t "General"
                (group1_or "" (re_search L LOC_RE_JID true (parent_text a)))
                (PStr job_url) company) as [j [Hj Ht]].
    rewrite Hj in Hrun. cbn [rbind] in Hrun.
    assert (Htitle : title j = t).
    { rewrite Ht. subst t. apply strip_idem. }
    refine (IH _ _ _ _ _ Hrun).
    rewrite <- Htitle in Hseen |- *.
    apply titles_tracked_snoc; assumption.
Qed.

Lemma embedded_board_links_tracked (jobs_url company : string)
    (slug : option string) (l : list Anchor) :
  forall jobs seen jobs' seen',
    titles_tracked jobs seen ->
    embedded_board_links L jobs_url company slug l jobs seen = Ok (jobs', seen') ->
    titles_tracked jobs' seen'.
Proof.
  induction l as [|a l IH]; intros jobs seen jobs' seen' Hinv Hrun.
  - cbn in Hrun. injection Hrun as <- <-. exact Hinv.
  - cbn [embedded_board_links] in Hrun.
    destruct (urljoin L jobs_url (a_href a)) as [full|e]; [|discriminate Hrun].
    cbn [rbind] in Hrun.
    destruct (opt_truthy slug && _ && _); [eauto|].
    destruct (negb (is_Some_b _)); [eauto|].
    set (t := get_text_strip _) in Hrun.
    destruct (negb (PyStr.nonempty t)); [cbn [orb] in Hrun; eauto|].
    destruct (bool_decide (t ∈ seen)) eqn:Hseen; [cbn [orb] in Hrun; eauto|].
    destruct (str_len L t <? 3)%nat; [cbn [orb] in Hrun; eauto|].
    cbn [orb] in Hrun. apply bool_decide_eq_false in Hseen.
    destruct (make_job_of_strings t "General"
                (group1_or "" (re_search L LOC_RE_BOARD true (parent_text a)))
                (PStr full) company) as [j [Hj Ht]].
    rewrite Hj in Hrun. cbn [rbind] in Hrun.
    assert (Htitle : title j = t).
    { rewrite Ht. subst t. apply get_text_strip_stripped. }
    refine (IH _ _ _ _ _ Hrun).
    rewrite <- Htitle in Hseen |- *.
    apply titles_tracked_snoc; assumption.
Qed.

End Titles.

(** ** Reasoning about network code *)

Lemma bind_ok {A B} (m : M A) (k : A -> M B) (tr tr' : trace) (b : B) :
  bind m k tr = (tr', Ok b) ->
  exists tr1 a, m tr = (tr1, Ok a) /\ k a tr1 = (tr', Ok b).
Proof.
  unfold bind. destruct (m tr) as [tr1 [a|e]]; [eauto | discriminate].
Qed.

Lemma lift_ok {A} (r : result A) (tr tr' : trace) (a : A) :
  lift r tr = (tr', Ok a) -> tr' = tr /\ r = Ok a.
Proof. unfold lift. intros H. injection H as <- ->. split; reflexivity. Qed.

Lemma ret_ok {A} (x a : A) (tr tr' : trace) :
  ret x tr = (tr', Ok a) -> tr' = tr /\ a = x.
Proof. unfold ret. intros H. injection H as <- <-. split; reflexivity. Qed.

Lemma extends_ret {A} (a : A) : extends (ret a).
Proof. intros tr. exists []. cbn. now rewrite app_nil_r. Qed.

Lemma extends_lift {A} (r : result A) : extends (lift r).
Proof. intros tr. exists []. cbn. now rewrite app_nil_r. Qed.

Lemma extends_bind {A B} (m : M A) (k : A -> M B) :
  extends m -> (forall a, extends (k a)) -> extends (bind m k).
Proof.
  intros Hm Hk tr. unfold bind. destruct (Hm tr) as [e1 H1].
  destruct (m tr) as [tr1 [a|e]]; cbn in H1; subst tr1.
  - destruct (Hk a (tr ++ e1)) as [e2 H2]. exists (e1 ++ e2).
    rewrite H2. now rewrite app_assoc.
  - exists e1. reflexivity.
Qed.

Lemma extends_try_except {A} (m : M A) (h : exn -> M A) :
  extends m -> (forall e, extends (h e)) -> extends (try_except m h).
Proof.
  intros Hm Hh tr. unfold try_except. destruct (Hm tr) as [e1 H1].
  destruct (m tr) as [tr1 [a|e]]; cbn in H1; subst tr1.
  - exists e1. reflexivity.
  - destruct (Hh e (tr ++ e1)) as [e2 H2]. exists (e1 ++ e2).
    rewrite H2. now rewrite app_assoc.
Qed.

Section Network.

Variable W : World.
Variable L : Lib.

(** [fetch_html] converts every failure to [None]: it never raises. *)
Lemma fetch_html_total (u : string) (b : bool) (tr : trace) :
  exists tr' html, fetch_html W u b tr = (tr', Ok html).
Proof.
  unfold fetch_html, bind, try_except, browse, http_get, ret.
  destruct (b && HAS_PLAYWRIGHT W).
  - destruct (page_content W (List.length tr) u); cbn; [eauto|].
    destruct (requests_get W _ u) as [r|]; cbn; [|eauto].
    destruct (r_status_code r =? 200)%Z; eauto.
  - destruct (requests_get W _ u) as [r|]; cbn; [|eauto].
    destruct (r_status_code r =? 200)%Z; eauto.
Qed.

(** A plain fetch of a URL that does not answer makes one request and
    gives [None]. *)
Lemma fetch_html_unanswered (u : string) (tr : trace) :
  requests_get W (List.length tr) u = None ->
  fetch_html W u false tr = (tr ++ [EvGet u], Ok None).
Proof.
  intros H. unfold fetch_html, bind, try_except, http_get, ret.
  cbn. rewrite H. reflexivity.
Qed.

Lemma extends_http_get (u : string) : extends (http_get W u).
Proof. intros tr. exists [EvGet u]. reflexivity. Qed.

Lemma extends_browse (u : string) : extends (browse W u).
Proof. intros tr. exists [EvBrowser u]. reflexivity. Qed.

Lemma fetch_html_extends (u : string) (b : bool) : extends (fetch_html W u b).
Proof.
  unfold fetch_html. apply extends_bind.
  - destruct (b && HAS_PLAYWRIGHT W); [|apply extends_ret].
    apply extends_try_except; [|intros; apply extends_ret].
    apply extends_bind; [apply extends_browse | intros; apply extends_ret].
  - intros [html|]; [apply extends_ret|].
    apply extends_try_except; [|intros; apply extends_ret].
    apply extends_bind; [apply extends_http_get|].
    intros r. destruct (r_status_code r =? 200)%Z; apply extends_ret.
Qed.

(** A plain fetch makes exactly one request, whatever the answer. *)
Lemma fetch_html_plain_trace (u : string) (tr : trace) :
  fst (fetch_html W u false tr) = tr ++ [EvGet u].
Proof.
  unfold fetch_html, bind, try_except, http_get, ret. cbn.
  destruct (requests_get W _ u) as [r|]; cbn; [|reflexivity].
  destruct (r_status_code r =? 200)%Z; reflexivity.
Qed.

Lemma check_links_extends (u : string) (l : list Anchor) :
  extends (check_links W L u l).
Proof.
  induction l as [|a l IH]; [apply extends_ret|].
  cbn [check_links].
  destruct (existsb _ _); [|exact IH].
  apply extends_bind; [apply extends_lift|]. intros full_url.
  destruct (_ || _); [exact IH|].
  destruct (detect_ats_from_url full_url) as [ats slug].
  destruct (opt_truthy ats); [apply extends_ret|].
  apply extends_bind; [apply fetch_html_extends|]. intros sub_html.
  destruct (html_ok sub_html); [|exact IH].
  destruct (detect_ats_from_html _ _) as [ats' slug'].
  destruct (opt_truthy ats'); [apply extends_ret | exact IH].
Qed.

Lemma check_page_extends (u html : string) : extends (check_page W L u html).
Proof.
  unfold check_page. destruct (detect_ats_from_html html u) as [ats slug].
  destruct (opt_truthy ats); [apply extends_ret|].
  apply extends_bind; [apply extends_lift | intros; apply check_links_extends].
Qed.

Lemma try_paths_extends (base : string) (paths : list string) :
  extends (try_paths W L base paths).
Proof.
  induction paths as [|path rest IH]; [apply extends_ret|].
  cbn [try_paths]. apply extends_bind.
  - apply extends_try_except; [|intros; apply extends_ret].
    apply extends_bind; [apply extends_http_get|]. intros r.
    destruct (_ && _); [|apply extends_ret].
    destruct (detect_ats_from_url (r_url r)) as [ats slug].
    destruct (opt_truthy ats); [apply extends_ret|].
    apply extends_bind; [apply check_page_extends|]. intros f.
    destruct (opt_truthy (found_ats f)); apply extends_ret.
  - intros [f|]; [apply extends_ret | exact IH].
Qed.

(** Every run of the jobs-page locator starts by requesting the
    homepage. *)
Lemma find_jobs_page_requests_homepage (site : string) (tr : trace) :
  exists rest,
    fst (find_jobs_page W L site tr)
    = tr ++ EvGet (PyStr.rstrip_slash site) :: rest.
Proof.
  unfold find_jobs_page, bind.
  pose proof (fetch_html_plain_trace (PyStr.rstrip_slash site) tr) as Hf.
  destruct (fetch_html_total (PyStr.rstrip_slash site) false tr)
    as (tr1 & html & E).
  rewrite E in Hf |- *. cbn in Hf. subst tr1.
  set (k := (if html_ok html then _ else _) : M found).
  assert (Hk : extends k).
  { subst k. destruct (html_ok html);
      [apply check_page_extends | apply extends_ret]. }
  destruct (Hk (tr ++ [EvGet (PyStr.rstrip_slash site)])) as [e1 H1].
  destruct (k _) as [tr2 [f|e]]; cbn in H1; subst tr2.
  - destruct (opt_truthy (found_ats f)).
    + exists e1. cbn. now rewrite <- app_assoc.
    + destruct (try_paths_extends (PyStr.rstrip_slash site) JOBS_PATHS
                  ((tr ++ [EvGet (PyStr.rstrip_slash site)]) ++ e1)) as [e2 H2].
      exists (e1 ++ e2). rewrite H2. now rewrite <- !app_assoc.
  - exists e1. cbn. now rewrite <- app_assoc.
Qed.

(** ** C10: titles returned by the embedded-Ashby adapter *)

(** C10.  Whenever [scrape_ashby_embedded] returns a job list, no two of
    its records have the same title: the [seen] set is shared by the two
    link patterns, and the title stored in a record is the one that was
    added to [seen]. *)
Theorem scrape_ashby_embedded_titles_distinct
    (jobs_url company : string) (tr tr' : trace) (jobs : list Job) :
  scrape_ashby_embedded W L jobs_url company tr = (tr', Ok jobs) ->
  NoDup (map title jobs).
Proof.
  unfold scrape_ashby_embedded. intros H.
  apply bind_ok in H as (tr1 & html & _ & H).
  destruct (negb (html_ok html)).
  { apply ret_ok in H as [_ ->]. constructor. }
  apply bind_ok in H as (tr1' & soup & _ & H).
  apply bind_ok in H as (tr2 & [jobs1 seen1] & H1 & H).
  apply lift_ok in H1 as [-> H1].
  pose proof (embedded_jid_links_tracked L _ _ _ _ _ _ _
                (titles_tracked_nil ∅) H1) as Hinv.
  destruct (negb (nonempty_list jobs1)).
  - apply bind_ok in H as (tr3 & [jobs2 seen2] & H2 & H).
    apply lift_ok in H2 as [-> H2]. apply ret_ok in H as [_ ->].
    exact (proj1 (embedded_board_links_tracked L _ _ _ _ _ _ _ _ Hinv H2)).
  - apply ret_ok in H as [_ ->]. exact (proj1 Hinv).
Qed.

(** ** C7: priority of the generic strategies *)


(** ** C9: the Lever adapter on a non-array body *)

(** C9, amended.  When the Lever endpoint answers with a JSON body that
    is not an array, [scrape_lever] behaves from then on exactly as
    [scrape_generic] applied to the fallback URL: the ValueError it raises
    for the body is caught, it returns what [scrape_generic] returns, and
    it raises only when [scrape_generic] does. *)
Theorem scrape_lever_non_array
    (slug company fallback_url : string) (tr : trace) (r : Response) (data : pyval) :
  let api := "https://api.lever.co/v0/postings/" +:+ slug +:+ "?mode=json" in
  requests_get W (List.length tr) api = Some r ->
  r_json r = Ok data ->
  Py.is_list data = false ->
  scrape_lever W L slug company fallback_url tr
  = scrape_generic W L fallback_url company (tr ++ [EvGet api]).
Proof.
  intros api Hget Hjson Hlist.
  unfold scrape_lever, try_except, bind, http_get, lift.
  fold api. rewrite Hget. cbn [of_option]. rewrite Hjson, Hlist. reflexivity.
Qed.

(** ** C8: the slug variants of the Ashby adapter *)



End Network.

(** ** Which exceptions can leave the scraper *)

Lemma raises_only_ret {A} (P : exn -> Prop) (a : A) : raises_only P (ret a).
Proof. intros tr tr' e H. discriminate H. Qed.

Lemma raises_only_lift {A} (P : exn -> Prop) (r : result A) :
  (forall e, r = Raise e -> P e) -> raises_only P (lift r).
Proof. intros Hr tr tr' e H. unfold lift in H. injection H as _ ->. eauto. Qed.

Lemma raises_only_bind {A B} (P : exn -> Prop) (m : M A) (k : A -> M B) :
  raises_only P m -> (forall a, raises_only P (k a)) ->
  raises_only P (bind m k).
Proof.
  intros Hm Hk tr tr' e. unfold bind.
  destruct (m tr) as [tr1 [a|e1]] eqn:E.
  - apply Hk.
  - intros H. injection H as _ <-. eapply Hm, E.
Qed.

(** What leaves a [try] is what leaves its handler. *)
Lemma raises_only_try {A} (P : exn -> Prop) (m : M A) (h : exn -> M A) :
  (forall e, raises_only P (h e)) -> raises_only P (try_except m h).
Proof.
  intros Hh tr tr' e. unfold try_except.
  destruct (m tr) as [tr1 [a|e1]]; [discriminate | apply Hh].
Qed.

Lemma raises_only_total {A} (P : exn -> Prop) (m : M A) :
  (forall tr, exists tr' a, m tr = (tr', Ok a)) -> raises_only P m.
Proof. intros Hm tr tr' e H. destruct (Hm tr) as (t & a & E). congruence. Qed.

Section Provenance.

Variable W : World.
Variable L : Lib.

Lemma urljoin_raises (base u : string) (e : exn) :
  urljoin L base u = Raise e -> library_raises L e.
Proof. intros H. left. eauto. Qed.

Lemma parser_raises (html : string) (e : exn) :
  BeautifulSoup L html = Raise e -> library_raises L e.
Proof. intros H. right. eauto. Qed.

(** Building a record from strings does not raise. *)
Ltac built c :=
  match goal with
  | H : context [make_job (PStr ?t) (PStr ?d) (PStr ?l0) ?u c] |- _ =>
      let j := fresh "j" in
      let Hj := fresh "Hj" in
      destruct (make_job_of_strings t d l0 u c) as [j [Hj _]];
      rewrite Hj in H; cbn [rbind] in H
  end.

Lemma embedded_jid_links_raises (jobs_url c : string) (l : list Anchor) :
  forall jobs seen e,
    embedded_jid_links L jobs_url c l jobs seen = Raise e ->
    library_raises L e.
Proof.
  induction l as [|a l IH]; intros jobs seen e H; [discriminate H|].
  cbn [embedded_jid_links] in H. destruct (negb _); [eauto|].
  destruct (_ || _); [eauto|].
  destruct (Re.search_lit_exact _ _ _ _) as [uuid|].
  - cbn [rbind] in H. built c. eauto.
  - destruct (urljoin L jobs_url (a_href a)) as [s|e1] eqn:E.
    + cbn [rbind] in H. built c. eauto.
    + cbn [rbind] in H. injection H as <-. eapply urljoin_raises, E.
Qed.

Lemma embedded_board_links_raises (jobs_url c : string) (slug : option string)
    (l : list Anchor) :
  forall jobs seen e,
    embedded_board_links L jobs_url c slug l jobs seen = Raise e ->
    library_raises L e.
Proof.
  induction l as [|a l IH]; intros jobs seen e H; [discriminate H|].
  cbn [embedded_board_links] in H.
  destruct (urljoin L jobs_url (a_href a)) as [full|e1] eqn:E;
    [|cbn [rbind] in H; injection H as <-; eapply urljoin_raises, E].
  cbn [rbind] in H. destruct (_ && _); [eauto|].
  destruct (negb _); [eauto|]. destruct (_ || _); [eauto|].
  built c. eauto.
Qed.

Lemma class_heuristic_raises (jobs_url c : string) (l : list Container) :
  forall jobs seen e,
    class_heuristic L jobs_url c l jobs seen = Raise e -> library_raises L e.
Proof.
  induction l as [|ct l IH]; intros jobs seen e H; [discriminate H|].
  cbn [class_heuristic] in H. destruct (c_anchor ct) as [a|]; [|eauto].
  destruct (_ || _); [eauto|].
  destruct (urljoin L jobs_url (a_href a)) as [u|e1] eqn:E;
    [|cbn [rbind] in H; injection H as <-; eapply urljoin_raises, E].
  cbn [rbind] in H. built c. eauto.
Qed.

Lemma link_scan_raises (jobs_url c : string) (l : list Anchor) :
  forall jobs seen e,
    link_scan L jobs_url c l jobs seen = Raise e -> library_raises L e.
Proof.
  induction l as [|a l IH]; intros jobs seen e H; [discriminate H|].
  cbn [link_scan] in H. destruct (_ && _); [|eauto].
  destruct (urljoin L jobs_url (a_href a)) as [u|e1] eqn:E;
    [|cbn [rbind] in H; injection H as <-; eapply urljoin_raises, E].
  cbn [rbind] in H. destruct (negb _); [|eauto].
  built c. eauto.
Qed.

Lemma fetch_html_from_library (u : string) (b : bool) :
  raises_only (library_raises L) (fetch_html W u b).
Proof. apply raises_only_total. intros tr. apply fetch_html_total. Qed.

Lemma scrape_ashby_embedded_from_library (jobs_url c : string) :
  raises_only (library_raises L) (scrape_ashby_embedded W L jobs_url c).
Proof.
  unfold scrape_ashby_embedded.
  apply raises_only_bind; [apply fetch_html_from_library|]. intros html.
  destruct (negb (html_ok html)); [apply raises_only_ret|].
  apply raises_only_bind; [apply raises_only_lift, parser_raises|].
  intros soup. apply raises_only_bind.
  { apply raises_only_lift. apply embedded_jid_links_raises. }
  intros [jobs seen]. destruct (negb (nonempty_list jobs));
    [|apply raises_only_ret].
  apply raises_only_bind; [|intros; apply raises_only_ret].
  apply raises_only_lift. apply embedded_board_links_raises.
Qed.

Lemma scrape_generic_from_library (jobs_url c : string) :
  raises_only (library_raises L) (scrape_generic W L jobs_url c).
Proof.
  unfold scrape_generic.
  destruct (negb (PyStr.nonempty jobs_url)); [apply raises_only_ret|].
  apply raises_only_bind; [apply fetch_html_from_library|]. intros html.
  destruct (negb (html_ok html)); [apply raises_only_ret|].
  destruct (PyStr.contains _ _); [apply scrape_ashby_embedded_from_library|].
  apply raises_only_bind; [apply raises_only_lift, parser_raises|].
  intros soup. destruct (nonempty_list _); [apply raises_only_ret|].
  apply raises_only_bind.
  { apply raises_only_lift. apply class_heuristic_raises. }
  intros [jobs1 seen]. destruct (nonempty_list jobs1); [apply raises_only_ret|].
  apply raises_only_bind; [|intros; apply raises_only_ret].
  apply raises_only_lift. apply link_scan_raises.
Qed.

Lemma ashby_loop_from_library (variants : list string) (c fallback_url : string) :
  raises_only (library_raises L) (ashby_loop W L variants c fallback_url).
Proof.
  induction variants as [|v rest IH];
    [apply scrape_ashby_embedded_from_library|].
  cbn [ashby_loop]. apply raises_only_bind.
  - apply raises_only_try. intros e. apply raises_only_ret.
  - intros [js|]; [apply raises_only_ret | exact IH].
Qed.

Lemma route_to_scraper_from_library (ats : string) (slug : option string)
    (nm jobs_url : string) :
  raises_only (library_raises L) (route_to_scraper W L ats slug nm jobs_url).
Proof.
  unfold route_to_scraper.
  repeat match goal with
  | |- raises_only _ (if ?b then _ else _) => destruct b
  end;
  first [ apply scrape_generic_from_library
        | apply scrape_ashby_embedded_from_library
        | apply ashby_loop_from_library
        | apply raises_only_try; intros e; apply scrape_generic_from_library
        | idtac ].
  - unfold scrape_yc. apply raises_only_bind.
    + apply raises_only_try. intros e. apply raises_only_ret.
    + intros [js|]; [apply raises_only_ret|].
      apply raises_only_try. intros e. apply raises_only_ret.
  - unfold scrape_rippling. apply raises_only_bind.
    + apply raises_only_try. intros e. apply raises_only_ret.
    + intros [js|]; [apply raises_only_ret | apply scrape_generic_from_library].
Qed.

Lemma check_links_from_library (u : string) (l : list Anchor) :
  raises_only (library_raises L) (check_links W L u l).
Proof.
  induction l as [|a l IH]; [apply raises_only_ret|].
  cbn [check_links]. destruct (existsb _ _); [|exact IH].
  apply raises_only_bind.
  { apply raises_only_lift. apply urljoin_raises. }
  intros full_url. destruct (_ || _); [exact IH|].
  destruct (detect_ats_from_url full_url) as [ats slug].
  destruct (opt_truthy ats); [apply raises_only_ret|].
  apply raises_only_bind; [apply fetch_html_from_library|].
  intros sub_html. destruct (html_ok sub_html); [|exact IH].
  destruct (detect_ats_from_html _ _) as [ats' slug'].
  destruct (opt_truthy ats'); [apply raises_only_ret | exact IH].
Qed.

Lemma try_paths_total (base : string) (paths : list string) (tr : trace) :
  exists tr' f, try_paths W L base paths tr = (tr', Ok f).
Proof.
  revert tr. induction paths as [|path rest IH]; intros tr.
  - cbn. unfold ret. eauto.
  - cbn [try_paths]. unfold bind at 1, try_except.
    destruct (bind (http_get W (base +:+ path)) _ tr) as [tr1 [[f|]|e]];
      unfold ret; eauto.
Qed.

Lemma find_jobs_page_from_library (site : string) :
  raises_only (library_raises L) (find_jobs_page W L site).
Proof.
  unfold find_jobs_page.
  apply raises_only_bind; [apply fetch_html_from_library|]. intros html.
  apply raises_only_bind.
  - destruct (html_ok html); [|apply raises_only_ret].
    unfold check_page. destruct (detect_ats_from_html _ _) as [ats slug].
    destruct (opt_truthy ats); [apply raises_only_ret|].
    apply raises_only_bind; [apply raises_only_lift, parser_raises|].
    intros soup. apply check_links_from_library.
  - intros f. destruct (opt_truthy (found_ats f)); [apply raises_only_ret|].
    apply raises_only_total. intros tr. apply try_paths_total.
Qed.

Lemma auto_detection_from_library (nm site : string) :
  raises_only (library_raises L) (auto_detection W L nm site).
Proof.
  unfold auto_detection.
  destruct (negb (PyStr.nonempty site)); [apply raises_only_ret|].
  apply raises_only_bind; [apply find_jobs_page_from_library|].
  intros [[[jobs_url ats] slug] html].
  destruct (_ && _).
  { apply raises_only_bind; [apply route_to_scraper_from_library|].
    intros; apply raises_only_ret. }
  destruct (opt_truthy jobs_url); [|apply raises_only_ret].
  apply raises_only_bind; [apply scrape_generic_from_library|].
  intros; apply raises_only_ret.
Qed.

Lemma scrape_company_from_library (c : CompanyTarget) :
  raises_only (library_raises L) (scrape_company W L c).
Proof.
  unfold scrape_company.
  destruct (KNOWN_ATS !! _) as [[[ats slug] jobs_url]|];
    [|apply auto_detection_from_library].
  apply raises_only_bind; [apply route_to_scraper_from_library|].
  intros js. destruct (nonempty_list js);
    [apply raises_only_ret | apply auto_detection_from_library].
Qed.

End Provenance.

(** ** The network calls of an adapter *)

Lemma at_most_ret {A} (a : A) : at_most 0 (ret a).
Proof. intros tr. exists []. rewrite app_nil_r. split; [reflexivity | cbn; lia]. Qed.

Lemma at_most_lift {A} (r : result A) : at_most 0 (lift r).
Proof. intros tr. exists []. rewrite app_nil_r. split; [reflexivity | cbn; lia]. Qed.

Lemma at_most_weaken {A} (n n' : nat) (m : M A) :
  n <= n' -> at_most n m -> at_most n' m.
Proof.
  intros Hle H tr. destruct (H tr) as (ext & E & Hl). exists ext.
  split; [exact E | lia].
Qed.

Lemma at_most_bind {A B} (n k : nat) (m : M A) (f : A -> M B) :
  at_most n m -> (forall a, at_most k (f a)) -> at_most (n + k) (bind m f).
Proof.
  intros Hm Hf tr. unfold bind. destruct (Hm tr) as (e1 & E1 & H1).
  destruct (m tr) as [tr1 [a|e]]; cbn in E1; subst tr1.
  - destruct (Hf a (tr ++ e1)) as (e2 & E2 & H2). exists (e1 ++ e2).
    rewrite E2, app_assoc, length_app. split; [reflexivity | lia].
  - exists e1. split; [reflexivity | lia].
Qed.

Lemma at_most_try {A} (n k : nat) (m : M A) (h : exn -> M A) :
  at_most n m -> (forall e, at_most k (h e)) -> at_most (n + k) (try_except m h).
Proof.
  intros Hm Hh tr. unfold try_except. destruct (Hm tr) as (e1 & E1 & H1).
  destruct (m tr) as [tr1 [a|e]]; cbn in E1; subst tr1.
  - exists e1. split; [reflexivity | lia].
  - destruct (Hh e (tr ++ e1)) as (e2 & E2 & H2). exists (e1 ++ e2).
    rewrite E2, app_assoc, length_app. split; [reflexivity | lia].
Qed.

Ltac budget :=
  repeat first
    [ apply at_most_ret
    | apply at_most_lift
    | match goal with
      | |- at_most _ (if ?b then _ else _) => destruct b
      | |- at_most _ (match ?o with Some _ => _ | None => _ end) => destruct o
      | |- at_most _ (let '(_, _) := ?p in _) => destruct p
      end
    | intro ].

Section Budget.

Variable W : World.
Variable L : Lib.

Lemma fetch_html_plain (u : string) (tr : trace) :
  fetch_html W u false tr
  = (tr ++ [EvGet u], Ok (body_of (requests_get W (List.length tr) u))).
Proof.
  unfold fetch_html, bind, try_except, http_get, ret, body_of. cbn.
  destruct (requests_get W _ u) as [r|]; cbn; [|reflexivity].
  destruct (r_status_code r =? 200)%Z; reflexivity.
Qed.

Lemma at_most_http_get (u : string) : at_most 1 (http_get W u).
Proof. intros tr. exists [EvGet u]. split; [reflexivity | cbn; lia]. Qed.

Lemma at_most_http_post (u : string) : at_most 1 (http_post W u).
Proof. intros tr. exists [EvPost u]. split; [reflexivity | cbn; lia]. Qed.

Lemma at_most_browse (u : string) : at_most 1 (browse W u).
Proof. intros tr. exists [EvBrowser u]. split; [reflexivity | cbn; lia]. Qed.

(** An API request followed by decoding, which makes no call. *)
Lemma at_most_request {A B} (m : M A) (k : A -> M B) :
  at_most 1 m -> (forall a, at_most 0 (k a)) -> at_most 1 (bind m k).
Proof. intros Hm Hk. apply (at_most_bind 1 0); assumption. Qed.

Lemma at_most_pure_bind {A B} (m : M A) (k : A -> M B) :
  at_most 0 m -> (forall a, at_most 0 (k a)) -> at_most 0 (bind m k).
Proof. intros Hm Hk. apply (at_most_bind 0 0); assumption. Qed.

Lemma at_most_fetch_html (u : string) (b : bool) :
  at_most 2 (fetch_html W u b).
Proof.
  unfold fetch_html. apply (at_most_bind 1 1).
  - destruct (b && HAS_PLAYWRIGHT W).
    + apply (at_most_try 1 0); [|intros e; apply at_most_ret].
      apply at_most_request; [apply at_most_browse | intros h; apply at_most_ret].
    + apply (at_most_weaken 0); [lia | apply at_most_ret].
  - intros [h|]; [apply (at_most_weaken 0); [lia | apply at_most_ret]|].
    apply (at_most_try 1 0); [|intros e; apply at_most_ret].
    apply at_most_request; [apply at_most_http_get|]. intros r. budget.
Qed.

Lemma at_most_fetch_html_plain (u : string) : at_most 1 (fetch_html W u false).
Proof.
  intros tr. rewrite fetch_html_plain. exists [EvGet u].
  split; [reflexivity | cbn; lia].
Qed.

Lemma at_most_scrape_ashby_embedded (jobs_url c : string) :
  at_most 2 (scrape_ashby_embedded W L jobs_url c).
Proof.
  unfold scrape_ashby_embedded. apply (at_most_bind 2 0);
    [apply at_most_fetch_html|]. intros html.
  destruct (negb (html_ok html)); [apply at_most_ret|].
  apply at_most_pure_bind; [apply at_most_lift|]. intros soup.
  apply at_most_pure_bind; [apply at_most_lift|]. intros [jobs seen].
  destruct (negb (nonempty_list jobs)); [|apply at_most_ret].
  apply at_most_pure_bind; [apply at_most_lift | intros p; apply at_most_ret].
Qed.

Lemma at_most_scrape_generic (jobs_url c : string) :
  at_most 4 (scrape_generic W L jobs_url c).
Proof.
  unfold scrape_generic.
  destruct (negb (PyStr.nonempty jobs_url));
    [apply (at_most_weaken 0); [lia | apply at_most_ret]|].
  apply (at_most_bind 2 2); [apply at_most_fetch_html|]. intros html.
  destruct (negb (html_ok html));
    [apply (at_most_weaken 0); [lia | apply at_most_ret]|].
  destruct (PyStr.contains _ _); [apply at_most_scrape_ashby_embedded|].
  apply (at_most_weaken 0); [lia|].
  apply at_most_pure_bind; [apply at_most_lift|]. intros soup.
  destruct (nonempty_list _); [apply at_most_ret|].
  apply at_most_pure_bind; [apply at_most_lift|]. intros [jobs1 seen].
  destruct (nonempty_list jobs1); [apply at_most_ret|].
  apply at_most_pure_bind; [apply at_most_lift | intros p; apply at_most_ret].
Qed.

(** The body of an API adapter's [try]: one request, then decoding. *)
Ltac api_body :=
  repeat first
    [ apply at_most_http_get
    | apply at_most_http_post
    | apply at_most_ret
    | apply at_most_lift
    | apply at_most_request
    | apply at_most_pure_bind
    | match goal with
      | |- at_most _ (if ?b then _ else _) => destruct b
      end
    | intro ].

Lemma at_most_scrape_greenhouse (slug c fallback_url : string) :
  at_most 5 (scrape_greenhouse W L slug c fallback_url).
Proof.
  unfold scrape_greenhouse. apply (at_most_try 1 4);
    [api_body | intros e; apply at_most_scrape_generic].
Qed.

Lemma at_most_scrape_lever (slug c fallback_url : string) :
  at_most 5 (scrape_lever W L slug c fallback_url).
Proof.
  unfold scrape_lever. apply (at_most_try 1 4);
    [api_body | intros e; apply at_most_scrape_generic].
Qed.

Lemma at_most_scrape_workable (slug c fallback_url : string) :
  at_most 5 (scrape_workable W L slug c fallback_url).
Proof.
  unfold scrape_workable. apply (at_most_try 1 4);
    [api_body | intros e; apply at_most_scrape_generic].
Qed.

Lemma at_most_ashby_loop (variants : list string) (c fallback_url : string) :
  at_most (List.length variants + 2) (ashby_loop W L variants c fallback_url).
Proof.
  induction variants as [|v rest IH]; [apply at_most_scrape_ashby_embedded|].
  cbn [ashby_loop List.length].
  apply (at_most_bind 1 (List.length rest + 2)).
  - apply (at_most_try 1 0); [|intros e; apply at_most_ret].
    unfold ashby_attempt. api_body.
  - intros [jobs|]; [apply (at_most_weaken 0); [lia | apply at_most_ret]|].
    exact IH.
Qed.

Lemma at_most_scrape_rippling (slug c fallback_url : string) :
  at_most 5 (scrape_rippling W L slug c fallback_url).
Proof.
  unfold scrape_rippling. apply (at_most_bind 1 4).
  - apply (at_most_try 1 0); [api_body | intros e; apply at_most_ret].
  - intros [jobs|]; [apply (at_most_weaken 0); [lia | apply at_most_ret]|].
    apply at_most_scrape_generic.
Qed.

Lemma at_most_scrape_yc (slug c fallback_url : string) :
  at_most 2 (scrape_yc W L slug c fallback_url).
Proof.
  unfold scrape_yc. apply (at_most_bind 1 1).
  - apply (at_most_try 1 0); [api_body | intros e; apply at_most_ret].
  - intros [jobs|]; [apply (at_most_weaken 0); [lia | apply at_most_ret]|].
    apply (at_most_try 1 0); [|intros e; apply at_most_ret].
    apply at_most_request; [apply at_most_fetch_html_plain|]. intros html.
    destruct (negb (html_ok html)); [apply at_most_ret|].
    apply at_most_pure_bind; [apply at_most_lift|]. intros soup.
    apply at_most_pure_bind; [apply at_most_lift | intros p; apply at_most_ret].
Qed.

Lemma at_most_route_to_scraper (ats : string) (slug : option string)
    (nm jobs_url : string) :
  at_most 5 (route_to_scraper W L ats slug nm jobs_url).
Proof.
  unfold route_to_scraper.
  repeat match goal with
  | |- at_most _ (if ?b then _ else _) => destruct b
  end;
  first [ apply at_most_scrape_greenhouse
        | apply at_most_scrape_lever
        | apply (at_most_ashby_loop [_; _; _])
        | apply (at_most_weaken 2);
            [lia | apply at_most_scrape_ashby_embedded]
        | apply at_most_scrape_workable
        | apply (at_most_weaken 2); [lia | apply at_most_scrape_yc]
        | apply at_most_scrape_rippling
        | apply (at_most_weaken 4); [lia | apply at_most_scrape_generic] ].
Qed.

End Budget.


(** ** The per-company scraper *)

Section Orchestrator.

Variable W : World.
Variable L : Lib.

Lemma auto_detection_exclusive (nm site : string) (tr tr' : trace)
    (jobs : list Job) (r : string) :
  auto_detection W L nm site tr = (tr', Ok (jobs, Some r)) -> jobs = [].
Proof.
  unfold auto_detection. intros H.
  destruct (negb (PyStr.nonempty site)).
  { apply ret_ok in H as [_ H]. congruence. }
  apply bind_ok in H as (tr1 & [[[jobs_url ats] slug] html] & _ & H).
  destruct (opt_truthy jobs_url && opt_truthy ats).
  { apply bind_ok in H as (tr2 & js & _ & H).
    apply ret_ok in H as [_ H]. discriminate. }
  destruct (opt_truthy jobs_url).
  { apply bind_ok in H as (tr2 & js & _ & H).
    apply ret_ok in H as [_ H]. discriminate. }
  apply ret_ok in H as [_ H]. congruence.
Qed.

(** C4.  In the outcome [scrape_company] returns, a failure reason is
    always paired with the empty job list. *)
Theorem scrape_company_exclusive (c : CompanyTarget) (tr tr' : trace)
    (jobs : list Job) (r : string) :
  scrape_company W L c tr = (tr', Ok (jobs, Some r)) -> jobs = [].
Proof.
  unfold scrape_company.
  destruct (KNOWN_ATS !! str_lower L (name c)) as [[[ats slug] jobs_url]|];
    [|apply auto_detection_exclusive].
  intros H. apply bind_ok in H as (tr1 & js & _ & H).
  destruct (nonempty_list js).
  - apply ret_ok in H as [_ H]. discriminate.
  - eapply auto_detection_exclusive. exact H.
Qed.

(** C5, amended.  For a company with no website whose lower-cased name is
    not a key of [KNOWN_ATS], [scrape_company] returns
    [([], "no website")] without making any network call.  When the name
    has an override and the override's adapter finds no job, the outcome
    is again [([], "no website")], with no call beyond the adapter's. *)
Theorem scrape_company_no_website (c : CompanyTarget) (tr : trace) :
  website c = None ->
  (KNOWN_ATS !! str_lower L (name c) = None ->
   scrape_company W L c tr = (tr, Ok ([], Some "no website")))
  /\ (forall ats slug jobs_url tr',
        KNOWN_ATS !! str_lower L (name c) = Some (ats, slug, jobs_url) ->
        route_to_scraper W L ats slug (name c) jobs_url tr = (tr', Ok []) ->
        scrape_company W L c tr = (tr', Ok ([], Some "no website"))).
Proof.
  intros Hw. unfold scrape_company. rewrite Hw. split.
  - intros ->. reflexivity.
  - intros ats slug jobs_url tr' -> Hroute. unfold bind. rewrite Hroute.
    reflexivity.
Qed.

(** C6.  For a company whose lower-cased name is a key of [KNOWN_ATS]:
    when the override's adapter returns a non-empty job list,
    [scrape_company] returns those jobs (stamped with the company's
    website) and makes no network call beyond the adapter's, so no
    homepage is fetched.  When the adapter returns no job and the company
    has a website, [scrape_company] goes on from the state the adapter
    left with the jobs-page locator, whose first call is the request for
    the homepage, and its outcome is the one of auto-detection: the
    records of the adapter the locator selects, or of the generic adapter
    on the page it found, or [([], "no jobs page found")]; an exception
    of the locator leaves [scrape_company].  Without a website the
    outcome is [([], "no website")]. *)
Theorem scrape_company_override (c : CompanyTarget) (ats : string)
    (slug : option string) (jobs_url : string) (tr tr1 : trace)
    (jobs : list Job) :
  KNOWN_ATS !! str_lower L (name c) = Some (ats, slug, jobs_url) ->
  route_to_scraper W L ats slug (name c) jobs_url tr = (tr1, Ok jobs) ->
  let site := PyStr.rstrip_slash (opt_str (website c)) in
  let stamped (m : M (list Job)) : M ScrapeOutcome :=
    bind m (fun js => ret (map (set_company_website site) js, None)) in
  (jobs <> [] ->
   scrape_company W L c tr
   = (tr1, Ok (map (set_company_website site) jobs, None)))
  /\ (jobs = [] -> PyStr.nonempty site = false ->
      scrape_company W L c tr = (tr1, Ok ([], Some "no website")))
  /\ (jobs = [] -> PyStr.nonempty site = true ->
      (exists rest,
         fst (scrape_company W L c tr)
         = tr1 ++ EvGet (PyStr.rstrip_slash site) :: rest)
      /\ (forall tr2 e,
            find_jobs_page W L site tr1 = (tr2, Raise e) ->
            scrape_company W L c tr = (tr2, Raise e))
      /\ (forall tr2 u a s h,
            find_jobs_page W L site tr1 = (tr2, Ok (u, a, s, h)) ->
            scrape_company W L c tr
            = if opt_truthy u && opt_truthy a then
                stamped (route_to_scraper W L (opt_str a) s (name c) (opt_str u))
                  tr2
              else if opt_truthy u then
                stamped (scrape_generic W L (opt_str u) (name c)) tr2
              else (tr2, Ok ([], Some "no jobs page found")))).
Proof.
  intros Hover Hroute site stamped.
  assert (Hstep : scrape_company W L c tr
                  = if nonempty_list jobs
                    then (tr1, Ok (map (set_company_website site) jobs, None))
                    else auto_detection W L (name c) site tr1).
  { unfold scrape_company. rewrite Hover. fold site. unfold bind at 1.
    rewrite Hroute. destruct (nonempty_list jobs); reflexivity. }
  rewrite Hstep. clear Hstep. split; [|split].
  - destruct jobs; [congruence|]. reflexivity.
  - intros -> Hsite. cbn [nonempty_list]. unfold auto_detection.
    rewrite Hsite. reflexivity.
  - intros -> Hsite. cbn [nonempty_list]. unfold auto_detection.
    rewrite Hsite. cbn [negb]. split; [|split].
    + destruct (find_jobs_page_requests_homepage W L site tr1) as [rest Hrest].
      unfold bind at 1.
      destruct (find_jobs_page W L site tr1) as [tr2 [[[[u a] s] h]|e]];
        cbn [fst] in Hrest; subst tr2; [|exists rest; reflexivity].
      cbv beta iota.
      destruct (opt_truthy u && opt_truthy a).
      { destruct (at_most_bind 5 0 _
                    (fun js => ret (map (set_company_website site) js,
                                    @None string))
                    (at_most_route_to_scraper W L (opt_str a) s (name c)
                       (opt_str u))
                    (fun js => at_most_ret _)
                    (tr1 ++ EvGet (PyStr.rstrip_slash site) :: rest))
          as (ext & E & _).
        exists (rest ++ ext). etransitivity; [exact E|].
        rewrite <- app_assoc. reflexivity. }
      destruct (opt_truthy u); [|exists rest; reflexivity].
      destruct (at_most_bind 4 0 _
                  (fun js => ret (map (set_company_website site) js,
                                  @None string))
                  (at_most_scrape_generic W L (opt_str u) (name c))
                  (fun js => at_most_ret _)
                  (tr1 ++ EvGet (PyStr.rstrip_slash site) :: rest))
        as (ext & E & _).
      exists (rest ++ ext). etransitivity; [exact E|].
      rewrite <- app_assoc. reflexivity.
    + intros tr2 e Hfind. unfold bind at 1. rewrite Hfind. reflexivity.
    + intros tr2 u a s h Hfind. unfold bind at 1. rewrite Hfind.
      destruct (opt_truthy u && opt_truthy a); [reflexivity|].
      destruct (opt_truthy u); reflexivity.
Qed.

(** ** Unreachable hosts and the run loop *)

Lemma try_paths_unreachable (base : string) (paths : list string) :
  (forall t p, requests_get W t (base +:+ p) = None) ->
  forall tr,
    try_paths W L base paths tr
    = (tr ++ map (fun path => EvGet (base +:+ path)) paths, Ok not_found).
Proof.
  intros Hdown. induction paths as [|path rest IH]; intros tr.
  - cbn. rewrite app_nil_r. reflexivity.
  - cbn [try_paths]. unfold bind at 1, try_except, bind at 1, http_get.
    rewrite Hdown. cbn [of_option]. unfold ret. rewrite IH.
    rewrite <- app_assoc. reflexivity.
Qed.

Lemma find_jobs_page_unreachable (site : string) (tr : trace) :
  (forall t p, requests_get W t (PyStr.rstrip_slash site +:+ p) = None) ->
  find_jobs_page W L site tr
  = (tr ++ probes (PyStr.rstrip_slash site), Ok not_found).
Proof.
  intros Hdown. unfold find_jobs_page, bind.
  rewrite fetch_html_unanswered.
  2:{ rewrite <- (append_empty_r (PyStr.rstrip_slash site)). apply Hdown. }
  cbn [html_ok]. unfold ret. cbn [found_ats not_found opt_truthy].
  rewrite try_paths_unreachable by exact Hdown.
  rewrite <- app_assoc. reflexivity.
Qed.

(** The run loop catches whatever [scrape_company] raises. *)
Lemma main_loop_total (companies : list CompanyTarget) :
  forall all_jobs failed tr,
  exists tr' out, main_loop W L companies all_jobs failed tr = (tr', Ok out).
Proof.
  induction companies as [|c rest IH]; intros all_jobs failed tr.
  - cbn. unfold ret. eauto.
  - cbn [main_loop]. unfold bind at 1, try_except, bind at 1.
    destruct (scrape_company W L c tr) as [tr1 [[jobs error]|e]].
    + destruct (opt_truthy error); unfold ret; apply IH.
    + unfold ret. apply IH.
Qed.

(** One iteration of the run loop, by what [scrape_company] did. *)
Lemma main_loop_step (c : CompanyTarget) (rest : list CompanyTarget)
    (all_jobs : list Job) (failed : list (string * reason)) (tr : trace) :
  main_loop W L (c :: rest) all_jobs failed tr
  = match scrape_company W L c tr with
    | (tr1, Ok (jobs, error)) =>
        main_loop W L rest (all_jobs ++ jobs)
          (failed ++ if opt_truthy error
                     then [(name c, Reported (opt_str error))] else [])
          tr1
    | (tr1, Raise e) =>
        main_loop W L rest all_jobs (failed ++ [(name c, Caught e)]) tr1
    end.
Proof.
  cbn [main_loop]. unfold bind at 1, try_except, bind at 1.
  destruct (scrape_company W L c tr) as [tr1 [[jobs error]|e]];
    [|reflexivity].
  destruct (opt_truthy error); unfold ret; cbn [fst snd];
    [reflexivity | rewrite app_nil_r; reflexivity].
Qed.

(** The loop over a list is the loop over its first part followed by
    the loop over the rest. *)
Lemma main_loop_app (before rest : list CompanyTarget) :
  forall all_jobs failed tr tr0 aj0 f0,
    main_loop W L before all_jobs failed tr = (tr0, Ok (aj0, f0)) ->
    main_loop W L (before ++ rest) all_jobs failed tr
    = main_loop W L rest aj0 f0 tr0.
Proof.
  induction before as [|c before IH]; intros all_jobs failed tr tr0 aj0 f0 H.
  - cbn in H. injection H as <- <- <-. reflexivity.
  - rewrite <- app_comm_cons, main_loop_step. rewrite main_loop_step in H.
    destruct (scrape_company W L c tr) as [tr1 [[jobs error]|e]];
      apply IH, H.
Qed.

(** The loop only appends to the jobs and to the failure entries. *)
Lemma main_loop_grows (companies : list CompanyTarget) :
  forall all_jobs failed tr tr' aj' f',
    main_loop W L companies all_jobs failed tr = (tr', Ok (aj', f')) ->
    (exists nj, aj' = all_jobs ++ nj) /\ (exists nf, f' = failed ++ nf).
Proof.
  induction companies as [|c rest IH]; intros all_jobs failed tr tr' aj' f' H.
  - cbn in H. injection H as _ <- <-. split; exists []; now rewrite app_nil_r.
  - rewrite main_loop_step in H.
    destruct (scrape_company W L c tr) as [tr1 [[jobs error]|e]];
      apply IH in H as [[nj ->] [nf ->]]; rewrite <- !app_assoc; eauto.
Qed.

(** C1, amended.  [scrape_company] can raise, but only an exception
    raised by [urljoin] or by the HTML parser: failed requests, failed
    navigations, undecodable bodies and malformed postings never leave
    it.  For a company whose website answers no request, and which has
    no override or whose override's adapter returned no job,
    [scrape_company] returns [([], "no jobs page found")] after probing
    the homepage and the conventional paths.  Whatever [scrape_company]
    returns or raises, the run loop of [main] does not raise: it scrapes
    every company of the list, each from the state its predecessors left,
    records an exception as that company's failure reason, a returned
    reason likewise, appends the returned jobs, and goes on with the
    companies that follow. *)
Theorem scrape_company_unreachable_host :
  (forall (c : CompanyTarget) (tr tr' : trace) (e : exn),
     scrape_company W L c tr = (tr', Raise e) -> library_raises L e)
  /\ (forall (c : CompanyTarget) (w : string) (tr : trace),
        website c = Some w ->
        PyStr.nonempty (PyStr.rstrip_slash w) = true ->
        (forall t p, requests_get W t (PyStr.rstrip_slash w +:+ p) = None) ->
        (KNOWN_ATS !! str_lower L (name c) = None ->
         scrape_company W L c tr
         = (tr ++ probes (PyStr.rstrip_slash w),
            Ok ([], Some "no jobs page found")))
        /\ (forall ats slug jobs_url tr1,
              KNOWN_ATS !! str_lower L (name c) = Some (ats, slug, jobs_url) ->
              route_to_scraper W L ats slug (name c) jobs_url tr
              = (tr1, Ok []) ->
              scrape_company W L c tr
              = (tr1 ++ probes (PyStr.rstrip_slash w),
                 Ok ([], Some "no jobs page found"))))
  /\ (forall companies all_jobs failed tr,
      exists tr' all_jobs' failed',
        main_loop W L companies all_jobs failed tr
        = (tr', Ok (all_jobs', failed'))
        /\ forall before c after,
             companies = before ++ c :: after ->
             exists tr0 aj0 f0,
               main_loop W L before all_jobs failed tr = (tr0, Ok (aj0, f0))
               /\ (forall tr1 e,
                     scrape_company W L c tr0 = (tr1, Raise e) ->
                     main_loop W L after aj0 (f0 ++ [(name c, Caught e)]) tr1
                     = (tr', Ok (all_jobs', failed'))
                     /\ In (name c, Caught e) failed')
               /\ (forall tr1 jobs error,
                     scrape_company W L c tr0 = (tr1, Ok (jobs, error)) ->
                     main_loop W L after (aj0 ++ jobs)
                       (f0 ++ if opt_truthy error
                              then [(name c, Reported (opt_str error))]
                              else [])
                       tr1
                     = (tr', Ok (all_jobs', failed'))
                     /\ incl jobs all_jobs'
                     /\ (opt_truthy error = true ->
                         In (name c, Reported (opt_str error)) failed'))).
Proof.
  split; [|split].
  - intros c tr tr' e H. exact (scrape_company_from_library W L c _ _ _ H).
  - intros c w tr Hw Hsite Hdown.
    assert (Hauto : forall t,
               auto_detection W L (name c) (PyStr.rstrip_slash w) t
               = (t ++ probes (PyStr.rstrip_slash w),
                  Ok ([], Some "no jobs page found"))).
    { intros t. unfold auto_detection. rewrite Hsite. cbn [negb].
      unfold bind. rewrite find_jobs_page_unreachable.
      - unfold PyStr.rstrip_slash. rewrite rstrip_chars_idem. reflexivity.
      - intros t0 p. unfold PyStr.rstrip_slash. rewrite rstrip_chars_idem.
        apply Hdown. }
    unfold scrape_company. rewrite Hw. cbn [opt_str]. split.
    + intros ->. apply Hauto.
    + intros ats slug jobs_url tr1 -> Hroute. unfold bind. rewrite Hroute.
      cbn [nonempty_list]. apply Hauto.
  - intros companies all_jobs failed tr.
    destruct (main_loop_total companies all_jobs failed tr)
      as (tr' & [aj' f'] & Hall).
    exists tr', aj', f'. split; [exact Hall|].
    intros before c after ->.
    destruct (main_loop_total before all_jobs failed tr)
      as (tr0 & [aj0 f0] & Hbefore).
    exists tr0, aj0, f0. split; [exact Hbefore|].
    rewrite (main_loop_app _ _ _ _ _ _ _ _ Hbefore), main_loop_step in Hall.
    split.
    + intros tr1 e Hc. rewrite Hc in Hall. split; [exact Hall|].
      apply main_loop_grows in Hall as [_ [nf ->]].
      apply in_or_app. left. apply in_or_app. right. left. reflexivity.
    + intros tr1 jobs error Hc. rewrite Hc in Hall. split; [exact Hall|].
      apply main_loop_grows in Hall as [[nj ->] [nf ->]]. split.
      * intros j Hj. apply in_or_app. left. apply in_or_app. right. exact Hj.
      * intros ->. apply in_or_app. left. apply in_or_app. right.
        left. reflexivity.
Qed.

End Orchestrator.

(** ** The properties on the sample worlds *)

Import Sample.

(** C1, as stated, fails.  A homepage whose careers link has a malformed
    network location makes [urljoin] raise inside [find_jobs_page], and
    the ValueError leaves [scrape_company]; a homepage that html.parser
    rejects makes the parser raise there.  And a company with an override
    is scraped through the override even when its own website answers
    nothing: the outcome then has jobs and no failure reason. *)
Lemma scrape_company_can_raise :
  scrape_company world_bad_link lib acme []
  = ([EvGet "https://acme.test"], Raise ValueError)
  /\ scrape_company
       (world_of [("https://acme.test",
                   html_page "https://acme.test" page_rejected)])
       lib acme []
     = ([EvGet "https://acme.test"], Raise ParserRejectedMarkup)
  /\ (forall t p, requests_get world_faire t ("https://faire.com" +:+ p) = None)
  /\ scrape_company world_faire lib faire []
     = ([EvGet faire_api],
        Ok ([ job "Software Engineer" "Engineering" "San Francisco"
                (PStr "https://boards.greenhouse.io/faire/jobs/1")
                "Faire" "https://faire.com";
              job "Account Executive" "Sales" "New York"
                (PStr "https://boards.greenhouse.io/faire/jobs/2")
                "Faire" "https://faire.com" ], None)).
Proof.
  split; [vm_compute; reflexivity|]. split; [vm_compute; reflexivity|].
  split; [|vm_compute; reflexivity].
  intros t p. vm_compute. reflexivity.
Qed.

(** The amended C1: the ValueError of the malformed link comes from
    [urljoin]; a company without override and one with an override, both
    on a network that is down; and a run over a company that raises
    followed by one that has jobs. *)
Lemma scrape_company_unreachable_host_witness :
  library_raises lib ValueError
  /\ scrape_company world_down lib acme []
     = (probes "https://acme.test", Ok ([], Some "no jobs page found"))
  /\ scrape_company world_down lib faire []
     = ([EvGet faire_api; EvGet "https://boards.greenhouse.io/faire"]
          ++ probes "https://faire.com",
        Ok ([], Some "no jobs page found"))
  /\ (exists tr' all_jobs' failed',
        main_loop
          (world_of [("https://acme.test",
                      html_page "https://acme.test" page_bad_link)])
          lib [acme; acme_no_website] [] [] []
        = (tr', Ok (all_jobs', failed'))
        /\ In ("Acme", Caught ValueError) failed'
        /\ In ("Acme", Reported "no website") failed').
Proof.
  split; [|split; [|split]].
  - apply (proj1 (scrape_company_unreachable_host world_bad_link lib)
             acme [] [EvGet "https://acme.test"] ValueError).
    vm_compute. reflexivity.
  - apply (proj1 (proj1 (proj2 (scrape_company_unreachable_host world_down lib))
                    acme "https://acme.test/" []
                    eq_refl ltac:(vm_compute; reflexivity)
                    ltac:(intros t p; reflexivity))).
    vm_compute. reflexivity.
  - apply (proj2 (proj1 (proj2 (scrape_company_unreachable_host world_down lib))
                    faire "https://faire.com" []
                    eq_refl ltac:(vm_compute; reflexivity)
                    ltac:(intros t p; reflexivity))
             "greenhouse" (Some "Faire") "https://boards.greenhouse.io/faire").
    + vm_compute. reflexivity.
    + vm_compute. reflexivity.
  - destruct (proj2 (proj2 (scrape_company_unreachable_host
                              (world_of [("https://acme.test",
                                          html_page "https://acme.test"
                                            page_bad_link)])
                              lib))
                [acme; acme_no_website] [] [] [])
      as (tr' & aj' & f' & Hall & Hsplit).
    exists tr', aj', f'. split; [exact Hall|]. split.
    + destruct (Hsplit [] acme [acme_no_website] eq_refl)
        as (tr0 & aj0 & f0 & H0 & Hraise & _).
      injection H0 as <- <- <-.
      apply (Hraise [EvGet "https://acme.test"] ValueError).
      vm_compute. reflexivity.
    + destruct (Hsplit [acme] acme_no_website [] eq_refl)
        as (tr0 & aj0 & f0 & H0 & _ & Hret).
      vm_compute in H0. injection H0 as <- <- <-.
      apply (Hret [EvGet "https://acme.test"] [] (Some "no website"));
        vm_compute; reflexivity.
Defined.

(** C4 on a company whose host is down. *)
Lemma scrape_company_exclusive_witness :
  exists jobs,
    scrape_company world_down lib acme []
    = (probes "https://acme.test", Ok (jobs, Some "no jobs page found"))
    /\ jobs = [].
Proof.
  exists []. split; [vm_compute; reflexivity|].
  apply (scrape_company_exclusive world_down lib acme []
           (probes "https://acme.test") [] "no jobs page found").
  vm_compute. reflexivity.
Defined.

(** C5, as stated, fails: Faire has an override, so without a website it
    is still scraped through the Greenhouse API: one network call is
    made and the outcome carries two jobs and no failure reason. *)
Lemma scrape_company_no_website_with_override :
  website faire_no_website = None
  /\ scrape_company world_faire lib faire_no_website []
     = ([EvGet faire_api],
        Ok ([ job "Software Engineer" "Engineering" "San Francisco"
                (PStr "https://boards.greenhouse.io/faire/jobs/1") "Faire" "";
              job "Account Executive" "Sales" "New York"
                (PStr "https://boards.greenhouse.io/faire/jobs/2") "Faire" "" ],
            None))
  /\ scrape_company world_faire lib faire_no_website []
     <> ([], Ok ([], Some "no website")).
Proof.
  split; [reflexivity|]. split; [vm_compute; reflexivity|].
  vm_compute. discriminate.
Qed.

(** The amended C5: a company without website and without override, and
    one whose override finds an empty board. *)
Lemma scrape_company_no_website_witness :
  scrape_company world_faire lib acme_no_website [] = ([], Ok ([], Some "no website"))
  /\ scrape_company world_faire_empty lib faire_no_website []
     = ([EvGet faire_api], Ok ([], Some "no website")).
Proof.
  split.
  - apply (proj1 (scrape_company_no_website world_faire lib acme_no_website []
                    eq_refl)).
    vm_compute. reflexivity.
  - apply (proj2 (scrape_company_no_website world_faire_empty lib
                    faire_no_website [] eq_refl)
             "greenhouse" (Some "Faire") "https://boards.greenhouse.io/faire").
    + vm_compute. reflexivity.
    + vm_compute. reflexivity.
Defined.

(** C6 on Faire: with two postings on the board the outcome is those two
    jobs after the single API request; with an empty board the request
    for the homepage follows the API request; with an empty board and no
    website the outcome is [([], "no website")]. *)
Lemma scrape_company_override_witness :
  scrape_company world_faire lib faire []
  = ([EvGet faire_api],
     Ok ([ job "Software Engineer" "Engineering" "San Francisco"
             (PStr "https://boards.greenhouse.io/faire/jobs/1")
             "Faire" "https://faire.com";
           job "Account Executive" "Sales" "New York"
             (PStr "https://boards.greenhouse.io/faire/jobs/2")
             "Faire" "https://faire.com" ], None))
  /\ (exists rest,
        fst (scrape_company world_faire_empty lib faire [])
        = [EvGet faire_api] ++ EvGet "https://faire.com" :: rest)
  /\ scrape_company world_faire_empty lib faire []
     = ([EvGet faire_api] ++ probes "https://faire.com",
        Ok ([], Some "no jobs page found"))
  /\ scrape_company world_faire_empty lib faire_no_website []
     = ([EvGet faire_api], Ok ([], Some "no website")).
Proof.
  split; [|split; [|split]].
  - apply (proj1 (scrape_company_override world_faire lib faire
                    "greenhouse" (Some "Faire") "https://boards.greenhouse.io/faire"
                    [] [EvGet faire_api]
                    [ job "Software Engineer" "Engineering" "San Francisco"
                        (PStr "https://boards.greenhouse.io/faire/jobs/1") "Faire" "";
                      job "Account Executive" "Sales" "New York"
                        (PStr "https://boards.greenhouse.io/faire/jobs/2") "Faire" "" ]
                    ltac:(vm_compute; reflexivity)
                    ltac:(vm_compute; reflexivity))).
    discriminate.
  - apply (proj1 (proj2 (proj2 (scrape_company_override world_faire_empty lib faire
                    "greenhouse" (Some "Faire") "https://boards.greenhouse.io/faire"
                    [] [EvGet faire_api] []
                    ltac:(vm_compute; reflexivity)
                    ltac:(vm_compute; reflexivity)))
             eq_refl ltac:(vm_compute; reflexivity))).
  - apply (proj2 (proj2 (proj2 (proj2 (scrape_company_override world_faire_empty
                    lib faire
                    "greenhouse" (Some "Faire") "https://boards.greenhouse.io/faire"
                    [] [EvGet faire_api] []
                    ltac:(vm_compute; reflexivity)
                    ltac:(vm_compute; reflexivity)))
             eq_refl ltac:(vm_compute; reflexivity)))
           ([EvGet faire_api] ++ probes "https://faire.com")
           None None None None).
    vm_compute. reflexivity.
  - apply (proj1 (proj2 (scrape_company_override world_faire_empty lib
                    faire_no_website
                    "greenhouse" (Some "Faire") "https://boards.greenhouse.io/faire"
                    [] [EvGet faire_api] []
                    ltac:(vm_compute; reflexivity)
                    ltac:(vm_compute; reflexivity)))
             eq_refl ltac:(vm_compute; reflexivity)).
Defined.



(** C9, as stated, fails: Lever answers with an error object and the
    hosted page has a posting link with a malformed network location;
    [scrape_generic] raises on it, and so does [scrape_lever]. *)
Lemma scrape_lever_can_raise :
  let W := world_lever_error page_bad_container in
  requests_get W 0 lever_api = Some (json_reply lever_api lever_error)
  /\ Py.is_list lever_error = false
  /\ scrape_lever W lib "owner" "Owner" "https://jobs.lever.co/owner" []
     = ([EvGet lever_api; EvGet "https://jobs.lever.co/owner"], Raise ValueError).
Proof. cbv zeta. repeat split; vm_compute; reflexivity. Qed.

(** The amended C9 when the hosted page is a well-formed one. *)
Lemma scrape_lever_non_array_witness :
  scrape_lever (world_lever_error page_schema) lib "owner" "Owner"
    "https://jobs.lever.co/owner" []
  = scrape_generic (world_lever_error page_schema) lib
      "https://jobs.lever.co/owner" "Owner" [EvGet lever_api]
  /\ scrape_generic (world_lever_error page_schema) lib
       "https://jobs.lever.co/owner" "Owner" [EvGet lever_api]
     = ([EvGet lever_api; EvGet "https://jobs.lever.co/owner"],
        Ok [ job "Engineer" "General" "Not specified"
               (PStr "https://jobs.lever.co/owner") "Owner" "" ]).
Proof.
  split; [|vm_compute; reflexivity].
  apply (scrape_lever_non_array (world_lever_error page_schema) lib
           "owner" "Owner" "https://jobs.lever.co/owner" []
           (json_reply lever_api lever_error) lever_error).
  - vm_compute. reflexivity.
  - reflexivity.
  - reflexivity.
Defined.

(** C10 on a page that embeds the same posting title twice: one record
    is returned. *)
Lemma scrape_ashby_embedded_titles_distinct_witness :
  let out := [ job "Designer" "General" "Not specified"
                 (PStr ("https://app.ashbyhq.com/jobs/" +:+ uuid1)) "Acme" "" ] in
  scrape_ashby_embedded (world_careers page_twice) lib
    "https://acme.test/careers" "Acme" []
  = ([EvGet "https://acme.test/careers"], Ok out)
  /\ NoDup (map title out).
Proof.
  cbv zeta. split; [vm_compute; reflexivity|].
  apply (scrape_ashby_embedded_titles_distinct (world_careers page_twice) lib
           "https://acme.test/careers" "Acme" []
           [EvGet "https://acme.test/careers"]).
  vm_compute. reflexivity.
Defined.

(** C8 on a board that answers only to the capitalised slug: three
    requests, in order, and the jobs of the third. *)
Example scrape_ashby_capitalised_slug :
  let W := world_of
             [ (ashby_endpoint "Resq",
                json_reply (ashby_endpoint "Resq")
                  (PDict [("jobs", PList [PDict [("title", PStr "Dispatcher")]])])) ] in
  scrape_ashby W lib "resQ" "ResQ" "https://jobs.ashbyhq.com/resQ" []
  = ([EvGet (ashby_endpoint "resQ"); EvGet (ashby_endpoint "resq");
      EvGet (ashby_endpoint "Resq")],
     Ok [ job "Dispatcher" "General" "Not specified"
            (PStr "https://jobs.ashbyhq.com/resQ") "ResQ" "" ]).
Proof. vm_compute. reflexivity. Qed.

(** A Greenhouse posting without a [departments] field: the default
    [[{}]] has no ["name"], so the lookup raises and [scrape_greenhouse]
    falls back to [scrape_generic] for the whole response. *)
Example greenhouse_job_without_departments :
  greenhouse_job "Acme" "https://boards.greenhouse.io/acme"
    (PDict [("title", PStr "Engineer")]) = Raise KeyError.
Proof. reflexivity. Qed.

(** * Further properties of the engine *)

(** ** Which exceptions can leave the scraper *)

Lemma never_raises_ret {A} (a : A) : never_raises (ret a).
Proof. intros tr. unfold ret. eauto. Qed.

Lemma never_raises_bind {A B} (m : M A) (k : A -> M B) :
  never_raises m -> (forall a, never_raises (k a)) -> never_raises (bind m k).
Proof.
  intros Hm Hk tr. unfold bind. destruct (Hm tr) as (tr1 & a & ->).
  apply Hk.
Qed.

(** A [try] whose handler never raises never raises. *)
Lemma never_raises_try {A} (m : M A) (h : exn -> M A) :
  (forall e, never_raises (h e)) -> never_raises (try_except m h).
Proof.
  intros Hh tr. unfold try_except. destruct (m tr) as [tr1 [a|e]]; [eauto|].
  apply Hh.
Qed.

Section NoRaise.

Variable W : World.
Variable L : Lib.

Lemma never_raises_scrape_yc (slug c fallback_url : string) :
  never_raises (scrape_yc W L slug c fallback_url).
Proof.
  unfold scrape_yc. apply never_raises_bind.
  - apply never_raises_try. intros e. apply never_raises_ret.
  - intros [js|]; [apply never_raises_ret|].
    apply never_raises_try. intros e. apply never_raises_ret.
Qed.

Lemma never_raises_try_paths (base : string) (paths : list string) :
  never_raises (try_paths W L base paths).
Proof.
  induction paths as [|path rest IH]; [apply never_raises_ret|].
  cbn [try_paths]. apply never_raises_bind.
  - apply never_raises_try. intros e. apply never_raises_ret.
  - intros [f|]; [apply never_raises_ret | exact IH].
Qed.

End NoRaise.

(** X2.  [scrape_yc] never raises, even when the parser does: the API
    attempt and the HTML fallback each sit in their own [try], and the
    fallback's handler returns the empty list. *)
Theorem scrape_yc_never_raises (W : World) (L : Lib)
    (slug c fallback_url : string) (tr : trace) :
  exists tr' found_jobs,
    scrape_yc W L slug c fallback_url tr = (tr', Ok found_jobs).
Proof. apply never_raises_scrape_yc. Qed.

(** X3.  The conventional-path stage of [find_jobs_page] swallows every
    exception raised while probing a path, the page's link check
    included: the loop over the paths never raises. *)
Theorem try_paths_never_raises (W : World) (L : Lib)
    (base : string) (paths : list string) (tr : trace) :
  exists tr' f, try_paths W L base paths tr = (tr', Ok f).
Proof. apply never_raises_try_paths. Qed.

(** ** A network that is down *)

Lemma gives_ret {A} (a : A) : gives a (ret a).
Proof. intros tr. unfold ret. eauto. Qed.

Lemma gives_bind {A B} (a : A) (b : B) (m : M A) (k : A -> M B) :
  gives a m -> gives b (k a) -> gives b (bind m k).
Proof.
  intros Hm Hk tr. unfold bind. destruct (Hm tr) as [tr1 ->]. apply Hk.
Qed.

Lemma gives_try {A} (a : A) (m : M A) (h : exn -> M A) :
  gives a m -> gives a (try_except m h).
Proof.
  intros Hm tr. unfold try_except. destruct (Hm tr) as [tr1 ->]. eauto.
Qed.

Section Offline.

Variable W : World.
Variable L : Lib.
Hypothesis Hdown : offline W.

Lemma fetch_html_offline (u : string) (b : bool) : gives None (fetch_html W u b).
Proof.
  destruct Hdown as (Hget & _ & Hpage). intros tr.
  unfold fetch_html, bind, try_except, browse, http_get, ret.
  destruct (b && HAS_PLAYWRIGHT W).
  - rewrite Hpage. cbn [of_option]. rewrite Hget. cbn. eauto.
  - rewrite Hget. cbn. eauto.
Qed.

Lemma scrape_ashby_embedded_offline (jobs_url c : string) :
  gives [] (scrape_ashby_embedded W L jobs_url c).
Proof.
  unfold scrape_ashby_embedded.
  eapply gives_bind; [apply fetch_html_offline | apply gives_ret].
Qed.

Lemma scrape_generic_offline (jobs_url c : string) :
  gives [] (scrape_generic W L jobs_url c).
Proof.
  unfold scrape_generic.
  destruct (negb (PyStr.nonempty jobs_url)); [apply gives_ret|].
  eapply gives_bind; [apply fetch_html_offline | apply gives_ret].
Qed.

(** A [try] whose body starts with a request runs its handler. *)
Lemma try_get_offline {A} (u : string) (k : Response -> M A)
    (h : exn -> M A) (tr : trace) :
  try_except (bind (http_get W u) k) h tr
  = h RequestException (tr ++ [EvGet u]).
Proof.
  destruct Hdown as (Hget & _ & _).
  unfold try_except, bind, http_get. rewrite Hget. reflexivity.
Qed.

Lemma try_post_offline {A} (u : string) (k : Response -> M A)
    (h : exn -> M A) (tr : trace) :
  try_except (bind (http_post W u) k) h tr
  = h RequestException (tr ++ [EvPost u]).
Proof.
  destruct Hdown as (_ & Hpost & _).
  unfold try_except, bind, http_post. rewrite Hpost. reflexivity.
Qed.

Lemma ashby_loop_offline (variants : list string) (c fallback_url : string) :
  gives [] (ashby_loop W L variants c fallback_url).
Proof.
  induction variants as [|v rest IH]; [apply scrape_ashby_embedded_offline|].
  intros tr. cbn [ashby_loop]. destruct Hdown as (Hget & _ & _).
  unfold bind at 1, try_except, bind at 1, ashby_attempt, bind at 1, http_get.
  rewrite Hget. cbn [of_option]. unfold ret. apply IH.
Qed.

Lemma route_to_scraper_offline (ats : string) (slug : option string)
    (nm jobs_url : string) :
  gives [] (route_to_scraper W L ats slug nm jobs_url).
Proof.
  unfold route_to_scraper.
  repeat match goal with
  | |- gives _ (if ?b then _ else _) => destruct b
  end;
  first [ apply scrape_generic_offline
        | apply scrape_ashby_embedded_offline
        | apply ashby_loop_offline
        | idtac ].
  - intros tr. unfold scrape_greenhouse.
    rewrite try_get_offline. apply scrape_generic_offline.
  - intros tr. unfold scrape_lever.
    rewrite try_get_offline. apply scrape_generic_offline.
  - intros tr. unfold scrape_workable.
    rewrite try_post_offline. apply scrape_generic_offline.
  - intros tr. unfold scrape_yc. unfold bind at 1.
    rewrite try_get_offline.
    unfold ret at 1. apply gives_try.
    eapply gives_bind; [apply fetch_html_offline | apply gives_ret].
  - intros tr. unfold scrape_rippling. unfold bind at 1.
    rewrite try_get_offline.
    unfold ret at 1. apply scrape_generic_offline.
Qed.

Lemma find_jobs_page_offline (site : string) :
  gives not_found (find_jobs_page W L site).
Proof.
  intros tr. rewrite find_jobs_page_unreachable; [eauto|].
  intros t p. apply Hdown.
Qed.

Lemma auto_detection_offline (nm site : string) :
  gives ([], Some (if PyStr.nonempty site then "no jobs page found"
                   else "no website"))
    (auto_detection W L nm site).
Proof.
  unfold auto_detection. destruct (PyStr.nonempty site); cbn [negb];
    [|apply gives_ret].
  eapply gives_bind; [apply find_jobs_page_offline|]. apply gives_ret.
Qed.

End Offline.

(** X1.  When the network is down (no request is answered and the
    browser delivers no page), [scrape_company] returns for every
    company, with or without an override, the empty job list and a
    failure reason: ["no website"] when the company has no website,
    ["no jobs page found"] otherwise. *)
Theorem scrape_company_offline (W : World) (L : Lib) :
  offline W ->
  forall (c : CompanyTarget) (tr : trace),
  exists tr',
    scrape_company W L c tr
    = (tr', Ok ([], Some (if PyStr.nonempty
                               (PyStr.rstrip_slash (opt_str (website c)))
                          then "no jobs page found" else "no website"))).
Proof.
  intros Hdown c tr. unfold scrape_company.
  destruct (KNOWN_ATS !! _) as [[[ats slug] jobs_url]|];
    [|apply auto_detection_offline, Hdown].
  unfold bind at 1.
  destruct (route_to_scraper_offline W L Hdown ats slug (name c) jobs_url tr)
    as [tr1 ->].
  cbn [nonempty_list]. apply auto_detection_offline, Hdown.
Qed.

(** X1 on Faire, which has an override, and on a company without
    website. *)
Lemma scrape_company_offline_witness :
  (exists tr',
     scrape_company world_down lib faire []
     = (tr', Ok ([], Some "no jobs page found")))
  /\ (exists tr',
        scrape_company world_down lib acme_no_website []
        = (tr', Ok ([], Some "no website"))).
Proof.
  split.
  - apply (scrape_company_offline world_down lib
             ltac:(repeat split; intros n u; reflexivity) faire []).
  - apply (scrape_company_offline world_down lib
             ltac:(repeat split; intros n u; reflexivity) acme_no_website []).
Defined.

(** ** What every returned record satisfies *)

Lemma returns_ret {A} (Q : A -> Prop) (a : A) : Q a -> returns Q (ret a).
Proof. intros Ha tr tr' x H. apply ret_ok in H as [_ ->]. exact Ha. Qed.

Lemma returns_lift {A} (Q : A -> Prop) (r : result A) :
  (forall a, r = Ok a -> Q a) -> returns Q (lift r).
Proof. intros Hr tr tr' x H. apply lift_ok in H as [_ H]. auto. Qed.

Lemma returns_bind {A B} (Q1 : A -> Prop) (Q2 : B -> Prop)
    (m : M A) (k : A -> M B) :
  returns Q1 m -> (forall a, Q1 a -> returns Q2 (k a)) -> returns Q2 (bind m k).
Proof.
  intros Hm Hk tr tr' b H. apply bind_ok in H as (tr1 & a & Ha & H).
  exact (Hk a (Hm _ _ _ Ha) _ _ _ H).
Qed.

Lemma returns_any {A} (m : M A) : returns (fun _ => True) m.
Proof. intros tr tr' a _. exact I. Qed.

Lemma returns_try {A} (Q : A -> Prop) (m : M A) (h : exn -> M A) :
  returns Q m -> (forall e, returns Q (h e)) -> returns Q (try_except m h).
Proof.
  intros Hm Hh tr tr' a H. unfold try_except in H.
  destruct (m tr) as [tr1 [x|e]] eqn:E.
  - injection H as <- <-. exact (Hm _ _ _ E).
  - exact (Hh e _ _ _ H).
Qed.

Lemma str_strip_stripped (v : pyval) (s : string) :
  Py.str_strip v = Ok s -> PyStr.strip s = s.
Proof.
  destruct v; cbn; try discriminate. intros H. injection H as <-.
  apply strip_idem.
Qed.

(** [make_job] stores the company and the url it is given, sets no
    website, and strips the three text fields. *)
Lemma make_job_made_for (t d l u : pyval) (c : string) (j : Job) :
  make_job t d l u c = Ok j -> made_for c j /\ url j = u.
Proof.
  unfold make_job. intros H.
  destruct (Py.str_strip t) as [t'|] eqn:Et; [|discriminate H].
  destruct (Py.str_strip (Py.por d _)) as [d'|] eqn:Ed; [|discriminate H].
  destruct (Py.str_strip (Py.por l _)) as [l'|] eqn:El; [|discriminate H].
  cbn [rbind] in H. injection H as <-. unfold made_for. cbn.
  repeat split; eauto using str_strip_stripped.
Qed.

Lemma mapM_Forall {A B} (P : B -> Prop) (f : A -> result B) :
  (forall x y, f x = Ok y -> P y) ->
  forall l ys, mapM f l = Ok ys -> Forall P ys.
Proof.
  intros Hf. induction l as [|x l IH]; intros ys H; cbn in H.
  - injection H as <-. constructor.
  - destruct (f x) as [y|] eqn:E; [|discriminate H]. cbn [rbind] in H.
    destruct (mapM f l) as [ys'|]; [|discriminate H]. cbn [rbind] in H.
    injection H as <-. constructor; eauto.
Qed.

(** Peels the binds of a computation in [result] that ends in [make_job]. *)
Ltac peel H :=
  repeat match type of H with
  | rbind ?m _ = Ok _ =>
      let E := fresh "E" in
      destruct m eqn:E; [cbn [rbind] in H | discriminate H]
  end.

Lemma snoc_Forall {A} (P : A -> Prop) (l : list A) (x : A) :
  Forall P l -> P x -> Forall P (l ++ [x]).
Proof. intros Hl Hx. apply Forall_app. split; [exact Hl | repeat constructor; exact Hx]. Qed.

Section Records.

Variable W : World.
Variable L : Lib.
Variable c : string.

Lemma greenhouse_job_made_for (fb : string) (x : pyval) (j : Job) :
  greenhouse_job c fb x = Ok j -> made_for c j.
Proof.
  unfold greenhouse_job. intros H. peel H.
  exact (proj1 (make_job_made_for _ _ _ _ _ _ H)).
Qed.

Lemma lever_job_made_for (fb : string) (x : pyval) (j : Job) :
  lever_job c fb x = Ok j -> made_for c j.
Proof.
  unfold lever_job. intros H. peel H.
  exact (proj1 (make_job_made_for _ _ _ _ _ _ H)).
Qed.

Lemma ashby_job_made_for (fb : string) (x : pyval) (j : Job) :
  ashby_job c fb x = Ok j -> made_for c j.
Proof.
  unfold ashby_job. intros H. peel H.
  exact (proj1 (make_job_made_for _ _ _ _ _ _ H)).
Qed.

Lemma workable_job_made_for (slug : string) (x : pyval) (j : Job) :
  workable_job L slug c x = Ok j -> made_for c j.
Proof.
  unfold workable_job. intros H. peel H.
  exact (proj1 (make_job_made_for _ _ _ _ _ _ H)).
Qed.

Lemma rippling_job_made_for (slug fb : string) (x : pyval) (j : Job) :
  rippling_job L slug c fb x = Ok j -> made_for c j.
Proof.
  unfold rippling_job. intros H. peel H.
  exact (proj1 (make_job_made_for _ _ _ _ _ _ H)).
Qed.

Lemma yc_job_made_for (slug : string) (x : pyval) (j : Job) :
  yc_job L slug c x = Ok j -> made_for c j.
Proof.
  unfold yc_job. intros H. peel H.
  exact (proj1 (make_job_made_for _ _ _ _ _ _ H)).
Qed.

Lemma schema_item_made_for (jobs_url : string) (x : pyval) (j : Job) :
  schema_item jobs_url c x = Ok (Some j) -> made_for c j.
Proof.
  unfold schema_item. intros H.
  destruct (Py.get x "@type" PNone) as [ty|]; [|discriminate H].
  cbn [rbind] in H. destruct (Py.eq_str ty "JobPosting"); [|discriminate H].
  peel H. injection H as <-.
  match goal with
  | E : make_job _ _ _ _ _ = Ok _ |- _ =>
      exact (proj1 (make_job_made_for _ _ _ _ _ _ E))
  end.
Qed.

Lemma schema_items_made_for (jobs_url : string) (items : list pyval) :
  forall js, Forall (made_for c) js ->
             Forall (made_for c) (schema_items jobs_url c items js).
Proof.
  induction items as [|x items IH]; intros js Hjs; [exact Hjs|].
  cbn [schema_items].
  destruct (schema_item jobs_url c x) as [[j|]|] eqn:E; [| auto | exact Hjs].
  apply IH, snoc_Forall; [exact Hjs|]. eapply schema_item_made_for, E.
Qed.

Lemma schema_scripts_made_for (jobs_url : string) (scripts : list (option string)) :
  forall js, Forall (made_for c) js ->
             Forall (made_for c) (schema_scripts L jobs_url c scripts js).
Proof.
  induction scripts as [|s scripts IH]; intros js Hjs; [exact Hjs|].
  cbn [schema_scripts]. apply IH.
  destruct (json_loads L (opt_str s)); [|exact Hjs].
  apply schema_items_made_for, Hjs.
Qed.

(** Closes a step of a link loop: the record just built is [made_for c]. *)
Ltac loop_step IH Hjs H :=
  peel H;
  refine (IH _ _ _ _ _ H);
  apply snoc_Forall; [exact Hjs|];
  match goal with
  | E : make_job _ _ _ _ _ = Ok _ |- _ =>
      exact (proj1 (make_job_made_for _ _ _ _ _ _ E))
  end.

Lemma embedded_jid_links_made_for (jobs_url : string) (l : list Anchor) :
  forall js seen js' seen',
    Forall (made_for c) js ->
    embedded_jid_links L jobs_url c l js seen = Ok (js', seen') ->
    Forall (made_for c) js'.
Proof.
  induction l as [|a l IH]; intros js seen js' seen' Hjs H.
  - cbn in H. injection H as <- <-. exact Hjs.
  - cbn [embedded_jid_links] in H.
    destruct (negb _); [eauto|]. destruct (_ || _); [eauto|].
    loop_step IH Hjs H.
Qed.

Lemma embedded_board_links_made_for (jobs_url : string) (slug : option string)
    (l : list Anchor) :
  forall js seen js' seen',
    Forall (made_for c) js ->
    embedded_board_links L jobs_url c slug l js seen = Ok (js', seen') ->
    Forall (made_for c) js'.
Proof.
  induction l as [|a l IH]; intros js seen js' seen' Hjs H.
  - cbn in H. injection H as <- <-. exact Hjs.
  - cbn [embedded_board_links] in H.
    destruct (urljoin L jobs_url (a_href a)); [|discriminate H].
    cbn [rbind] in H.
    destruct (_ && _); [eauto|]. destruct (negb _); [eauto|].
    destruct (_ || _); [eauto|].
    loop_step IH Hjs H.
Qed.

Lemma class_heuristic_made_for (jobs_url : string) (l : list Container) :
  forall js seen js' seen',
    Forall (made_for c) js ->
    class_heuristic L jobs_url c l js seen = Ok (js', seen') ->
    Forall (made_for c) js'.
Proof.
  induction l as [|ct l IH]; intros js seen js' seen' Hjs H.
  - cbn in H. injection H as <- <-. exact Hjs.
  - cbn [class_heuristic] in H.
    destruct (c_anchor ct) as [a|]; [|eauto].
    destruct (_ || _); [eauto|].
    loop_step IH Hjs H.
Qed.

Lemma link_scan_made_for (jobs_url : string) (l : list Anchor) :
  forall js seen js' seen',
    Forall (made_for c) js ->
    link_scan L jobs_url c l js seen = Ok (js', seen') ->
    Forall (made_for c) js'.
Proof.
  induction l as [|a l IH]; intros js seen js' seen' Hjs H.
  - cbn in H. injection H as <- <-. exact Hjs.
  - cbn [link_scan] in H.
    destruct (_ && _); [|eauto].
    destruct (urljoin L jobs_url (a_href a)); [|discriminate H].
    cbn [rbind] in H.
    destruct (negb _); [|eauto].
    loop_step IH Hjs H.
Qed.

Lemma yc_links_made_for (slug : string) (l : list Anchor) :
  forall js seen js' seen',
    Forall (made_for c) js ->
    yc_links L slug c l js seen = Ok (js', seen') ->
    Forall (made_for c) js'.
Proof.
  induction l as [|a l IH]; intros js seen js' seen' Hjs H.
  - cbn in H. injection H as <- <-. exact Hjs.
  - cbn [yc_links] in H.
    destruct (negb _); [eauto|]. destruct (_ || _); [eauto|].
    loop_step IH Hjs H.
Qed.

Lemma returns_some_made_for (m : M (list Job)) :
  returns (Forall (made_for c)) m ->
  returns (some_made_for c)
    (try_except
       (bind m (fun js => if nonempty_list js then ret (Some js) else ret None))
       (fun _ => ret None)).
Proof.
  intros Hm. apply returns_try.
  - eapply returns_bind; [exact Hm|]. intros js Hjs.
    destruct (nonempty_list js); apply returns_ret; intros x Hx;
      [injection Hx as <-; exact Hjs | discriminate Hx].
  - intros e. apply returns_ret. intros x Hx. discriminate Hx.
Qed.

Lemma scrape_ashby_embedded_made_for (jobs_url : string) :
  returns (Forall (made_for c)) (scrape_ashby_embedded W L jobs_url c).
Proof.
  unfold scrape_ashby_embedded.
  eapply returns_bind; [apply returns_any|]. intros html _.
  destruct (negb (html_ok html)); [apply returns_ret; constructor|].
  eapply returns_bind; [apply returns_any|]. intros soup _.
  eapply (returns_bind (fun p => Forall (made_for c) (fst p))).
  { apply returns_lift. intros [js seen] H.
    eapply embedded_jid_links_made_for; [constructor | exact H]. }
  intros [js seen] Hjs. cbn in Hjs.
  destruct (negb (nonempty_list js)); [|apply returns_ret, Hjs].
  eapply (returns_bind (fun p => Forall (made_for c) (fst p))).
  { apply returns_lift. intros [js2 seen2] H.
    eapply embedded_board_links_made_for; [exact Hjs | exact H]. }
  intros p Hp. apply returns_ret, Hp.
Qed.

Lemma scrape_generic_made_for (jobs_url : string) :
  returns (Forall (made_for c)) (scrape_generic W L jobs_url c).
Proof.
  unfold scrape_generic.
  destruct (negb (PyStr.nonempty jobs_url)); [apply returns_ret; constructor|].
  eapply returns_bind; [apply returns_any|]. intros html _.
  destruct (negb (html_ok html)); [apply returns_ret; constructor|].
  destruct (PyStr.contains _ _); [apply scrape_ashby_embedded_made_for|].
  eapply returns_bind; [apply returns_any|]. intros soup _.
  assert (Hs : Forall (made_for c)
                 (schema_scripts L jobs_url c (ld_json_scripts soup) []))
    by (apply schema_scripts_made_for; constructor).
  destruct (nonempty_list _); [apply returns_ret, Hs|].
  eapply (returns_bind (fun p => Forall (made_for c) (fst p))).
  { apply returns_lift. intros [js seen] H.
    eapply class_heuristic_made_for; [exact Hs | exact H]. }
  intros [js1 seen] Hjs. cbn in Hjs.
  destruct (nonempty_list js1); [apply returns_ret, Hjs|].
  eapply (returns_bind (fun p => Forall (made_for c) (fst p))).
  { apply returns_lift. intros [js2 seen2] H.
    eapply link_scan_made_for; [exact Hjs | exact H]. }
  intros p Hp. apply returns_ret. apply Forall_take, Hp.
Qed.

Lemma scrape_greenhouse_made_for (slug fb : string) :
  returns (Forall (made_for c)) (scrape_greenhouse W L slug c fb).
Proof.
  unfold scrape_greenhouse. apply returns_try;
    [|intros; apply scrape_generic_made_for].
  repeat (eapply returns_bind; [apply returns_any|]; intros ? _).
  apply returns_lift. intros js H.
  eapply mapM_Forall; [|exact H]. intros x j. apply greenhouse_job_made_for.
Qed.

Lemma scrape_lever_made_for (slug fb : string) :
  returns (Forall (made_for c)) (scrape_lever W L slug c fb).
Proof.
  unfold scrape_lever. apply returns_try;
    [|intros; apply scrape_generic_made_for].
  repeat (eapply returns_bind; [apply returns_any|]; intros ? _).
  destruct (negb _); [apply returns_lift; discriminate|].
  eapply returns_bind; [apply returns_any|]. intros items _.
  apply returns_lift. intros js H.
  eapply mapM_Forall; [|exact H]. intros x j. apply lever_job_made_for.
Qed.

Lemma scrape_workable_made_for (slug fb : string) :
  returns (Forall (made_for c)) (scrape_workable W L slug c fb).
Proof.
  unfold scrape_workable. apply returns_try;
    [|intros; apply scrape_generic_made_for].
  repeat (eapply returns_bind; [apply returns_any|]; intros ? _).
  apply returns_lift. intros js H.
  eapply mapM_Forall; [|exact H]. intros x j. apply workable_job_made_for.
Qed.

Lemma ashby_attempt_made_for (try_slug fb : string) :
  returns (Forall (made_for c)) (ashby_attempt W try_slug c fb).
Proof.
  unfold ashby_attempt.
  repeat (eapply returns_bind; [apply returns_any|]; intros ? _).
  apply returns_lift. intros js H.
  eapply mapM_Forall; [|exact H]. intros x j. apply ashby_job_made_for.
Qed.

Lemma ashby_loop_made_for (variants : list string) (fb : string) :
  returns (Forall (made_for c)) (ashby_loop W L variants c fb).
Proof.
  induction variants as [|v rest IH]; [apply scrape_ashby_embedded_made_for|].
  cbn [ashby_loop]. eapply returns_bind.
  - apply returns_some_made_for, ashby_attempt_made_for.
  - intros [js|] Hjs; [apply returns_ret, Hjs; reflexivity | exact IH].
Qed.

Lemma scrape_rippling_made_for (slug fb : string) :
  returns (Forall (made_for c)) (scrape_rippling W L slug c fb).
Proof.
  unfold scrape_rippling. eapply (returns_bind (some_made_for c)).
  - apply returns_try;
      [|intros e; apply returns_ret; intros x Hx; discriminate Hx].
    do 4 (eapply returns_bind; [apply returns_any|]; intros ? _).
    eapply (returns_bind (Forall (made_for c))).
    { apply returns_lift. intros js H.
      eapply mapM_Forall; [|exact H]. intros x j. apply rippling_job_made_for. }
    intros js Hjs. destruct (nonempty_list js); apply returns_ret; intros x Hx;
      [injection Hx as <-; exact Hjs | discriminate Hx].
  - intros [js|] Hjs;
      [apply returns_ret, Hjs; reflexivity | apply scrape_generic_made_for].
Qed.

Lemma scrape_yc_made_for (slug fb : string) :
  returns (Forall (made_for c)) (scrape_yc W L slug c fb).
Proof.
  unfold scrape_yc. eapply (returns_bind (some_made_for c)).
  - apply returns_try;
      [|intros e; apply returns_ret; intros x Hx; discriminate Hx].
    do 3 (eapply returns_bind; [apply returns_any|]; intros ? _).
    eapply (returns_bind (Forall (made_for c))).
    { apply returns_lift. intros js H.
      eapply mapM_Forall; [|exact H]. intros x j. apply yc_job_made_for. }
    intros js Hjs. destruct (nonempty_list js); apply returns_ret; intros x Hx;
      [injection Hx as <-; exact Hjs | discriminate Hx].
  - intros [js|] Hjs; [apply returns_ret, Hjs; reflexivity|].
    apply returns_try; [|intros e; apply returns_ret; constructor].
    eapply returns_bind; [apply returns_any|]. intros html _.
    destruct (negb (html_ok html)); [apply returns_ret; constructor|].
    eapply returns_bind; [apply returns_any|]. intros soup _.
    eapply (returns_bind (fun p => Forall (made_for c) (fst p))).
    { apply returns_lift. intros [js seen] H.
      eapply yc_links_made_for; [constructor | exact H]. }
    intros p Hp. apply returns_ret, Hp.
Qed.

End Records.

Section Stamping.

Variable W : World.
Variable L : Lib.

Lemma route_to_scraper_made_for (ats : string) (slug : option string)
    (nm jobs_url : string) :
  returns (Forall (made_for nm)) (route_to_scraper W L ats slug nm jobs_url).
Proof.
  unfold route_to_scraper.
  repeat match goal with
  | |- returns _ (if ?b then _ else _) => destruct b
  end;
  first [ apply scrape_greenhouse_made_for
        | apply scrape_lever_made_for
        | apply ashby_loop_made_for
        | apply scrape_ashby_embedded_made_for
        | apply scrape_workable_made_for
        | apply scrape_yc_made_for
        | apply scrape_rippling_made_for
        | apply scrape_generic_made_for ].
Qed.

Lemma stamp_made_for (nm site : string) (js : list Job) :
  Forall (made_for nm) js ->
  Forall (stamped_for nm site) (map (set_company_website site) js).
Proof.
  intros H. apply Forall_map. eapply Forall_impl; [exact H|].
  intros j (Hc & _ & Ht & Hd & Hl). unfold stamped_for. cbn. auto.
Qed.

Lemma auto_detection_stamped (nm site : string) :
  returns (fun out => Forall (stamped_for nm site) (fst out))
    (auto_detection W L nm site).
Proof.
  unfold auto_detection.
  destruct (negb (PyStr.nonempty site)); [apply returns_ret; constructor|].
  eapply returns_bind; [apply returns_any|].
  intros [[[jobs_url ats] slug] html] _.
  destruct (_ && _).
  { eapply returns_bind; [apply route_to_scraper_made_for|].
    intros js Hjs. apply returns_ret. cbn. apply stamp_made_for, Hjs. }
  destruct (opt_truthy jobs_url); [|apply returns_ret; constructor].
  eapply returns_bind; [apply scrape_generic_made_for|].
  intros js Hjs. apply returns_ret. cbn. apply stamp_made_for, Hjs.
Qed.

Lemma scrape_company_stamped (c : CompanyTarget) :
  returns
    (fun out =>
       Forall (stamped_for (name c) (PyStr.rstrip_slash (opt_str (website c))))
         (fst out))
    (scrape_company W L c).
Proof.
  unfold scrape_company.
  destruct (KNOWN_ATS !! _) as [[[ats slug] jobs_url]|];
    [|apply auto_detection_stamped].
  eapply returns_bind; [apply route_to_scraper_made_for|].
  intros js Hjs. destruct (nonempty_list js);
    [|apply auto_detection_stamped].
  apply returns_ret. cbn. apply stamp_made_for, Hjs.
Qed.

(** The state of the run loop after some companies: what was there
    before, followed by jobs and failure entries that all carry the name
    of one of the companies processed, at most one failure entry per
    company. *)
Lemma main_loop_accounts (companies : list CompanyTarget) :
  forall all_jobs failed tr tr' all_jobs' failed',
    main_loop W L companies all_jobs failed tr = (tr', Ok (all_jobs', failed')) ->
    exists new_jobs new_failed,
      all_jobs' = all_jobs ++ new_jobs
      /\ failed' = failed ++ new_failed
      /\ Forall (fun j => company j ∈ map name companies) new_jobs
      /\ Forall (fun e => fst e ∈ map name companies) new_failed
      /\ List.length new_failed <= List.length companies.
Proof.
  induction companies as [|c rest IH];
    intros all_jobs failed tr tr' all_jobs' failed' H.
  - cbn in H. injection H as <- <- <-; exists [], [].
    rewrite !app_nil_r. repeat split; constructor.
  - cbn [main_loop] in H. apply bind_ok in H as (tr1 & [aj1 f1] & Hstep & H).
    cbn [fst snd] in H.
    apply IH in H as (nj & nf & -> & -> & Hnj & Hnf & Hlen).
    assert (Hone : exists js fs,
               aj1 = all_jobs ++ js /\ f1 = failed ++ fs
               /\ Forall (fun j => company j = name c) js
               /\ Forall (fun e => fst e = name c) fs
               /\ List.length fs <= 1).
    { unfold try_except in Hstep.
      destruct (bind (scrape_company W L c) _ tr) as [tr2 [st|e]] eqn:E.
      - injection Hstep as <- ->.
        apply bind_ok in E as (tr3 & [js err] & Hc & E).
        pose proof (scrape_company_stamped c _ _ _ Hc) as Hst. cbn in Hst.
        assert (Hjs : Forall (fun j => company j = name c) js)
          by (eapply Forall_impl; [exact Hst | intros j Hj; apply Hj]).
        destruct (opt_truthy err); apply ret_ok in E as [_ E];
          injection E as -> ->.
        + exists js, [(name c, Reported (opt_str err))].
          repeat split; auto; try (cbn; lia).
        + exists js, []. rewrite app_nil_r. repeat split; auto; try (cbn; lia).
      - apply ret_ok in Hstep as [_ Hstep]. injection Hstep as -> ->.
        exists [], [(name c, Caught e)]. rewrite app_nil_r.
        repeat split; auto; try (cbn; lia). }
    destruct Hone as (js & fs & -> & -> & Hjs & Hfs & Hl1).
    exists (js ++ nj), (fs ++ nf). rewrite <- !app_assoc.
    split; [reflexivity|]. split; [reflexivity|].
    split; [|split].
    + apply Forall_app. split.
      * eapply Forall_impl; [exact Hjs|]. intros j ->. cbn. left.
      * eapply Forall_impl; [exact Hnj|]. intros j Hj. cbn. right. exact Hj.
    + apply Forall_app. split.
      * eapply Forall_impl; [exact Hfs|]. intros e ->. cbn. left.
      * eapply Forall_impl; [exact Hnf|]. intros e He. cbn. right. exact He.
    + rewrite length_app. cbn. lia.
Qed.

End Stamping.

Lemma size_list_to_set_le (l : list string) :
  size (list_to_set l : gset string) <= List.length l.
Proof.
  induction l as [|x l IH]; [rewrite list_to_set_nil, size_empty; cbn; lia|].
  rewrite list_to_set_cons, size_union_alt, size_singleton. cbn.
  assert (size (list_to_set l ∖ {[x]} : gset string)
          <= size (list_to_set l : gset string))
    by (apply subseteq_size; intros y Hy;
        apply elem_of_difference in Hy as [Hy _]; exact Hy).
  lia.
Qed.

(** X4.  Every record [scrape_company] returns belongs to the company it
    was called for: its [company] is the company's name, its
    [company_website] is the company's website without trailing slashes,
    and its title, department and location have nothing left to strip.
    This holds whichever adapter produced the record. *)
Theorem scrape_company_records_stamped (W : World) (L : Lib)
    (c : CompanyTarget) (tr tr' : trace) (found_jobs : list Job)
    (error : option string) :
  scrape_company W L c tr = (tr', Ok (found_jobs, error)) ->
  Forall (stamped_for (name c) (PyStr.rstrip_slash (opt_str (website c))))
    found_jobs.
Proof. intros H. exact (scrape_company_stamped W L c _ _ _ H). Qed.

(** X4 on Faire's board. *)
Lemma scrape_company_records_stamped_witness :
  Forall (stamped_for "Faire" "https://faire.com")
    [ job "Software Engineer" "Engineering" "San Francisco"
        (PStr "https://boards.greenhouse.io/faire/jobs/1")
        "Faire" "https://faire.com";
      job "Account Executive" "Sales" "New York"
        (PStr "https://boards.greenhouse.io/faire/jobs/2")
        "Faire" "https://faire.com" ].
Proof.
  apply (scrape_company_records_stamped world_faire lib faire []
           [EvGet faire_api] _ None).
  vm_compute. reflexivity.
Defined.

(** X5.  The report of a run is consistent: [main] does not raise while
    scraping, [total_jobs] counts the jobs listed, every job and every
    failure entry carries the name of a company of the run, and neither
    the number of companies with jobs nor the number of failure entries
    exceeds the number of companies. *)
Theorem main_report_consistent (W : World) (L : Lib)
    (companies : list CompanyTarget) (tr : trace) :
  exists tr' r,
    main_report W L companies tr = (tr', Ok r)
    /\ total_jobs r = List.length (jobs r)
    /\ total_companies r = List.length companies
    /\ Forall (fun j => company j ∈ map name companies) (jobs r)
    /\ Forall (fun e => fst e ∈ map name companies) (failed_companies r)
    /\ companies_with_jobs r <= total_companies r
    /\ List.length (failed_companies r) <= total_companies r.
Proof.
  unfold main_report, bind.
  destruct (main_loop_total W L companies [] [] tr) as (tr' & [aj f] & E).
  rewrite E. unfold ret. eexists _, _. split; [reflexivity|]. cbn.
  apply main_loop_accounts in E as (nj & nf & -> & -> & Hnj & Hnf & Hlen).
  cbn. split; [reflexivity|]. split; [reflexivity|].
  split; [exact Hnj|]. split; [exact Hnf|]. split; [|exact Hlen].
  etransitivity; [|etransitivity; [apply (size_list_to_set_le (map name companies))|]].
  - apply subseteq_size. intros x Hx.
    apply elem_of_list_to_set in Hx. apply elem_of_list_to_set.
    apply list_elem_of_fmap in Hx as (j & -> & Hj).
    rewrite Forall_forall in Hnj. apply Hnj, Hj.
  - rewrite length_map. reflexivity.
Qed.

(** ** The classifiers *)

Lemma contains_here (needle hay : string) :
  PyStr.startswith hay needle = true -> PyStr.contains needle hay = true.
Proof. intros H. destruct hay; cbn [PyStr.contains]; rewrite H; reflexivity. Qed.

Lemma contains_later (needle : string) (c : ascii) (hay : string) :
  PyStr.contains needle hay = true ->
  PyStr.contains needle (String c hay) = true.
Proof. intros H. cbn [PyStr.contains]. rewrite H. apply orb_true_r. Qed.

Lemma strip_prefix_app (p r : string) : PyStr.strip_prefix p (p +:+ r) = Some r.
Proof.
  induction p as [|a p IH]; [reflexivity|].
  rewrite append_cons. cbn [PyStr.strip_prefix]. now rewrite Ascii.eqb_refl.
Qed.

Lemma strip_prefix_spec (p s r : string) :
  PyStr.strip_prefix p s = Some r -> s = p +:+ r.
Proof.
  revert s. induction p as [|a p IH]; intros s H.
  - cbn in H. injection H as ->. reflexivity.
  - destruct s as [|b s]; [discriminate H|]. cbn [PyStr.strip_prefix] in H.
    destruct (Ascii.eqb a b) eqn:E; [|discriminate H].
    apply Ascii.eqb_eq in E. subst b. rewrite append_cons. f_equal. auto.
Qed.

Lemma append_assoc (a b c : string) : (a +:+ b) +:+ c = a +:+ (b +:+ c).
Proof.
  induction a as [|x a IH]; [reflexivity|].
  rewrite !append_cons. f_equal. exact IH.
Qed.

(** A greedy run: characters of the class, as many as there are. *)
Lemma take_while_spec (cls : ascii -> bool) (s : string) :
  exists rest, s = Re.take_while cls s +:+ rest
               /\ all_chars cls (Re.take_while cls s) = true.
Proof.
  induction s as [|c s (rest & Hs & Hall)]; [exists ""; split; reflexivity|].
  cbn [Re.take_while]. destruct (cls c) eqn:E.
  - exists rest. rewrite append_cons. split; [f_equal; exact Hs|].
    cbn [all_chars]. now rewrite E, Hall.
  - exists (String c s). split; reflexivity.
Qed.

Lemma contains_app (needle pre t : string) :
  PyStr.contains needle t = true -> PyStr.contains needle (pre +:+ t) = true.
Proof.
  intros H. induction pre as [|c pre IH]; [exact H|].
  rewrite append_cons. apply contains_later, IH.
Qed.

(** A leftmost match is a match at some position of the subject. *)
Lemma leftmost_sound (here : string -> option string) (s g : string) :
  Re.leftmost here s = Some g ->
  exists pre t, s = pre +:+ t /\ here t = Some g.
Proof.
  induction s as [|c s IH]; cbn [Re.leftmost].
  - destruct (here "") eqn:E; [|discriminate].
    intros H. injection H as ->. exists "", "". split; [reflexivity | exact E].
  - destruct (here (String c s)) eqn:E.
    + intros H. injection H as ->. exists "", (String c s).
      split; [reflexivity | exact E].
    + intros H. destruct (IH H) as (pre & t & -> & Ht).
      exists (String c pre), t. split; [reflexivity | exact Ht].
Qed.

(** What [re.search] finds is there: the literal followed by the group
    occurs in the subject, and the group is a non-empty run of the class. *)
Lemma search_lit_plus_sound (lit : string) (cls : ascii -> bool) (s g : string) :
  Re.search_lit_plus lit cls s = Some g ->
  g <> "" /\ all_chars cls g = true /\ PyStr.contains (lit +:+ g) s = true.
Proof.
  unfold Re.search_lit_plus. intros H.
  apply leftmost_sound in H as (pre & t & -> & H).
  destruct (PyStr.strip_prefix lit t) as [rest|] eqn:Ep; [|discriminate H].
  destruct (PyStr.is_empty (Re.take_while cls rest)) eqn:Ee; [discriminate H|].
  injection H as <-.
  destruct (take_while_spec cls rest) as (rest' & Hr & Hall).
  split; [intros E0; rewrite E0 in Ee; discriminate Ee|].
  split; [exact Hall|].
  apply contains_app, contains_here. unfold PyStr.startswith.
  apply strip_prefix_spec in Ep. subst t.
  set (g := Re.take_while cls rest) in *. clearbody g. subst rest.
  rewrite <- append_assoc, strip_prefix_app. reflexivity.
Qed.

Lemma first_check_sound (checks : list (string * string)) (u ats slug : string) :
  first_check checks u = (Some ats, Some slug) ->
  slug <> "" /\ all_chars Re.slug_char slug = true
  /\ exists lit, In (lit, ats) checks /\ PyStr.contains (lit +:+ slug) u = true.
Proof.
  induction checks as [|[lit a] checks IH]; [discriminate|].
  cbn [first_check]. destruct (Re.search_slug lit u) as [g|] eqn:E.
  - intros H. injection H as <- <-.
    apply search_lit_plus_sound in E as (Hne & Hall & Hc).
    repeat split; auto. exists lit. split; [left; reflexivity | exact Hc].
  - intros H. destruct (IH H) as (Hne & Hall & lit' & Hin & Hc).
    repeat split; auto. exists lit'. split; [right; exact Hin | exact Hc].
Qed.

Lemma first_check_shape (checks : list (string * string)) (u : string) :
  first_check checks u = (None, None)
  \/ exists ats slug, first_check checks u = (Some ats, Some slug)
                      /\ In ats (map snd checks).
Proof.
  induction checks as [|[lit a] checks IH]; [left; reflexivity|].
  cbn [first_check]. destruct (Re.search_slug lit u) as [g|].
  - right. exists a, g. split; [reflexivity | left; reflexivity].
  - destruct IH as [IH|(ats & slug & IH & Hin)]; [left; exact IH|].
    right. exists ats, slug. split; [exact IH | right; exact Hin].
Qed.

(** X6.  [detect_ats_from_url] answers either the unknown pair or a kind
    with a slug, and what it answers is in the URL: the slug is a
    non-empty run of the characters [a-zA-Z0-9_-], and the URL contains
    the host-and-path prefix of one of the patterns of that kind followed
    by the slug. *)
Theorem detect_ats_from_url_sound (u : string) :
  detect_ats_from_url u = (None, None)
  \/ exists ats slug lit,
       detect_ats_from_url u = (Some ats, Some slug)
       /\ slug <> "" /\ all_chars Re.slug_char slug = true
       /\ In (lit, ats) url_checks
       /\ PyStr.contains (lit +:+ slug) u = true.
Proof.
  unfold detect_ats_from_url. destruct (PyStr.is_empty u); [left; reflexivity|].
  destruct (first_check_shape url_checks u) as [H|(ats & slug & H & _)];
    [left; exact H|].
  right. destruct (first_check_sound _ _ _ _ H) as (Hne & Hall & lit & Hin & Hc).
  exists ats, slug, lit. auto.
Qed.

(** The kinds of the two classifiers. *)
Lemma detect_ats_from_url_kinds (u : string) (ats : option string)
    (slug : option string) :
  detect_ats_from_url u = (ats, slug) ->
  (ats = None /\ slug = None)
  \/ exists a s, ats = Some a /\ slug = Some s /\ In a detectable
                 /\ a <> "ashby_embedded" /\ s <> "".
Proof.
  unfold detect_ats_from_url. destruct (PyStr.is_empty u).
  { intros H. injection H as <- <-. left. auto. }
  destruct (first_check_shape url_checks u) as [E|(a & s & E & Hin)];
    rewrite E; intros H; injection H as <- <-; [left; auto|].
  right. exists a, s. destruct (first_check_sound _ _ _ _ E) as (Hne & _ & _).
  repeat split; auto.
  - cbn in Hin. unfold detectable. cbn.
    repeat (destruct Hin as [Hin|Hin]; [subst a; tauto|]).
    destruct Hin.
  - cbn in Hin.
    repeat (destruct Hin as [Hin|Hin]; [subst a; discriminate|]).
    destruct Hin.
Qed.

Lemma detect_ats_from_html_kinds (html page_url : string)
    (ats slug : option string) :
  detect_ats_from_html html page_url = (ats, slug) ->
  (ats = None /\ slug = None)
  \/ (ats = Some "ashby_embedded" /\ slug = Some page_url)
  \/ exists a s, ats = Some a /\ slug = Some s /\ In a detectable
                 /\ a <> "ashby_embedded" /\ s <> "".
Proof.
  unfold detect_ats_from_html, Re.search_slug.
  repeat match goal with
  | |- context [if ?b then _ else _] => destruct b
  end;
  repeat match goal with
  | |- context [or_else ?x ?y] =>
      let E := fresh "E" in destruct x eqn:E; cbn [or_else]
  end;
  repeat match goal with
  | |- context [match Re.search_lit_plus ?l ?c ?s with _ => _ end] =>
      let E := fresh "E" in destruct (Re.search_lit_plus l c s) eqn:E
  end;
  intros H; injection H as <- <-; auto;
  right; right; eexists _, _; (split; [reflexivity|]); (split; [reflexivity|]);
  (split; [unfold detectable; cbn; tauto|]); (split; [discriminate|]);
  match goal with
  | E : Re.search_lit_plus _ _ _ = Some ?s |- ?s <> "" =>
      exact (proj1 (search_lit_plus_sound _ _ _ _ E))
  end.
Qed.

(** X7.  [detect_ats_from_html] respects the priority of the signatures.
    With the embedded-widget marker in the page the answer is [ashby] or
    [ashby_embedded], whatever else the page links to; without the
    marker the answer is the kind of the first hosted signature present,
    with a slug, or the unknown pair, never the kind of a later
    signature; and with no signature at all the answer is the unknown
    pair. *)
Theorem detect_ats_from_html_priority (html page_url : string) :
  (PyStr.contains "ashby_jid=" html = true ->
   exists slug,
     detect_ats_from_html html page_url = (Some "ashby", Some slug)
     \/ detect_ats_from_html html page_url
        = (Some "ashby_embedded", Some page_url))
  /\ (PyStr.contains "ashby_jid=" html = false ->
      forall markers lits kind,
        first_signature html = Some (markers, lits, kind) ->
        detect_ats_from_html html page_url = (None, None)
        \/ exists slug,
             detect_ats_from_html html page_url = (Some kind, Some slug))
  /\ (PyStr.contains "ashby_jid=" html = false ->
      first_signature html = None ->
      detect_ats_from_html html page_url = (None, None)).
Proof.
  split; [|split].
  - intros Hjid. unfold detect_ats_from_html.
    destruct html as [|ch html']; [discriminate Hjid|].
    cbn [PyStr.is_empty]. rewrite Hjid.
    destruct (Re.search_slug _ _) as [g|]; [exists g | exists ""]; auto.
  - intros Hjid markers lits kind Hfirst.
    unfold detect_ats_from_html.
    destruct (PyStr.is_empty html); [left; reflexivity|]. rewrite Hjid.
    unfold first_signature, hosted_signatures, signature_present in Hfirst.
    cbn [List.find existsb fst snd] in Hfirst.
    repeat match type of Hfirst with
    | context [PyStr.contains ?m html] =>
        let E := fresh "E" in
        destruct (PyStr.contains m html) eqn:E; cbn [orb] in Hfirst
    end;
    try discriminate Hfirst; injection Hfirst as <- <- <-; cbn [orb];
    repeat match goal with
    | |- context [match ?o with Some _ => _ | None => _ end] => destruct o
    end;
    first [left; reflexivity | right; eexists; reflexivity].
  - intros Hjid Hfirst. unfold detect_ats_from_html.
    destruct (PyStr.is_empty html); [reflexivity|]. rewrite Hjid.
    unfold first_signature, hosted_signatures, signature_present in Hfirst.
    cbn [List.find existsb fst snd] in Hfirst.
    repeat match type of Hfirst with
    | context [PyStr.contains ?m html] =>
        let E := fresh "E" in
        destruct (PyStr.contains m html) eqn:E; cbn [orb] in Hfirst
    end;
    try discriminate Hfirst; reflexivity.
Qed.

(** X7 on a page that links to a Lever board and embeds an Ashby widget,
    and on a page that links to Greenhouse and to Lever. *)
Lemma detect_ats_from_html_priority_witness :
  (exists slug,
     detect_ats_from_html
       "<a href='https://jobs.lever.co/acme'>Jobs</a><a href='?ashby_jid=1'>Apply</a>"
       "https://acme.test" = (Some "ashby", Some slug)
     \/ detect_ats_from_html
          "<a href='https://jobs.lever.co/acme'>Jobs</a><a href='?ashby_jid=1'>Apply</a>"
          "https://acme.test" = (Some "ashby_embedded", Some "https://acme.test"))
  /\ (detect_ats_from_html
        "https://jobs.lever.co/acme https://boards.greenhouse.io/acme"
        "https://acme.test" = (None, None)
      \/ exists slug,
           detect_ats_from_html
             "https://jobs.lever.co/acme https://boards.greenhouse.io/acme"
             "https://acme.test" = (Some "greenhouse", Some slug))
  /\ detect_ats_from_html "<p>No openings.</p>" "https://acme.test" = (None, None).
Proof.
  split; [|split].
  - apply (proj1 (detect_ats_from_html_priority _ "https://acme.test")).
    reflexivity.
  - apply (proj1 (proj2 (detect_ats_from_html_priority
             "https://jobs.lever.co/acme https://boards.greenhouse.io/acme"
             "https://acme.test"))
             eq_refl ["greenhouse.io"; "grnh.se"]
             ["boards.greenhouse.io/"; "job-boards.greenhouse.io/";
              "greenhouse.io/embed/job_board?for="]
             "greenhouse");
      reflexivity.
  - apply (proj2 (proj2 (detect_ats_from_html_priority
             "<p>No openings.</p>" "https://acme.test"))); reflexivity.
Defined.

(** ** The page fetcher and the jobs-page locator *)

(** X8.  [fetch_html] never raises and makes one or two calls.  Without
    rendering it makes one GET and returns the body exactly when the
    answer has status 200; a failed request or another status gives
    [None].  With rendering, a page the browser delivers is returned
    without any GET; when the browser fails, the plain GET follows. *)
Theorem fetch_html_outcome (W : World) (u : string) (b : bool) (tr : trace) :
  (b && HAS_PLAYWRIGHT W = false ->
   fetch_html W u b tr
   = (tr ++ [EvGet u], Ok (body_of (requests_get W (List.length tr) u))))
  /\ (b && HAS_PLAYWRIGHT W = true ->
      forall h, page_content W (List.length tr) u = Some h ->
      fetch_html W u b tr = (tr ++ [EvBrowser u], Ok (Some h)))
  /\ (b && HAS_PLAYWRIGHT W = true ->
      page_content W (List.length tr) u = None ->
      fetch_html W u b tr
      = (tr ++ [EvBrowser u; EvGet u],
         Ok (body_of (requests_get W (S (List.length tr)) u)))).
Proof.
  unfold fetch_html, bind, try_except, browse, http_get, ret, body_of.
  split; [|split].
  - intros ->. destruct (requests_get W _ u) as [r|]; cbn; [|reflexivity].
    destruct (r_status_code r =? 200)%Z; reflexivity.
  - intros -> h ->. reflexivity.
  - intros -> ->. cbn [of_option]. rewrite length_app, Nat.add_1_r.
    rewrite <- app_assoc. cbn [app].
    destruct (requests_get W _ u) as [r|]; cbn; [|reflexivity].
    destruct (r_status_code r =? 200)%Z; reflexivity.
Qed.

(** X8 in a world without browser, on a page that answers and on one
    that does not, and in a world whose browser delivers every page. *)
Lemma fetch_html_outcome_witness :
  fetch_html (world_careers page_schema) "https://acme.test/careers" true []
  = ([EvGet "https://acme.test/careers"], Ok (Some page_schema))
  /\ fetch_html (world_careers page_schema) "https://acme.test/jobs" true []
     = ([EvGet "https://acme.test/jobs"], Ok None)
  /\ fetch_html
       {| HAS_PLAYWRIGHT := true;
          page_content := fun _ _ => Some page_schema;
          requests_get := fun _ _ => None;
          requests_post := fun _ _ => None |}
       "https://acme.test/careers" true []
     = ([EvBrowser "https://acme.test/careers"], Ok (Some page_schema)).
Proof.
  split; [|split].
  - apply (proj1 (fetch_html_outcome (world_careers page_schema)
                    "https://acme.test/careers" true [])).
    reflexivity.
  - apply (proj1 (fetch_html_outcome (world_careers page_schema)
                    "https://acme.test/jobs" true [])).
    reflexivity.
  - apply (proj1 (proj2 (fetch_html_outcome
                    {| HAS_PLAYWRIGHT := true;
                       page_content := fun _ _ => Some page_schema;
                       requests_get := fun _ _ => None;
                       requests_post := fun _ _ => None |}
                    "https://acme.test/careers" true []))).
    + reflexivity.
    + reflexivity.
Defined.

Lemma well_formed_not_found : well_formed_found not_found.
Proof. unfold well_formed_found, not_found. repeat split; auto; discriminate. Qed.

Lemma well_formed_some (x a s : string) (html : option string) :
  In a detectable -> well_formed_found (Some x, Some a, Some s, html).
Proof.
  intros Hin. unfold well_formed_found. split; [discriminate|].
  split; [discriminate|]. intros a' E. injection E as <-. eauto.
Qed.

Lemma well_formed_unknown (x : string) (html : option string) :
  well_formed_found (Some x, None, None, html).
Proof.
  unfold well_formed_found. split; [discriminate|]. split; [reflexivity|].
  discriminate.
Qed.

Lemma well_formed_from_url (u x : string) (ats slug html : option string) :
  detect_ats_from_url u = (ats, slug) ->
  well_formed_found (Some x, ats, slug, html).
Proof.
  intros H. apply detect_ats_from_url_kinds in H
    as [[-> ->]|(a & s & -> & -> & Hin & _ & _)];
    [apply well_formed_unknown | apply well_formed_some, Hin].
Qed.

Lemma well_formed_from_html (h u x : string) (ats slug html : option string) :
  detect_ats_from_html h u = (ats, slug) ->
  well_formed_found (Some x, ats, slug, html).
Proof.
  intros H. apply detect_ats_from_html_kinds in H
    as [[-> ->]|[[-> ->]|(a & s & -> & -> & Hin & _ & _)]];
    [apply well_formed_unknown | | apply well_formed_some, Hin].
  apply well_formed_some. unfold detectable. cbn. tauto.
Qed.

Section Locator.

Variable W : World.
Variable L : Lib.

Lemma check_links_well_formed (u : string) (l : list Anchor) :
  returns well_formed_found (check_links W L u l).
Proof.
  induction l as [|a l IH]; [apply returns_ret, well_formed_not_found|].
  cbn [check_links]. destruct (existsb _ _); [|exact IH].
  eapply returns_bind; [apply returns_any|]. intros full_url _.
  destruct (_ || _); [exact IH|].
  destruct (detect_ats_from_url full_url) as [ats slug] eqn:Eu.
  destruct (opt_truthy ats).
  { apply returns_ret. eapply well_formed_from_url, Eu. }
  eapply returns_bind; [apply returns_any|]. intros sub_html _.
  destruct (html_ok sub_html); [|exact IH].
  destruct (detect_ats_from_html _ _) as [ats' slug'] eqn:Eh.
  destruct (opt_truthy ats'); [|exact IH].
  apply returns_ret. eapply well_formed_from_html, Eh.
Qed.

Lemma check_page_well_formed (u html : string) :
  returns well_formed_found (check_page W L u html).
Proof.
  unfold check_page. destruct (detect_ats_from_html html u) as [ats slug] eqn:E.
  destruct (opt_truthy ats).
  { apply returns_ret. eapply well_formed_from_html, E. }
  eapply returns_bind; [apply returns_any|]. intros soup _.
  apply check_links_well_formed.
Qed.

Lemma try_paths_well_formed (base : string) (paths : list string) :
  returns well_formed_found (try_paths W L base paths).
Proof.
  induction paths as [|path rest IH]; [apply returns_ret, well_formed_not_found|].
  cbn [try_paths].
  eapply (returns_bind (fun o => forall f, o = Some f -> well_formed_found f)).
  - apply returns_try; [|intros e; apply returns_ret; discriminate].
    eapply returns_bind; [apply returns_any|]. intros r _.
    destruct (_ && _); [|apply returns_ret; discriminate].
    destruct (detect_ats_from_url (r_url r)) as [ats slug] eqn:Eu.
    destruct (opt_truthy ats).
    { apply returns_ret. intros f E. injection E as <-.
      eapply well_formed_from_url, Eu. }
    eapply returns_bind; [apply check_page_well_formed|]. intros f Hf.
    destruct (opt_truthy (found_ats f)); apply returns_ret; intros f' E;
      injection E as <-; [exact Hf|].
    unfold well_formed_found. repeat split; try discriminate; auto.
  - intros [f|] Hf; [apply returns_ret; auto | exact IH].
Qed.

Lemma find_jobs_page_well_formed (site : string) :
  returns well_formed_found (find_jobs_page W L site).
Proof.
  unfold find_jobs_page.
  eapply returns_bind; [apply returns_any|]. intros html _.
  eapply (returns_bind well_formed_found).
  - destruct (html_ok html);
      [apply check_page_well_formed | apply returns_ret, well_formed_not_found].
  - intros f Hf. destruct (opt_truthy (found_ats f));
      [apply returns_ret, Hf | apply try_paths_well_formed].
Qed.

End Locator.

(** X9.  What [find_jobs_page] answers is well formed: without a URL
    there is no kind, no slug and no page; a kind comes with a slug and a
    URL and is one of greenhouse, lever, ashby, ashby_embedded, workable
    and rippling; in particular auto-detection never answers [yc], which
    only the override table can select. *)
Theorem find_jobs_page_answer (W : World) (L : Lib) (site : string)
    (tr tr' : trace) (u ats slug html : option string) :
  find_jobs_page W L site tr = (tr', Ok (u, ats, slug, html)) ->
  (u = None -> ats = None /\ slug = None /\ html = None)
  /\ (ats = None -> slug = None)
  /\ (forall a, ats = Some a ->
        In a detectable /\ a <> "yc"
        /\ (exists s, slug = Some s) /\ (exists x, u = Some x)).
Proof.
  intros H. pose proof (find_jobs_page_well_formed W L site _ _ _ H) as Hwf.
  cbn in Hwf. destruct Hwf as (H1 & H2 & H3). split; [exact H1|].
  split; [exact H2|]. intros a Ha. destruct (H3 a Ha) as (Hin & Hs & Hu).
  repeat split; auto. intros ->. unfold detectable in Hin. cbn in Hin.
  repeat (destruct Hin as [Hin|Hin]; [discriminate Hin|]). exact Hin.
Qed.

(** X9 on a homepage that links to a Lever board. *)
Lemma find_jobs_page_answer_witness :
  In "lever" detectable /\ "lever" <> "yc"
  /\ (exists s, Some "acme" = Some s)
  /\ (exists x, Some "https://acme.test" = Some x).
Proof.
  refine (proj2 (proj2
    (find_jobs_page_answer
       (world_of [("https://acme.test",
                   html_page "https://acme.test"
                     "<a href='https://jobs.lever.co/acme'>Jobs</a>")])
       lib "https://acme.test/" [] [EvGet "https://acme.test"]
       (Some "https://acme.test") (Some "lever") (Some "acme")
       (Some "<a href='https://jobs.lever.co/acme'>Jobs</a>") _))
    "lever" eq_refl).
  vm_compute. reflexivity.
Defined.

(** X10.  When the homepage answers with status 200 and a page that the
    classifier recognises, [find_jobs_page] makes that one request and
    returns the homepage with the kind and slug found there: no link is
    followed and no conventional path is tried. *)
Theorem find_jobs_page_homepage_classified (W : World) (L : Lib)
    (site : string) (tr : trace) (r : Response) (a : string)
    (slug : option string) :
  requests_get W (List.length tr) (PyStr.rstrip_slash site) = Some r ->
  r_status_code r = 200%Z ->
  PyStr.nonempty (r_text r) = true ->
  detect_ats_from_html (r_text r) (PyStr.rstrip_slash site) = (Some a, slug) ->
  PyStr.nonempty a = true ->
  find_jobs_page W L site tr
  = (tr ++ [EvGet (PyStr.rstrip_slash site)],
     Ok (Some (PyStr.rstrip_slash site), Some a, slug, Some (r_text r))).
Proof.
  intros Hget Hst Htext Hdet Ha.
  unfold find_jobs_page. set (base := PyStr.rstrip_slash site) in *.
  unfold bind at 1. rewrite fetch_html_plain.
  unfold body_of. rewrite Hget, Hst. cbn [Z.eqb Pos.eqb].
  cbn [html_ok opt_str]. rewrite Htext.
  unfold check_page. rewrite Hdet.
  cbn [opt_truthy]. rewrite Ha. unfold bind, ret.
  cbn [found_ats opt_truthy]. rewrite Ha. reflexivity.
Qed.

(** X10 on a homepage that links to a Lever board. *)
Lemma find_jobs_page_homepage_classified_witness :
  find_jobs_page
    (world_of [("https://acme.test",
                html_page "https://acme.test"
                  "<a href='https://jobs.lever.co/acme'>Jobs</a>")])
    lib "https://acme.test/" []
  = ([EvGet "https://acme.test"],
     Ok (Some "https://acme.test", Some "lever", Some "acme",
         Some "<a href='https://jobs.lever.co/acme'>Jobs</a>")).
Proof.
  apply (find_jobs_page_homepage_classified
           (world_of [("https://acme.test",
                       html_page "https://acme.test"
                         "<a href='https://jobs.lever.co/acme'>Jobs</a>")])
           lib "https://acme.test/" []
           (html_page "https://acme.test"
              "<a href='https://jobs.lever.co/acme'>Jobs</a>")
           "lever" (Some "acme")); reflexivity.
Defined.

(** ** The network calls of an adapter *)

(** X11.  Whatever adapter [route_to_scraper] selects, and whether it
    returns or raises, it adds at most five network calls to the trace:
    at most one API request and the pages of the fallback, or the three
    slug variants of Ashby and the embedded page. *)
Theorem route_to_scraper_call_budget (W : World) (L : Lib) (ats : string)
    (slug : option string) (nm jobs_url : string) (tr : trace) :
  exists calls,
    fst (route_to_scraper W L ats slug nm jobs_url tr) = tr ++ calls
    /\ List.length calls <= 5.
Proof. exact (at_most_route_to_scraper W L ats slug nm jobs_url tr). Qed.

(** ** A Greenhouse posting without departments *)

Lemma mapM_raises {A B} (f : A -> result B) (bad : A -> bool) :
  (forall x, bad x = true -> exists e, f x = Raise e) ->
  forall l, existsb bad l = true -> exists e, mapM f l = Raise e.
Proof.
  intros Hbad. induction l as [|x l IH]; [discriminate|].
  cbn [existsb mapM]. destruct (f x) as [y|e] eqn:E; [|intros _; eauto].
  cbn [rbind]. destruct (bad x) eqn:Hx.
  { destruct (Hbad x Hx) as [e He]. congruence. }
  cbn [orb]. intros H. destruct (IH H) as [e He]. rewrite He. cbn. eauto.
Qed.

Lemma greenhouse_job_lacks_departments (c fallback_url : string) (j : pyval) :
  lacks_departments j = true ->
  exists e, greenhouse_job c fallback_url j = Raise e.
Proof.
  destruct j as [| | | |l|items]; try discriminate. cbn [lacks_departments].
  unfold greenhouse_job, Py.get.
  destruct (Py.lookup_item items "departments"); [discriminate|].
  intros _. exists KeyError. reflexivity.
Qed.

(** X12.  One posting without the key [departments] in the answer of the
    Greenhouse API discards the whole answer: the default [[{}]] has no
    [name], the lookup raises, and [scrape_greenhouse] returns what
    [scrape_generic] finds on the fallback page, however many well-formed
    postings the answer carried. *)
Theorem scrape_greenhouse_posting_without_departments (W : World) (L : Lib)
    (slug c fallback_url : string) (tr : trace) (r : Response)
    (body : list (string * pyval)) (postings : list pyval) :
  requests_get W (List.length tr) (greenhouse_api slug) = Some r ->
  r_json r = Ok (PDict body) ->
  Py.lookup_item body "jobs" = Some (PList postings) ->
  existsb lacks_departments postings = true ->
  scrape_greenhouse W L slug c fallback_url tr
  = scrape_generic W L fallback_url c (tr ++ [EvGet (greenhouse_api slug)]).
Proof.
  intros Hget Hjson Hjobs Hbad.
  destruct (mapM_raises (greenhouse_job c fallback_url) lacks_departments
              (greenhouse_job_lacks_departments c fallback_url) postings Hbad)
    as [e He].
  unfold scrape_greenhouse, try_except, bind, http_get, lift.
  fold (greenhouse_api slug). rewrite Hget. cbn [of_option].
  rewrite Hjson. cbn [Py.get]. rewrite Hjobs. cbn [Py.iter]. rewrite He.
  reflexivity.
Qed.

(** X12 on a board with one well-formed posting and one that has only a
    title; no fallback page is given, so nothing is returned. *)
Lemma scrape_greenhouse_posting_without_departments_witness :
  scrape_greenhouse
    (world_of
       [ (greenhouse_api "acme",
          json_reply (greenhouse_api "acme")
            (PDict [("jobs", PList
               [ greenhouse_posting "Engineer" "Engineering" "Austin"
                   "https://boards.greenhouse.io/acme/jobs/1";
                 PDict [("title", PStr "Designer")] ])])) ])
    lib "acme" "Acme" "" []
  = ([EvGet (greenhouse_api "acme")], Ok []).
Proof.
  apply (scrape_greenhouse_posting_without_departments
             (world_of
                [ (greenhouse_api "acme",
                   json_reply (greenhouse_api "acme")
                     (PDict [("jobs", PList
                        [ greenhouse_posting "Engineer" "Engineering" "Austin"
                            "https://boards.greenhouse.io/acme/jobs/1";
                          PDict [("title", PStr "Designer")] ])])) ])
             lib "acme" "Acme" "" []
             (json_reply (greenhouse_api "acme")
                (PDict [("jobs", PList
                   [ greenhouse_posting "Engineer" "Engineering" "Austin"
                       "https://boards.greenhouse.io/acme/jobs/1";
                     PDict [("title", PStr "Designer")] ])]))
             [("jobs", PList
                 [ greenhouse_posting "Engineer" "Engineering" "Austin"
                     "https://boards.greenhouse.io/acme/jobs/1";
                   PDict [("title", PStr "Designer")] ])]
             [ greenhouse_posting "Engineer" "Engineering" "Austin"
                 "https://boards.greenhouse.io/acme/jobs/1";
               PDict [("title", PStr "Designer")] ]);
    reflexivity.
Defined.

(** ** The heuristics of the generic adapter *)

Lemma urls_tracked_snoc (jobs : list Job) (seen : gset string) (j : Job)
    (u : string) :
  urls_tracked jobs seen -> url j = PStr u -> u ∉ seen ->
  urls_tracked (jobs ++ [j]) ({[ u ]} ∪ seen).
Proof.
  intros [Hnd Hin] Hu Hnew. split.
  - rewrite map_app. apply NoDup_app. split; [exact Hnd|]. split.
    + intros v Hv Hv'. cbn in Hv'. apply list_elem_of_singleton in Hv'.
      destruct (Hin v Hv) as (u' & E & Hs). rewrite Hv', Hu in E.
      injection E as <-. exact (Hnew Hs).
    + cbn. apply NoDup_singleton.
  - intros v Hv. rewrite map_app in Hv. apply elem_of_app in Hv as [Hv|Hv].
    + destruct (Hin v Hv) as (u' & E & Hs). exists u'.
      split; [exact E | apply elem_of_union_r, Hs].
    + cbn in Hv. apply list_elem_of_singleton in Hv. exists u.
      split; [congruence | apply elem_of_union_l, elem_of_singleton; reflexivity].
Qed.

Section Heuristics.

Variable L : Lib.

Lemma class_heuristic_tracked (jobs_url c : string) (l : list Container) :
  forall jobs seen jobs' seen',
    titles_tracked jobs seen ->
    class_heuristic L jobs_url c l jobs seen = Ok (jobs', seen') ->
    titles_tracked jobs' seen'
    /\ List.length jobs' <= List.length jobs + List.length l.
Proof.
  induction l as [|k l IH]; intros jobs seen jobs' seen' Hinv Hrun.
  - cbn in Hrun. injection Hrun as <- <-. split; [exact Hinv | cbn; lia].
  - cbn [class_heuristic] in Hrun. cbn [List.length].
    assert (Hskip : forall js sn,
               titles_tracked js sn -> List.length js <= S (List.length jobs) ->
               class_heuristic L jobs_url c l js sn = Ok (jobs', seen') ->
               titles_tracked jobs' seen'
               /\ List.length jobs' <= List.length jobs + S (List.length l)).
    { intros js sn Hjs Hlen H. destruct (IH _ _ _ _ Hjs H) as [H1 H2].
      split; [exact H1 | lia]. }
    destruct (c_anchor k) as [a|]; [|apply (Hskip jobs seen); auto].
    set (t := get_text_strip _) in Hrun.
    destruct (negb (PyStr.nonempty t));
      [cbn [orb] in Hrun; apply (Hskip jobs seen); auto|].
    destruct (str_len L t <? 3)%nat;
      [cbn [orb] in Hrun; apply (Hskip jobs seen); auto|].
    destruct (bool_decide (t ∈ seen)) eqn:Hseen;
      [cbn [orb] in Hrun; apply (Hskip jobs seen); auto|].
    cbn [orb] in Hrun. apply bool_decide_eq_false in Hseen.
    destruct (urljoin L jobs_url (a_href a)) as [u|e]; [|discriminate Hrun].
    cbn [rbind] in Hrun.
    destruct (make_job_of_strings t "General"
                (group1_or "" (re_search L LOC_RE_GENERIC false
                                 (get_text_sep_strip (c_strings k))))
                (PStr u) c) as [j [Hj Ht]].
    rewrite Hj in Hrun. cbn [rbind] in Hrun.
    assert (Htitle : title j = t).
    { rewrite Ht. subst t. apply get_text_strip_stripped. }
    apply (Hskip _ _) in Hrun; [exact Hrun| |rewrite length_app; cbn; lia].
    rewrite <- Htitle in Hseen |- *.
    apply titles_tracked_snoc; assumption.
Qed.

Lemma link_scan_tracked (jobs_url c : string) (l : list Anchor) :
  forall jobs seen jobs' seen',
    urls_tracked jobs seen ->
    link_scan L jobs_url c l jobs seen = Ok (jobs', seen') ->
    urls_tracked jobs' seen'.
Proof.
  induction l as [|a l IH]; intros jobs seen jobs' seen' Hinv Hrun.
  - cbn in Hrun. injection Hrun as <- <-. exact Hinv.
  - cbn [link_scan] in Hrun.
    destruct (_ && _ && _); [|eauto].
    destruct (urljoin L jobs_url (a_href a)) as [u|e]; [|discriminate Hrun].
    cbn [rbind] in Hrun.
    destruct (bool_decide (u ∈ seen)) eqn:Hseen; cbn [negb] in Hrun; [eauto|].
    apply bool_decide_eq_false in Hseen.
    destruct (make_job _ _ _ _ _) as [j|e] eqn:Hj; [|discriminate Hrun].
    cbn [rbind] in Hrun. apply make_job_made_for in Hj as [_ Hu].
    refine (IH _ _ _ _ _ Hrun). apply urls_tracked_snoc; assumption.
Qed.

End Heuristics.

Lemma NoDup_map_take {A B} (f : A -> B) (n : nat) (l : list A) :
  NoDup (map f l) -> NoDup (map f (take n l)).
Proof.
  intros H. change (NoDup (f <$> take n l)). rewrite fmap_take.
  eapply sublist_NoDup; [exact H | apply sublist_take].
Qed.

(** X13.  On a page without the embedded-widget marker whose schema.org
    markup yields no record, [scrape_generic] returns either the records
    of the class heuristic, at most 150 with pairwise distinct titles, or
    those of the link scan, at most 200 with pairwise distinct urls. *)
Theorem scrape_generic_heuristics_bounded (W : World) (L : Lib)
    (jobs_url c : string) (tr tr1 tr' : trace) (html : string) (soup : Soup)
    (found_jobs : list Job) :
  fetch_html W jobs_url true tr = (tr1, Ok (Some html)) ->
  PyStr.contains "ashby_jid=" html = false ->
  BeautifulSoup L html = Ok soup ->
  schema_scripts L jobs_url c (ld_json_scripts soup) [] = [] ->
  scrape_generic W L jobs_url c tr = (tr', Ok found_jobs) ->
  (List.length found_jobs <= 150 /\ NoDup (map title found_jobs))
  \/ (List.length found_jobs <= 200 /\ NoDup (map url found_jobs)).
Proof.
  intros Hfetch Hmark Hsoup Hschema Hrun.
  assert (Hnone : forall t (js : list Job),
             (t, Ok (@nil Job)) = (tr', Ok found_jobs) ->
             (List.length found_jobs <= 150 /\ NoDup (map title found_jobs))
             \/ (List.length found_jobs <= 200 /\ NoDup (map url found_jobs))).
  { intros t _ E. injection E as _ <-. left. split; [cbn; lia | constructor]. }
  unfold scrape_generic in Hrun.
  destruct (negb (PyStr.nonempty jobs_url)); [exact (Hnone _ [] Hrun)|].
  unfold bind at 1 in Hrun. rewrite Hfetch in Hrun. cbn [html_ok opt_str] in Hrun.
  destruct (negb (PyStr.nonempty html)); [exact (Hnone _ [] Hrun)|].
  rewrite Hmark in Hrun. unfold bind at 1, lift at 1 in Hrun.
  rewrite Hsoup, Hschema in Hrun. cbn [nonempty_list] in Hrun.
  unfold bind at 1, lift at 1 in Hrun.
  destruct (class_heuristic L jobs_url c _ [] ∅) as [[jobs1 seen]|e] eqn:Hclass;
    [|discriminate Hrun].
  apply class_heuristic_tracked in Hclass as [[Hnd _] Hlen];
    [|apply titles_tracked_nil].
  destruct jobs1 as [|j jobs1]; cbn [nonempty_list] in Hrun.
  - unfold bind, lift in Hrun.
    destruct (link_scan L jobs_url c _ [] seen) as [[jobs2 seen2]|e] eqn:Hscan;
      [|discriminate Hrun].
    injection Hrun as _ <-. cbn [fst]. right.
    apply link_scan_tracked in Hscan as [Hnd2 _].
    + split; [rewrite length_take; lia | apply NoDup_map_take, Hnd2].
    + split; [constructor | intros v Hv; inversion Hv].
  - injection Hrun as _ <-. left. split; [|exact Hnd].
    rewrite length_take in Hlen. cbn [List.length] in Hlen |- *. lia.
Qed.

(** X13 on a listings page that shows one posting in two containers. *)
Lemma scrape_generic_heuristics_bounded_witness :
  (List.length
     [job "Engineer" "General" "Not specified"
        (PStr "https://acme.test/jobs/1") "Acme" ""] <= 150
   /\ NoDup (map title
        [job "Engineer" "General" "Not specified"
           (PStr "https://acme.test/jobs/1") "Acme" ""]))
  \/ (List.length
        [job "Engineer" "General" "Not specified"
           (PStr "https://acme.test/jobs/1") "Acme" ""] <= 200
      /\ NoDup (map url
           [job "Engineer" "General" "Not specified"
              (PStr "https://acme.test/jobs/1") "Acme" ""])).
Proof.
  apply (scrape_generic_heuristics_bounded
           (world_careers "<div class='job'>Engineer</div>") lib_listing
           "https://acme.test/careers" "Acme" []
           [EvGet "https://acme.test/careers"]
           [EvGet "https://acme.test/careers"]
           "<div class='job'>Engineer</div>" soup_listing);
    vm_compute; reflexivity.
Defined.

(** ** Board URLs *)

Lemma differs_strip_prefix (lit t s : string) :
  differs lit t = true -> PyStr.strip_prefix lit (t +:+ s) = None.
Proof.
  revert t. induction lit as [|a lit IH]; intros t H; [discriminate H|].
  destruct t as [|b t]; [discriminate H|]. rewrite append_cons.
  cbn [differs] in H. cbn [PyStr.strip_prefix].
  destruct (Ascii.eqb a b); [apply IH, H | reflexivity].
Qed.

Lemma search_slug_absent (lit pre s : string) :
  absent_from lit pre = true ->
  Re.search_slug lit (pre +:+ s) = Re.search_slug lit s.
Proof.
  induction pre as [|c pre IH]; [reflexivity|]. cbn [absent_from].
  intros H. apply andb_prop in H as [Hd Ha].
  unfold Re.search_slug, Re.search_lit_plus in *.
  rewrite (append_cons c pre s) at 1.
  cbn [Re.leftmost]. rewrite <- (append_cons c pre s).
  rewrite (differs_strip_prefix _ _ s Hd). apply IH, Ha.
Qed.

Lemma all_chars_app (p : ascii -> bool) (a b : string) :
  all_chars p (a +:+ b) = all_chars p a && all_chars p b.
Proof.
  induction a as [|c a IH]; [reflexivity|]. rewrite append_cons.
  cbn [all_chars]. rewrite IH. apply andb_assoc.
Qed.

Lemma take_while_all (cls : ascii -> bool) (s : string) :
  all_chars cls s = true -> Re.take_while cls s = s.
Proof.
  induction s as [|c s IH]; [reflexivity|]. cbn [all_chars Re.take_while].
  intros H. apply andb_prop in H as [-> H]. f_equal. apply IH, H.
Qed.

(** A literal with a character outside the slug class is not found in a
    run of slug characters. *)
Lemma search_slug_in_slug (lit s : string) :
  all_chars Re.slug_char lit = false -> all_chars Re.slug_char s = true ->
  Re.search_slug lit s = None.
Proof.
  intros Hlit. unfold Re.search_slug, Re.search_lit_plus.
  assert (Hhere : forall t, all_chars Re.slug_char t = true ->
                            PyStr.strip_prefix lit t = None).
  { intros t Ht. destruct (PyStr.strip_prefix lit t) as [rest|] eqn:E;
      [|reflexivity].
    apply strip_prefix_spec in E. subst t. rewrite all_chars_app in Ht.
    apply andb_prop in Ht as [Ht _]. congruence. }
  induction s as [|c s IH]; intros Hs; cbn [Re.leftmost]; rewrite (Hhere _ Hs).
  - reflexivity.
  - cbn [all_chars] in Hs. apply andb_prop in Hs as [_ Hs]. apply IH, Hs.
Qed.

Lemma search_slug_miss (lit pre slug : string) :
  absent_from lit pre = true ->
  all_chars Re.slug_char lit = false ->
  all_chars Re.slug_char slug = true ->
  Re.search_slug lit (pre +:+ slug) = None.
Proof.
  intros Ha Hlit Hs. rewrite search_slug_absent by exact Ha.
  apply search_slug_in_slug; assumption.
Qed.

Lemma search_slug_hit (lit pre slug : string) :
  absent_from lit pre = true ->
  PyStr.nonempty slug = true ->
  all_chars Re.slug_char slug = true ->
  Re.search_slug lit (pre +:+ lit +:+ slug) = Some slug.
Proof.
  intros Ha Hne Hs. rewrite search_slug_absent by exact Ha.
  unfold Re.search_slug, Re.search_lit_plus.
  destruct (lit +:+ slug) as [|c t] eqn:E; cbn [Re.leftmost]; rewrite <- E;
    rewrite strip_prefix_app, (take_while_all _ _ Hs);
    destruct slug; [discriminate Hne | reflexivity | discriminate Hne | reflexivity].
Qed.

(** The first check of the table fails on the URL. *)
Ltac miss lit pre :=
  match goal with
  | |- context [Re.search_slug lit ?u] =>
      let E := fresh "E" in
      assert (E : Re.search_slug lit u = None)
        by (apply (search_slug_miss lit pre);
            [reflexivity | reflexivity | assumption]);
      rewrite E; clear E
  end.

(** The check of the table with literal [lit] finds the slug. *)
Ltac hit lit pre :=
  match goal with
  | |- context [Re.search_slug lit ?u] =>
      let E := fresh "E" in
      assert (E : Re.search_slug lit u = Some _)
        by (apply (search_slug_hit lit pre);
            [reflexivity | assumption | assumption]);
      rewrite E; clear E
  end.

(** X14.  Every board URL is read back: for each pattern of the table,
    the URL made of [https://], the host and path of the pattern and a
    slug of the characters [a-zA-Z0-9_-] is classified as the kind of
    that pattern, with that slug. *)
Theorem detect_ats_from_url_board (lit ats slug : string) :
  In (lit, ats) url_checks ->
  PyStr.nonempty slug = true ->
  all_chars Re.slug_char slug = true ->
  detect_ats_from_url ("https://" +:+ lit +:+ slug) = (Some ats, Some slug).
Proof.
  intros Hin Hne Hall. unfold detect_ats_from_url.
  change (PyStr.is_empty ("https://" +:+ lit +:+ slug)) with false.
  cbv iota. unfold url_checks in *. cbn [first_check].
  cbn [In] in Hin.
  repeat (destruct Hin as [Hin|Hin]; [injection Hin as <- <-|]);
    [ hit "boards.greenhouse.io/" "https://"
    | hit "boards.greenhouse.io/" "https://job-"
    | miss "boards.greenhouse.io/" "https://jobs.lever.co/";
      miss "job-boards.greenhouse.io/" "https://jobs.lever.co/";
      hit "jobs.lever.co/" "https://"
    | miss "boards.greenhouse.io/" "https://jobs.ashbyhq.com/";
      miss "job-boards.greenhouse.io/" "https://jobs.ashbyhq.com/";
      miss "jobs.lever.co/" "https://jobs.ashbyhq.com/";
      hit "jobs.ashbyhq.com/" "https://"
    | miss "boards.greenhouse.io/" "https://ashbyhq.com/";
      miss "job-boards.greenhouse.io/" "https://ashbyhq.com/";
      miss "jobs.lever.co/" "https://ashbyhq.com/";
      miss "jobs.ashbyhq.com/" "https://ashbyhq.com/";
      hit "ashbyhq.com/" "https://"
    | miss "boards.greenhouse.io/" "https://apply.workable.com/";
      miss "job-boards.greenhouse.io/" "https://apply.workable.com/";
      miss "jobs.lever.co/" "https://apply.workable.com/";
      miss "jobs.ashbyhq.com/" "https://apply.workable.com/";
      miss "ashbyhq.com/" "https://apply.workable.com/";
      hit "apply.workable.com/" "https://"
    | miss "boards.greenhouse.io/" "https://ats.rippling.com/";
      miss "job-boards.greenhouse.io/" "https://ats.rippling.com/";
      miss "jobs.lever.co/" "https://ats.rippling.com/";
      miss "jobs.ashbyhq.com/" "https://ats.rippling.com/";
      miss "ashbyhq.com/" "https://ats.rippling.com/";
      miss "apply.workable.com/" "https://ats.rippling.com/";
      hit "ats.rippling.com/" "https://"
    | destruct Hin ];
    reflexivity.
Qed.

(** X14 on the board of a company whose slug has capitals. *)
Lemma detect_ats_from_url_board_witness :
  detect_ats_from_url "https://jobs.ashbyhq.com/ResQ" = (Some "ashby", Some "ResQ").
Proof.
  apply (detect_ats_from_url_board "jobs.ashbyhq.com/" "ashby" "ResQ").
  - cbn. tauto.
  - reflexivity.
  - reflexivity.
Defined.
